(** * SafeTrip: geospatial risk evaluation and alert lifecycle

    A shallow embedding of the Express route handlers of the SafeTrip
    backend (emergency, alerts, tourist, authority and geo routers) and
    of their helpers [calculateDistance] and [calculateSafetyScore].

    Conventions of the embedding.
    - A JavaScript number is a real number; the value NaN is [None] in
      [option R].  Rounding of IEEE doubles and signed zeros are not
      represented: every arithmetic expression denotes its exact value.
    - Integer-valued quantities (scores, HTTP codes, timestamps in
      milliseconds) are in [Z].
    - A MongoDB collection is the list of its documents, in insertion
      order; a document carries its [_id].  The record store is assumed
      reachable: a query never fails for a network reason.
    - A handler is a function from the request and the store to a
      response and the new store.  An exception caught by the handler's
      [try]/[catch] gives the response of the [catch] block and the
      store as it was when the exception was raised. *)

From Stdlib Require Import Reals Lra Lia ZArith List String Bool Permutation.
From Stdlib Require Import Sorted.
Import ListNotations.
Local Open Scope Z_scope.
Local Open Scope string_scope.

(** ** JavaScript values and built-ins *)

Module Js.

(** The scalar values a JSON body can hold, [JsUndefined] standing
    for a field that is absent. *)
Inductive JsValue : Type :=
| JsUndefined
| JsNull
| JsBool (b : bool)
| JsNumber (x : R)
| JsString (s : string).

(** A number that may be NaN. *)
Definition number : Type := option R.

Definition Rleb (x y : R) : bool := if Rle_dec x y then true else false.
Definition Rltb (x y : R) : bool := if Rlt_dec x y then true else false.
Definition Reqb (x y : R) : bool := if Req_dec_T x y then true else false.

Arguments Rleb : simpl never.
Arguments Rltb : simpl never.
Arguments Reqb : simpl never.

(** [x <= y] on numbers: false as soon as one side is NaN. *)
Definition le (x : number) (y : R) : bool :=
  match x with
  | Some d => Rleb d y
  | None => false
  end.

(** ToBoolean: [!v] is [negb (truthy v)]. *)
Definition truthy (v : JsValue) : bool :=
  match v with
  | JsUndefined | JsNull => false
  | JsBool b => b
  | JsNumber x => negb (Reqb x 0)
  | JsString s => negb (String.eqb s "")
  end.

(** [list.includes(v)] for a list of string literals: strict equality,
    so only a string can be found. *)
Definition includes (l : list string) (v : JsValue) : bool :=
  match v with
  | JsString s => existsb (String.eqb s) l
  | _ => false
  end.

(** Truncation toward zero. *)
Definition trunc (x : R) : R :=
  if Rle_dec 0 x then IZR (Int_part x) else (- IZR (Int_part (- x)))%R.

(** First significant decimal digit of a positive real. *)
Definition leadingDigit (y : R) : R :=
  IZR (Int_part (y * powerRZ 10 (- Int_part (ln y / ln 10)))).

(** [parseInt(x)] for a number [x]: the number is first printed.  From
    1e-6 up to 1e21 (in absolute value) it is printed in positional
    notation and the integer part is read back; outside, it is printed
    with an exponent and only the leading digit is read. *)
Definition parseIntNumber (x : R) : R :=
  if Req_dec_T x 0 then 0%R
  else if Rle_dec (1 / 1000000) (Rabs x) then
    if Rlt_dec (Rabs x) (powerRZ 10 21) then trunc x
    else if Rle_dec 0 x then leadingDigit x else (- leadingDigit (- x))%R
  else if Rle_dec 0 x then leadingDigit x else (- leadingDigit (- x))%R.

Arguments parseIntNumber : simpl never.

Section Strings.
(** Conversions between strings and numbers are built-ins of the
    runtime; they are taken as they come. *)
Variable parseFloatString : string -> number.
Variable parseIntString : string -> number.
Variable numberToString : R -> string.
Variable stringToNumber : string -> number.

Definition parseFloat (v : JsValue) : number :=
  match v with
  | JsNumber x => Some x
  | JsString s => parseFloatString s
  | _ => None
  end.

Definition parseInt (v : JsValue) : number :=
  match v with
  | JsNumber x => Some (parseIntNumber x)
  | JsString s => parseIntString s
  | _ => None
  end.

(** ToString, as a template literal applies it. *)
Definition toString (v : JsValue) : string :=
  match v with
  | JsUndefined => "undefined"
  | JsNull => "null"
  | JsBool true => "true"
  | JsBool false => "false"
  | JsNumber x => numberToString x
  | JsString s => s
  end.

(** ToNumber, as arithmetic applies it to an operand that is not a
    number: [lat1 * Math.PI] with [lat1] a string multiplies
    [Number(lat1)]. *)
Definition toNumber (v : JsValue) : number :=
  match v with
  | JsUndefined => None
  | JsNull => Some 0%R
  | JsBool b => Some (if b then 1%R else 0%R)
  | JsNumber x => Some x
  | JsString s => stringToNumber s
  end.
End Strings.

(** [Math.sqrt]: NaN on a negative argument. *)
Definition Math_sqrt (x : R) : number :=
  if Rlt_dec x 0 then None else Some (sqrt x).

(** [Math.atan2(y, x)]. *)
Definition Math_atan2 (y x : R) : R :=
  if Rlt_dec 0 x then atan (y / x)
  else if Rlt_dec x 0 then
    if Rle_dec 0 y then (atan (y / x) + PI)%R else (atan (y / x) - PI)%R
  else if Rlt_dec 0 y then (PI / 2)%R
  else if Rlt_dec y 0 then (- PI / 2)%R
  else 0%R.

End Js.
Import Js.

(** ** GeoMath *)

(** [calculateDistance] of routes/geo.js and of the tourist router: the
    two copies are the same text.  The result is NaN when a square root
    is taken of a negative number.  Over the reals the haversine term
    [a] of two valid positions never leaves [0, 1]; in doubles it can
    round above 1 for nearly antipodal points, and the code then returns
    NaN.  No theorem below rests on the result being a number where
    rounding decides it. *)
Definition calculateDistance (lat1 lng1 lat2 lng2 : R) : number :=
  let R := 6371000%R in
  let phi1 := (lat1 * PI / 180)%R in
  let phi2 := (lat2 * PI / 180)%R in
  let dphi := ((lat2 - lat1) * PI / 180)%R in
  let dlambda := ((lng2 - lng1) * PI / 180)%R in
  let a := (sin (dphi / 2) * sin (dphi / 2) +
            cos phi1 * cos phi2 *
            sin (dlambda / 2) * sin (dlambda / 2))%R in
  match Math_sqrt a, Math_sqrt (1 - a) with
  | Some sa, Some sa' => Some (R * (2 * Math_atan2 sa sa'))%R
  | _, _ => None
  end.

Arguments calculateDistance : simpl never.

(** ** Data model

    The Mongoose schemas (models/User, models/Alert, models/Incident,
    models/GeoFence) are not among the sources.  A document is
    represented by the fields the handlers read or write; what a schema
    accepts at [save()] is a parameter of the development (section
    [Server] below).  Two fields that the handlers leave to the schema
    are filled in here: a new document is stamped with the time of its
    creation, and a new geo-fence is active.  The e-FIR number of an
    incident, which the Incident model generates, is not represented. *)

Definition ObjectId : Type := nat.
Bind Scope nat_scope with ObjectId.

Record User : Type := mkUser {
  user_id : ObjectId;
  user_name : string;
  user_phone : string;
  user_email : string;
  user_userType : string }.

Record CurrentLocation : Type := mkCurrentLocation {
  cur_lat : R;
  cur_lng : R;
  cur_timestamp : Z }.

Record Tourist : Type := mkTourist {
  tourist_id : ObjectId;
  tourist_userId : ObjectId;
  tourist_status : string;
  tourist_currentLocation : option CurrentLocation;
  tourist_safetyScore : Z;
  tourist_locationSharing : bool }.

Record Authority : Type := mkAuthority {
  authority_id : ObjectId;
  authority_userId : ObjectId;
  authority_isOnDuty : bool;
  authority_department : string }.

Record Location : Type := mkLocation {
  loc_lat : R;
  loc_lng : R;
  loc_address : option string }.

Record Alert : Type := mkAlert {
  alert_id : ObjectId;
  alert_type : string;
  alert_touristId : option ObjectId;
  alert_location : Location;
  alert_message : string;
  alert_description : option string;
  alert_severity : option string;
  alert_status : string;
  alert_authorityId : option ObjectId;
  alert_createdAt : Z;
  alert_updatedAt : Z }.

Record Incident : Type := mkIncident {
  incident_id : ObjectId;
  incident_reporterId : ObjectId;
  incident_type : string;
  incident_title : string;
  incident_description : string;
  incident_location : Location;
  incident_severity : string;
  incident_witnesses : list string;
  incident_evidences : list string;
  incident_assignedOfficer : option ObjectId }.

Record LatLng : Type := mkLatLng {
  center_lat : R;
  center_lng : R }.

Record GeoFence : Type := mkGeoFence {
  fence_id : ObjectId;
  fence_name : string;
  fence_description : option string;
  fence_type : string;
  fence_center : LatLng;
  fence_radius : R;
  fence_region : string;
  fence_isActive : bool;
  fence_createdBy : ObjectId;
  fence_updatedAt : Z }.

(** The record store.  [nextId] is the next fresh [_id]. *)
Record Db : Type := mkDb {
  users : list User;
  tourists : list Tourist;
  authorities : list Authority;
  alerts : list Alert;
  incidents : list Incident;
  geoFences : list GeoFence;
  nextId : ObjectId }.

Definition set_tourists (l : list Tourist) (db : Db) : Db :=
  mkDb (users db) l (authorities db) (alerts db) (incidents db)
       (geoFences db) (nextId db).

Definition set_alerts (l : list Alert) (db : Db) : Db :=
  mkDb (users db) (tourists db) (authorities db) l (incidents db)
       (geoFences db) (nextId db).

Definition set_incidents (l : list Incident) (db : Db) : Db :=
  mkDb (users db) (tourists db) (authorities db) (alerts db) l
       (geoFences db) (nextId db).

Definition set_geoFences (l : list GeoFence) (db : Db) : Db :=
  mkDb (users db) (tourists db) (authorities db) (alerts db) (incidents db)
       l (nextId db).

(** A fresh [_id] has been handed out. *)
Definition bump (db : Db) : Db :=
  mkDb (users db) (tourists db) (authorities db) (alerts db) (incidents db)
       (geoFences db) (S (nextId db)).

Definition set_tourist_status (s : string) (t : Tourist) : Tourist :=
  mkTourist (tourist_id t) (tourist_userId t) s (tourist_currentLocation t)
            (tourist_safetyScore t) (tourist_locationSharing t).

Definition set_tourist_location (l : CurrentLocation) (score : Z)
    (t : Tourist) : Tourist :=
  mkTourist (tourist_id t) (tourist_userId t) (tourist_status t) (Some l)
            score (tourist_locationSharing t).

Definition set_incident_assignedOfficer (o : ObjectId) (i : Incident)
    : Incident :=
  mkIncident (incident_id i) (incident_reporterId i) (incident_type i)
             (incident_title i) (incident_description i)
             (incident_location i) (incident_severity i)
             (incident_witnesses i) (incident_evidences i) (Some o).

(** ** Collections *)

Section Collections.
Context {A : Type} (getId : A -> ObjectId).

Definition findById (id : ObjectId) (l : list A) : option A :=
  find (fun d => Nat.eqb (getId d) id) l.

(** [Model.findByIdAndUpdate(id, update, { new: true })]: the first
    document with this [_id] is rewritten and returned; schema
    validators are not run on this path (Mongoose runs them on an
    update only when [runValidators] is set, and no call sets it). *)
Fixpoint findByIdAndUpdate (id : ObjectId) (update : A -> A) (l : list A)
    : option A * list A :=
  match l with
  | [] => (None, [])
  | d :: r =>
      if Nat.eqb (getId d) id then (Some (update d), update d :: r)
      else let (res, r') := findByIdAndUpdate id update r in (res, d :: r')
  end.

(** [new Model(...).save()] once validation has passed: the new
    document is inserted. *)
Definition create (d : A) (l : list A) : list A := l ++ [d].

(** [doc.save()] once validation has passed, for a document read from
    the collection: it is written back under its [_id]. *)
Definition save (d : A) (l : list A) : list A :=
  snd (findByIdAndUpdate (getId d) (fun _ => d) l).
End Collections.

(** ** HTTP responses *)

Record Response (D : Type) : Type := mkResponse {
  res_status : Z;
  res_success : bool;
  res_message : string;
  res_data : option D }.
Arguments mkResponse {D}.
Arguments res_status {D}.
Arguments res_success {D}.
Arguments res_message {D}.
Arguments res_data {D}.

Definition fail {D : Type} (status : Z) (message : string) : Response D :=
  mkResponse status false message None.

Definition ok {D : Type} (status : Z) (message : string) (data : D)
    : Response D :=
  mkResponse status true message (Some data).

(** The error taxonomy of the specification, read off a response.  No
    handler has a response for a refused lifecycle edge. *)
Inductive ErrorKind : Type :=
| ValidationError
| PermissionError
| NotFoundError
| InvalidTransitionError
| ServerError.

Definition errorKind {D : Type} (r : Response D) : option ErrorKind :=
  if Z.eqb (res_status r) 400 then Some ValidationError
  else if Z.eqb (res_status r) 403 then Some PermissionError
  else if Z.eqb (res_status r) 404 then Some NotFoundError
  else if Z.eqb (res_status r) 500 then Some ServerError
  else None.

(** [req.user], as the auth middleware decodes it from the token. *)
Record ReqUser : Type := mkReqUser {
  userId : ObjectId;
  userType : string }.

Definition isAuthority (user : ReqUser) : bool :=
  String.eqb (userType user) "authority".

(** ** ScoreEngine *)

(** One turn of the loop over the danger zones. *)
Definition zonePenalty (lat lng : R) (score : Z) (zone : GeoFence) : Z :=
  let distance :=
    calculateDistance lat lng (center_lat (fence_center zone))
                      (center_lng (fence_center zone)) in
  if le distance (fence_radius zone) then score - 30
  else if le distance (fence_radius zone * 2) then score - 15
  else score.

Definition isDangerZone (zone : GeoFence) : bool :=
  String.eqb (fence_type zone) "danger" && fence_isActive zone.

(** [hour >= 22 || hour <= 5] *)
Definition nightTime (hour : Z) : bool :=
  Z.leb 22 hour || Z.leb hour 5.

(** Modelled from the spec: the proximity query of the record store
    ([$near] with [$maxDistance: 1000]) and the index it needs are not
    among the sources.  Following section 4.3, step 4, an alert is near
    when its location is within 1000 m of the position, the distance
    being that of GeoMath. *)
Definition nearQuery (lat lng : R) (maxDistance : R) (a : Alert) : bool :=
  le (calculateDistance lat lng (loc_lat (alert_location a))
                        (loc_lng (alert_location a)))
     maxDistance.

(** The filter of [Alert.find] in [calculateSafetyScore]. *)
Definition recentAlertFilter (lat lng : R) (now : Z) (a : Alert) : bool :=
  nearQuery lat lng 1000 a
  && Z.leb (now - 24 * 60 * 60 * 1000) (alert_createdAt a)
  && existsb (String.eqb (alert_type a)) ["incident"; "sos"].

(** A coordinate of the point of the proximity query.  The query casts
    a string or a boolean to a number, as [Number] does, and refuses
    NaN; undefined, null and the empty string are no number to it. *)
Definition queryCoordinate (stringToNumber : string -> number) (v : JsValue)
    : number :=
  match v with
  | JsUndefined | JsNull => None
  | JsString s =>
      if String.eqb s "" then None else toNumber stringToNumber v
  | _ => toNumber stringToNumber v
  end.

(** [calculateSafetyScore(lat, lng)], run at local hour [hour] and time
    [now] (milliseconds).  The arguments are the raw body fields, so a
    coordinate may be a string: the arithmetic of [calculateDistance]
    in the loop over the zones converts it with ToNumber, and the
    proximity query casts it.  Where the query accepts the point the
    two conversions give the same number, and the function runs at
    that position; where the query refuses it, it throws, and the
    [catch] block returns 85 whatever the loop has subtracted. *)
Definition calculateSafetyScore (stringToNumber : string -> number)
    (lat lng : JsValue) (hour now : Z) (db : Db) : Z :=
  match queryCoordinate stringToNumber lat,
        queryCoordinate stringToNumber lng with
  | Some lat, Some lng =>
      let score := 85 in
      let dangerZones := filter isDangerZone (geoFences db) in
      let score := fold_left (zonePenalty lat lng) dangerZones score in
      let score := if nightTime hour then score - 10 else score in
      let recentAlerts := filter (recentAlertFilter lat lng now) (alerts db) in
      let score := score - Z.of_nat (List.length recentAlerts) * 5 in
      Z.max 0 (Z.min 100 score)
  | _, _ => 85
  end.

(** ** Request bodies *)

Record LocationBody : Type := mkLocationBody {
  body_lat : JsValue;
  body_lng : JsValue;
  body_address : JsValue }.

Record SosBody : Type := mkSosBody {
  sos_location : option LocationBody;
  sos_message : JsValue;
  sos_severity : JsValue }.

Record IncidentBody : Type := mkIncidentBody {
  inc_type : JsValue;
  inc_title : JsValue;
  inc_description : JsValue;
  inc_location : option LocationBody;
  inc_severity : JsValue;
  inc_witnesses : option (list string);
  inc_evidences : option (list string) }.

Record StatusBody : Type := mkStatusBody {
  body_status : JsValue;
  body_responseNotes : JsValue }.

Record PointBody : Type := mkPointBody {
  point_lat : JsValue;
  point_lng : JsValue }.

Record FenceBody : Type := mkFenceBody {
  fb_name : JsValue;
  fb_description : JsValue;
  fb_type : JsValue;
  fb_center : option PointBody;
  fb_radius : JsValue;
  fb_region : JsValue;
  fb_isActive : option bool }.

(** ** Response payloads *)

Record CheckResult : Type := mkCheckResult {
  geoFence : GeoFence;
  distance : number;
  isInside : bool }.

Record CheckData : Type := mkCheckData {
  check_lat : number;
  check_lng : number;
  check_geoFences : list CheckResult;
  isInDangerZone : bool }.

Record LocationData : Type := mkLocationData {
  data_location : CurrentLocation;
  data_safetyScore : Z }.

(** The fields [PUT /fences/:id] collects in [updateData]. *)
Record FenceUpdate : Type := mkFenceUpdate {
  up_name : option string;
  up_description : option string;
  up_type : option string;
  up_center : option LatLng;
  up_radius : option R;
  up_isActive : option bool;
  up_updatedAt : Z }.

Definition orElse {A : Type} (o : option A) (d : A) : A :=
  match o with
  | Some x => x
  | None => d
  end.

Definition applyFenceUpdate (u : FenceUpdate) (f : GeoFence) : GeoFence :=
  mkGeoFence (fence_id f)
             (orElse (up_name u) (fence_name f))
             (match up_description u with
              | Some d => Some d
              | None => fence_description f
              end)
             (orElse (up_type u) (fence_type f))
             (orElse (up_center u) (fence_center f))
             (orElse (up_radius u) (fence_radius f))
             (fence_region f)
             (orElse (up_isActive u) (fence_isActive f))
             (fence_createdBy f)
             (up_updatedAt u).

(** ** ZoneIndex: the containment query of [POST /check-location] *)

Definition distanceTo (latitude longitude : number) (fence : GeoFence)
    : number :=
  match latitude, longitude with
  | Some latitude, Some longitude =>
      calculateDistance latitude longitude
                        (center_lat (fence_center fence))
                        (center_lng (fence_center fence))
  | _, _ => None
  end.

(** One turn of the loop: [results.push] when the fence contains the
    point. *)
Definition checkFence (latitude longitude : number)
    (results : list CheckResult) (fence : GeoFence) : list CheckResult :=
  let distance := distanceTo latitude longitude fence in
  if le distance (fence_radius fence)
  then results ++ [mkCheckResult fence distance true]
  else results.

(** [GeoFence.find({ isActive: true })] followed by the loop. *)
Definition containingZones (latitude longitude : number) (db : Db)
    : list CheckResult :=
  let geoFences := filter fence_isActive (geoFences db) in
  fold_left (checkFence latitude longitude) geoFences [].

(** The test of the loop. *)
Definition contains (latitude longitude : number) (fence : GeoFence) : bool :=
  le (distanceTo latitude longitude fence) (fence_radius fence).

(** ** Route handlers *)

Section Server.

(** Built-ins of the runtime. *)
Variable parseFloatString : string -> number.
Variable parseIntString : string -> number.
Variable numberToString : R -> string.
Variable stringToNumber : string -> number.

(** What each schema accepts when a document is saved. *)
Variable alertSchema : Alert -> bool.
Variable incidentSchema : Incident -> bool.
Variable geoFenceSchema : GeoFence -> bool.
Variable touristSchema : Tourist -> bool.

(** What the GeoFence schema gives [isActive] in a document created
    without it.  [POST /fences] does not set the field and the schema is
    not among the sources; every fence is taken to carry the field, as
    the queries on it in the other handlers expect. *)
Variable isActiveDefault : bool.

Abbreviation parseFloat := (Js.parseFloat parseFloatString).
Abbreviation parseInt := (Js.parseInt parseIntString).
Abbreviation toString := (Js.toString numberToString).

(** Mongoose's cast of a value to a String path. *)
Definition castString (v : JsValue) : option string :=
  match v with
  | JsUndefined | JsNull => None
  | _ => Some (toString v)
  end.

(** [Tourist.findOne({ userId: req.user.userId })] *)
Definition findTourist (user : ReqUser) (db : Db) : option Tourist :=
  find (fun t => Nat.eqb (tourist_userId t) (userId user)) (tourists db).

(** [Authority.findOne({ userId: req.user.userId })] *)
Definition findAuthority (user : ReqUser) (db : Db) : option Authority :=
  find (fun a => Nat.eqb (authority_userId a) (userId user))
       (authorities db).

(** *** Emergency router *)

(** [POST /sos] *)
Definition post_sos (user : ReqUser) (body : SosBody) (now : Z) (db : Db)
    : Response Alert * Db :=
  let required := "Location coordinates are required for SOS" in
  let error := "Server error while sending SOS alert" in
  match sos_location body with
  | None => (fail 400 required, db)
  | Some location =>
    if negb (truthy (body_lat location)) || negb (truthy (body_lng location))
    then (fail 400 required, db)
    else
      match findTourist user db with
      | None => (fail 404 "Tourist profile not found", db)
      | Some tourist =>
        (* tourist.userId is populated: the user document, or null *)
        let populated := findById user_id (tourist_userId tourist) (users db) in
        let message :=
          if truthy (sos_message body) then Some (toString (sos_message body))
          else option_map (fun u => "Emergency SOS from " ++ user_name u)
                          populated in
        let severity :=
          match sos_severity body with
          | JsUndefined => JsString "critical"
          | v => v
          end in
        match parseFloat (body_lat location),
              parseFloat (body_lng location), message with
        | Some lat, Some lng, Some message =>
          let sosAlert :=
            mkAlert (nextId db) "sos" (Some (tourist_id tourist))
                    (mkLocation lat lng (castString (body_address location)))
                    message None (castString severity) "active" None
                    now now in
          if alertSchema sosAlert then
            let db1 := set_alerts (create sosAlert (alerts db))
                                  (bump db) in
            let tourist' := set_tourist_status "emergency" tourist in
            if touristSchema tourist' then
              (* notifyAuthorities and notifyEmergencyContacts log and send
                 mail; they catch their own errors and write nothing *)
              (ok 201 "SOS alert sent successfully. Help is on the way!"
                  sosAlert,
               set_tourists (save tourist_id tourist' (tourists db1)) db1)
            else (fail 500 error, db1)
          else (fail 500 error, db)
        | _, _, _ => (fail 500 error, db)
        end
      end
  end.

(** [assignToAuthority(incident)]: first on-duty authority of the two
    departments; a failure to save is logged and goes no further. *)
Definition assignToAuthority (incident : Incident) (db : Db)
    : Incident * Db :=
  let availableAuthorities :=
    filter (fun a => authority_isOnDuty a
                     && existsb (String.eqb (authority_department a))
                                ["Police Department"; "Tourism Department"])
           (authorities db) in
  match availableAuthorities with
  | first :: _ =>
      let incident' :=
        set_incident_assignedOfficer (authority_id first) incident in
      if incidentSchema incident'
      then (incident',
            set_incidents (save incident_id incident' (incidents db)) db)
      else (incident', db)
  | [] => (incident, db)
  end.

(** [POST /incident] *)
Definition post_incident (user : ReqUser) (body : IncidentBody) (now : Z)
    (db : Db) : Response (Incident * Alert) * Db :=
  let error := "Server error while reporting incident" in
  match inc_location body with
  | None =>
      (fail 400 "Type, title, description, and location are required", db)
  | Some location =>
    if negb (truthy (inc_type body)) || negb (truthy (inc_title body))
       || negb (truthy (inc_description body))
    then (fail 400 "Type, title, description, and location are required", db)
    else
      match findTourist user db with
      | None => (fail 404 "Tourist profile not found", db)
      | Some tourist =>
        match parseFloat (body_lat location),
              parseFloat (body_lng location) with
        | Some lat, Some lng =>
          let incident :=
            mkIncident (nextId db) (tourist_id tourist)
                       (toString (inc_type body))
                       (toString (inc_title body))
                       (toString (inc_description body))
                       (mkLocation lat lng
                                   (castString (body_address location)))
                       (if truthy (inc_severity body)
                        then toString (inc_severity body) else "medium")
                       (orElse (inc_witnesses body) [])
                       (orElse (inc_evidences body) [])
                       None in
          if incidentSchema incident then
            let db1 := set_incidents
                         (create incident (incidents db))
                         (bump db) in
            let alert :=
              mkAlert (nextId db1) "incident" (Some (tourist_id tourist))
                      (incident_location incident)
                      ("Incident reported: " ++ toString (inc_title body))
                      (Some (toString (inc_description body)))
                      (Some (incident_severity incident)) "active" None
                      now now in
            if alertSchema alert then
              let db2 := set_alerts (create alert (alerts db1))
                                    (bump db1) in
              let (incident', db3) := assignToAuthority incident db2 in
              (ok 201 "Incident reported successfully" (incident', alert),
               db3)
            else (fail 500 error, db1)
          else (fail 500 error, db)
        | _, _ => (fail 500 error, db)
        end
      end
  end.

(** The three assignments to [sosAlert] in [PUT /sos/:id/status]. *)
Definition respond_sos (status responseNotes : JsValue)
    (authority : Authority) (sosAlert : Alert) : Alert :=
  mkAlert (alert_id sosAlert) (alert_type sosAlert)
          (alert_touristId sosAlert) (alert_location sosAlert)
          (alert_message sosAlert)
          (if truthy responseNotes
           then Some (toString responseNotes)
           else alert_description sosAlert)
          (alert_severity sosAlert) (toString status)
          (Some (authority_id authority))
          (alert_createdAt sosAlert) (alert_updatedAt sosAlert).

(** [Alert.findOne({ _id: sosId, type: 'sos' })] *)
Definition findSos (sosId : ObjectId) (db : Db) : option Alert :=
  find (fun a => Nat.eqb (alert_id a) sosId
                 && String.eqb (alert_type a) "sos") (alerts db).

(** [PUT /sos/:id/status] *)
Definition put_sos_status (user : ReqUser) (sosId : ObjectId)
    (body : StatusBody) (db : Db) : Response Alert * Db :=
  let status := body_status body in
  let responseNotes := body_responseNotes body in
  if negb (isAuthority user)
  then (fail 403 "Access denied. Only authorities can update SOS status.",
        db)
  else if negb (includes ["acknowledged"; "responding"; "resolved"] status)
  then (fail 400 "Invalid status", db)
  else
    let authority := findAuthority user db in
    match findSos sosId db with
    | None => (fail 404 "SOS alert not found", db)
    | Some sosAlert =>
      match authority with
      | None => (fail 500 "Server error", db)
      | Some authority =>
        let sosAlert' :=
          respond_sos status responseNotes authority sosAlert in
        if alertSchema sosAlert' then
          let db1 := set_alerts (save alert_id sosAlert' (alerts db)) db in
          let db2 :=
            if String.eqb (toString status) "resolved" then
              match alert_touristId sosAlert' with
              | Some touristId =>
                  set_tourists
                    (snd (findByIdAndUpdate tourist_id touristId
                            (set_tourist_status "active") (tourists db1)))
                    db1
              | None => db1
              end
            else db1 in
          (ok 200 ("SOS alert " ++ toString status ++ " successfully")
              sosAlert', db2)
        else (fail 500 "Server error", db)
      end
    end.

(** *** Alerts router *)

Definition set_alert_status (status : string) (authorityId : option ObjectId)
    (now : Z) (a : Alert) : Alert :=
  mkAlert (alert_id a) (alert_type a) (alert_touristId a) (alert_location a)
          (alert_message a) (alert_description a) (alert_severity a)
          status
          (match authorityId with
           | Some i => Some i
           | None => alert_authorityId a
           end)
          (alert_createdAt a) now.

(** [PUT /:id/status] of the alerts router *)
Definition put_alert_status (user : ReqUser) (alertId : ObjectId)
    (body : StatusBody) (now : Z) (db : Db) : Response Alert * Db :=
  let status := body_status body in
  if negb (isAuthority user)
  then (fail 403 "Access denied. Only authorities can update alert status.",
        db)
  else if negb (includes ["acknowledged"; "responding"; "resolved"; "closed"]
                         status)
  then (fail 400 "Invalid status", db)
  else
    match findByIdAndUpdate alert_id alertId
            (set_alert_status (toString status) None now) (alerts db) with
    | (None, _) => (fail 404 "Alert not found", db)
    | (Some alert, alerts') =>
        (ok 200 "Alert status updated successfully" alert,
         set_alerts alerts' db)
    end.

(** *** Authority router *)

(** [PUT /alerts/:id/status] of the authority router.  The update
    object reads [authority._id] before the query is sent. *)
Definition authority_put_alert_status (user : ReqUser) (alertId : ObjectId)
    (body : StatusBody) (now : Z) (db : Db) : Response Alert * Db :=
  let status := body_status body in
  if negb (includes ["acknowledged"; "responding"; "resolved"; "closed"]
                    status)
  then (fail 400 "Invalid status", db)
  else
    match findAuthority user db with
    | None => (fail 500 "Server error", db)
    | Some authority =>
      match findByIdAndUpdate alert_id alertId
              (set_alert_status (toString status)
                                (Some (authority_id authority)) now)
              (alerts db) with
      | (None, _) => (fail 404 "Alert not found", db)
      | (Some alert, alerts') =>
          (ok 200 "Alert status updated successfully" alert,
           set_alerts alerts' db)
      end
    end.

(** *** Tourist router *)

(** [POST /location], handled at local hour [hour] and time [now]. *)
Definition post_location (user : ReqUser) (body : PointBody) (hour now : Z)
    (db : Db) : Response LocationData * Db :=
  let lat := point_lat body in
  let lng := point_lng body in
  if negb (truthy lat) || negb (truthy lng)
  then (fail 400 "Latitude and longitude are required", db)
  else
    match findTourist user db with
    | None => (fail 404 "Tourist profile not found", db)
    | Some tourist =>
      match parseFloat lat, parseFloat lng with
      | Some latitude, Some longitude =>
        let currentLocation := mkCurrentLocation latitude longitude now in
        let safetyScore :=
          calculateSafetyScore stringToNumber lat lng hour now db in
        let tourist' :=
          set_tourist_location currentLocation safetyScore tourist in
        if touristSchema tourist' then
          (ok 200 "Location updated successfully"
              (mkLocationData currentLocation safetyScore),
           set_tourists (save tourist_id tourist' (tourists db)) db)
        else (fail 500 "Server error", db)
      | _, _ => (fail 500 "Server error", db)
      end
    end.

(** *** Geo router *)

(** [POST /check-location] *)
Definition post_check_location (body : PointBody) (db : Db)
    : Response CheckData * Db :=
  let lat := point_lat body in
  let lng := point_lng body in
  if negb (truthy lat) || negb (truthy lng)
  then (fail 400 "Latitude and longitude are required", db)
  else
    let latitude := parseFloat lat in
    let longitude := parseFloat lng in
    let results := containingZones latitude longitude db in
    (mkResponse 200 true ""
       (Some (mkCheckData latitude longitude results
                (existsb (fun r => String.eqb (fence_type (geoFence r))
                                              "danger") results))),
     db).

(** [POST /fences].  The document is built without [isActive]; the
    schema fills it in. *)
Definition post_fences (user : ReqUser) (body : FenceBody) (now : Z)
    (db : Db) : Response GeoFence * Db :=
  if negb (isAuthority user)
  then (fail 403 "Access denied. Only authorities can create geo-fences.",
        db)
  else
    match fb_center body with
    | None =>
        (fail 400
           "Name, type, center coordinates, radius, and region are required",
         db)
    | Some center =>
      if negb (truthy (fb_name body)) || negb (truthy (fb_type body))
         || negb (truthy (fb_radius body)) || negb (truthy (fb_region body))
      then
        (fail 400
           "Name, type, center coordinates, radius, and region are required",
         db)
      else
        match findAuthority user db,
              parseFloat (point_lat center), parseFloat (point_lng center),
              parseInt (fb_radius body) with
        | Some authority, Some lat, Some lng, Some radius =>
          let geoFence :=
            mkGeoFence (nextId db) (toString (fb_name body))
                       (castString (fb_description body))
                       (toString (fb_type body)) (mkLatLng lat lng) radius
                       (toString (fb_region body)) isActiveDefault
                       (authority_id authority) now in
          if geoFenceSchema geoFence then
            (ok 201 "Geo-fence created successfully" geoFence,
             set_geoFences (create geoFence (geoFences db))
                           (bump db))
          else (fail 500 "Server error", db)
        | _, _, _, _ => (fail 500 "Server error", db)
        end
    end.

(** The [updateData] of [PUT /fences/:id]; [None] when a number in it
    is NaN, which the cast of the update refuses. *)
Definition updateData (body : FenceBody) (now : Z) : option FenceUpdate :=
  let name :=
    if truthy (fb_name body) then Some (toString (fb_name body)) else None in
  let description :=
    if truthy (fb_description body)
    then Some (toString (fb_description body)) else None in
  let type :=
    if truthy (fb_type body) then Some (toString (fb_type body)) else None in
  let center :=
    match fb_center body with
    | Some center =>
        match parseFloat (point_lat center),
              parseFloat (point_lng center) with
        | Some lat, Some lng => Some (Some (mkLatLng lat lng))
        | _, _ => None
        end
    | None => Some None
    end in
  let radius :=
    if truthy (fb_radius body) then
      match parseInt (fb_radius body) with
      | Some radius => Some (Some radius)
      | None => None
      end
    else Some None in
  match center, radius with
  | Some center, Some radius =>
      Some (mkFenceUpdate name description type center radius
                          (fb_isActive body) now)
  | _, _ => None
  end.

(** [PUT /fences/:id] *)
Definition put_fence (user : ReqUser) (id : ObjectId) (body : FenceBody)
    (now : Z) (db : Db) : Response GeoFence * Db :=
  if negb (isAuthority user)
  then (fail 403 "Access denied. Only authorities can update geo-fences.",
        db)
  else
    match updateData body now with
    | None => (fail 500 "Server error", db)
    | Some update =>
      match findByIdAndUpdate fence_id id (applyFenceUpdate update)
              (geoFences db) with
      | (None, _) => (fail 404 "Geo-fence not found", db)
      | (Some geoFence, geoFences') =>
          (ok 200 "Geo-fence updated successfully" geoFence,
           set_geoFences geoFences' db)
      end
    end.

End Server.

(** ** The score as the specification words it

    Section 4.3 of the specification, by counting: these definitions
    follow the text, not the code, and are compared with
    [calculateSafetyScore] below. *)

Module Spec.

(** The distance from the position to the zone centre is at most the
    zone radius. *)
Definition insideZone (lat lng : R) (z : GeoFence) : bool :=
  match calculateDistance lat lng (center_lat (fence_center z))
                          (center_lng (fence_center z)) with
  | Some d => Rleb d (fence_radius z)
  | None => false
  end.

(** The distance lies in (radius, 2 x radius]. *)
Definition nearZone (lat lng : R) (z : GeoFence) : bool :=
  match calculateDistance lat lng (center_lat (fence_center z))
                          (center_lng (fence_center z)) with
  | Some d => Rltb (fence_radius z) d && Rleb d (2 * fence_radius z)
  | None => false
  end.

Definition activeRiskZone (z : GeoFence) : bool :=
  fence_isActive z && String.eqb (fence_type z) "danger".

(** The hour is 22, 23, or 0 through 5. *)
Definition nightHour (hour : Z) : bool :=
  existsb (Z.eqb hour) [22; 23; 0; 1; 2; 3; 4; 5].

(** An alert of kind sos or incident, within 1000 m of the position,
    created within the 24 hours that precede [now]. *)
Definition qualifyingAlert (lat lng : R) (now : Z) (a : Alert) : bool :=
  (String.eqb (alert_type a) "sos" || String.eqb (alert_type a) "incident")
  && match calculateDistance lat lng (loc_lat (alert_location a))
                             (loc_lng (alert_location a)) with
     | Some d => Rleb d 1000
     | None => false
     end
  && (Z.leb (now - 86400000) (alert_createdAt a)
      && Z.leb (alert_createdAt a) now).

(** The lifecycle edges of section 4.4. *)
Definition permittedEdges : list (string * string) :=
  [("active", "acknowledged"); ("active", "responding");
   ("acknowledged", "responding"); ("acknowledged", "resolved");
   ("responding", "resolved"); ("resolved", "closed")].

Definition permittedEdge (from to : string) : bool :=
  existsb (fun e => String.eqb (fst e) from && String.eqb (snd e) to)
          permittedEdges.

Definition count {A : Type} (p : A -> bool) (l : list A) : Z :=
  Z.of_nat (List.length (filter p l)).

Definition clamp (lo hi x : Z) : Z :=
  if Z.ltb x lo then lo else if Z.ltb hi x then hi else x.

Definition score (lat lng : R) (hour now : Z) (zones : list GeoFence)
    (recent : list Alert) : Z :=
  let risk := filter activeRiskZone zones in
  clamp 0 100
        (85
         - 30 * count (insideZone lat lng) risk
         - 15 * count (nearZone lat lng) risk
         - (if nightHour hour then 10 else 0)
         - 5 * count (qualifyingAlert lat lng now) recent).

End Spec.

(** ** A small store, for the examples *)

Module Demo.

Definition noNumber (s : string) : number := None.
Definition printNumber (x : R) : string := "".
Definition accept {A : Type} (d : A) : bool := true.

Definition asha : User := mkUser 1 "Asha" "5550101" "asha@example.org" "tourist".
Definition rao : User := mkUser 2 "Rao" "5550102" "rao@example.org" "authority".
Definition ashaProfile : Tourist := mkTourist 11 1 "active" None 85 true.
Definition raoProfile : Authority := mkAuthority 21 2 true "Police Department".

Definition sosAlert : Alert :=
  mkAlert 31 "sos" (Some 11%nat) (mkLocation 28 77 None) "Emergency SOS from Asha"
          None (Some "critical") "active" None 1700000000000 1700000000000.

Definition quarry : GeoFence :=
  mkGeoFence 41 "Old quarry" None "danger" (mkLatLng 28 77) 500 "North" true
             21 1690000000000.

Definition db : Db :=
  mkDb [asha; rao] [ashaProfile] [raoProfile] [sosAlert] [] [quarry] 50.

Definition empty : Db := mkDb [] [] [] [] [] [] 0.

(** A zone that was switched off, and the store with it. *)
Definition oldMine : GeoFence :=
  mkGeoFence 42 "Old mine" None "danger" (mkLatLng 28 77) 800 "North" false
             21 1690000000000.

Definition dbWithOldMine : Db :=
  mkDb [asha; rao] [ashaProfile] [raoProfile] [sosAlert] [] [oldMine; quarry]
       50.

(** An update that moves a zone to latitude 999 and gives it the
    radius -5. *)
Definition badFenceBody : FenceBody :=
  mkFenceBody JsUndefined JsUndefined JsUndefined
              (Some (mkPointBody (JsNumber 999) (JsNumber 77)))
              (JsNumber (-5)) JsUndefined None.

(** A new zone with the radius -5. *)
Definition negativeRadiusBody : FenceBody :=
  mkFenceBody (JsString "Ravine") JsUndefined (JsString "danger")
              (Some (mkPointBody (JsNumber 28) (JsNumber 77)))
              (JsNumber (-5)) (JsString "North") None.

(** A new zone with the radius 0. *)
Definition zeroRadiusBody : FenceBody :=
  mkFenceBody (JsString "Ravine") JsUndefined (JsString "danger")
              (Some (mkPointBody (JsNumber 28) (JsNumber 77)))
              (JsNumber 0) (JsString "North") None.

(** An SOS sent from (28, 77) with no message, and an incident report
    from the same place. *)
Definition sosBody : SosBody :=
  mkSosBody (Some (mkLocationBody (JsNumber 28) (JsNumber 77) JsUndefined))
            JsUndefined JsUndefined.

Definition incidentBody : IncidentBody :=
  mkIncidentBody (JsString "theft") (JsString "Stolen bag")
                 (JsString "Bag taken at the station")
                 (Some (mkLocationBody (JsNumber 28) (JsNumber 77)
                                       JsUndefined))
                 (JsString "high") None None.

(** The alert that the SOS creates in [db] at time 1700000600000, and
    the store after it. *)
Definition newSosAlert : Alert :=
  mkAlert 50 "sos" (Some 11%nat) (mkLocation 28 77 None)
          "Emergency SOS from Asha" None (Some "critical") "active" None
          1700000600000 1700000600000.

Definition afterSos : Db :=
  mkDb [asha; rao] [set_tourist_status "emergency" ashaProfile] [raoProfile]
       [sosAlert; newSosAlert] [] [quarry] 51.

Definition touristUser : ReqUser := mkReqUser 1 "tourist".
Definition authorityUser : ReqUser := mkReqUser 2 "authority".

Definition statusBody (status : string) : StatusBody :=
  mkStatusBody (JsString status) JsUndefined.

End Demo.

(** ** Further routes

    The remaining handlers of the alerts, tourist and geo routers that
    read or write the store. *)

Section Deletion.
Context {A : Type} (getId : A -> ObjectId).

(** [Model.findByIdAndDelete(id)]: the first document with this [_id]
    is removed and returned. *)
Fixpoint findByIdAndDelete (id : ObjectId) (l : list A) : option A * list A :=
  match l with
  | [] => (None, [])
  | d :: r =>
      if Nat.eqb (getId d) id then (Some d, r)
      else let (res, r') := findByIdAndDelete id r in (res, d :: r')
  end.
End Deletion.

Section Sorting.
Context {A : Type} (before : A -> A -> bool).

(** [Array.prototype.sort(compare)] is a stable sort: elements that
    compare equal keep their order.  [before a b] says that [compare(a, b)]
    is not positive. *)
Fixpoint insertSorted (x : A) (l : list A) : list A :=
  match l with
  | [] => [x]
  | y :: r => if before x y then x :: y :: r else y :: insertSorted x r
  end.

Definition sortBy (l : list A) : list A := fold_right insertSorted [] l.
End Sorting.

(** A parameter of [req.query] is absent or a string. *)
Definition queryValue (q : option string) : JsValue :=
  match q with
  | Some s => JsString s
  | None => JsUndefined
  end.

Record NearbyQuery : Type := mkNearbyQuery {
  nq_lat : option string;
  nq_lng : option string;
  nq_radius : option string }.

Record FencesQuery : Type := mkFencesQuery {
  fq_type : option string;
  fq_region : option string;
  fq_active : option string }.

(** An entry of [nearbyFences]: the fence with its distance. *)
Record NearbyFence : Type := mkNearbyFence {
  nearby_fence : GeoFence;
  nearby_distance : R }.

(** The [query] object of [GET /fences]. *)
Record FenceFilter : Type := mkFenceFilter {
  ff_type : option string;
  ff_region : option string;
  ff_isActive : option bool }.

Record SafetyScoreData : Type := mkSafetyScoreData {
  ss_safetyScore : Z;
  ss_status : string;
  ss_lastUpdated : option Z }.

(** [(a, b) => a.distance - b.distance] is not positive. *)
Definition closer (a b : NearbyFence) : bool :=
  Rleb (nearby_distance a) (nearby_distance b).

(** One turn of the loop of [GET /nearby]; a distance that passes the
    test is a number. *)
Definition pushNearby (latitude longitude searchRadius : number)
    (nearbyFences : list NearbyFence) (fence : GeoFence) : list NearbyFence :=
  match distanceTo latitude longitude fence, searchRadius with
  | Some distance, Some searchRadius =>
      if Rleb distance searchRadius
      then nearbyFences ++ [mkNearbyFence fence distance]
      else nearbyFences
  | _, _ => nearbyFences
  end.

(** What the loop of [GET /nearby] keeps. *)
Definition withinSearch (latitude longitude searchRadius : number)
    (fence : GeoFence) : option NearbyFence :=
  match distanceTo latitude longitude fence, searchRadius with
  | Some distance, Some searchRadius =>
      if Rleb distance searchRadius
      then Some (mkNearbyFence fence distance) else None
  | _, _ => None
  end.

Fixpoint keep {A B : Type} (f : A -> option B) (l : list A) : list B :=
  match l with
  | [] => []
  | x :: r => match f x with
              | Some y => y :: keep f r
              | None => keep f r
              end
  end.

(** [GeoFence.find(query)] for the query of [GET /fences]. *)
Definition matchesFilter (query : FenceFilter) (fence : GeoFence) : bool :=
  match ff_type query with
  | Some type => String.eqb (fence_type fence) type
  | None => true
  end
  && match ff_region query with
     | Some region => String.eqb (fence_region fence) region
     | None => true
     end
  && match ff_isActive query with
     | Some isActive => Bool.eqb (fence_isActive fence) isActive
     | None => true
     end.

(** The query that [GET /fences] builds.  [active] defaults to the
    boolean [true]; [active === 'true'] compares it with a string. *)
Definition fencesFilter (query : FencesQuery) : FenceFilter :=
  let type := queryValue (fq_type query) in
  let region := queryValue (fq_region query) in
  let active :=
    match fq_active query with
    | Some s => JsString s
    | None => JsBool true
    end in
  mkFenceFilter
    (if truthy type then fq_type query else None)
    (if truthy region then fq_region query else None)
    (match active with
     | JsUndefined => None
     | JsString s => Some (String.eqb s "true")
     | _ => Some false
     end).

(** [alert.touristId] once populated: the tourist document, or null. *)
Definition populateTourist (alert : Alert) (db : Db) : option Tourist :=
  match alert_touristId alert with
  | Some touristId => findById tourist_id touristId (tourists db)
  | None => None
  end.

(** [GET /:id] of the alerts router *)
Definition get_alert (user : ReqUser) (id : ObjectId) (db : Db)
    : Response Alert * Db :=
  match findById alert_id id (alerts db) with
  | None => (fail 404 "Alert not found", db)
  | Some alert =>
    if String.eqb (userType user) "tourist" then
      match populateTourist alert db, findTourist user db with
      | Some owner, Some tourist =>
          if negb (Nat.eqb (tourist_id owner) (tourist_id tourist))
          then (fail 403 "Access denied", db)
          else (mkResponse 200 true "" (Some alert), db)
      | _, _ => (fail 500 "Server error", db)
      end
    else (mkResponse 200 true "" (Some alert), db)
  end.

(** [DELETE /:id] of the alerts router *)
Definition delete_alert (user : ReqUser) (alertId : ObjectId) (db : Db)
    : Response unit * Db :=
  if negb (isAuthority user)
  then (fail 403 "Access denied. Only authorities can delete alerts.", db)
  else
    match findByIdAndDelete alert_id alertId (alerts db) with
    | (None, _) => (fail 404 "Alert not found", db)
    | (Some alert, alerts') =>
        (mkResponse 200 true "Alert deleted successfully" None,
         set_alerts alerts' db)
    end.

(** [GET /safety-score] *)
Definition get_safety_score (user : ReqUser) (db : Db)
    : Response SafetyScoreData * Db :=
  match findTourist user db with
  | None => (fail 404 "Tourist profile not found", db)
  | Some tourist =>
      (mkResponse 200 true ""
         (Some (mkSafetyScoreData
                  (tourist_safetyScore tourist) (tourist_status tourist)
                  (option_map cur_timestamp
                              (tourist_currentLocation tourist)))),
       db)
  end.

(** [GET /fences/:id] *)
Definition get_fence (id : ObjectId) (db : Db) : Response GeoFence * Db :=
  match findById fence_id id (geoFences db) with
  | None => (fail 404 "Geo-fence not found", db)
  | Some geoFence => (mkResponse 200 true "" (Some geoFence), db)
  end.

(** [DELETE /fences/:id] *)
Definition delete_fence (user : ReqUser) (id : ObjectId) (db : Db)
    : Response unit * Db :=
  if negb (isAuthority user)
  then (fail 403 "Access denied. Only authorities can delete geo-fences.", db)
  else
    match findByIdAndDelete fence_id id (geoFences db) with
    | (None, _) => (fail 404 "Geo-fence not found", db)
    | (Some geoFence, geoFences') =>
        (mkResponse 200 true "Geo-fence deleted successfully" None,
         set_geoFences geoFences' db)
    end.

Section Queries.

(** Built-ins of the runtime, as in section [Server]. *)
Variable parseFloatString : string -> number.
Variable parseIntString : string -> number.

(** The order in which the store returns documents sorted by creation
    time, newest first.  Ties are the store's to break, and the creation
    time of a geo-fence is not represented. *)
Variable newestAlertsFirst : list Alert -> list Alert.
Variable newestFencesFirst : list GeoFence -> list GeoFence.

(** [GET /nearby] of the geo router *)
Definition get_nearby (query : NearbyQuery) (db : Db)
    : Response (list NearbyFence) * Db :=
  let lat := queryValue (nq_lat query) in
  let lng := queryValue (nq_lng query) in
  let radius :=
    match nq_radius query with
    | Some s => JsString s
    | None => JsNumber 5000
    end in
  if negb (truthy lat) || negb (truthy lng)
  then (fail 400 "Latitude and longitude are required", db)
  else
    let latitude := Js.parseFloat parseFloatString lat in
    let longitude := Js.parseFloat parseFloatString lng in
    let searchRadius := Js.parseInt parseIntString radius in
    let geoFences := filter fence_isActive (geoFences db) in
    let nearbyFences :=
      fold_left (pushNearby latitude longitude searchRadius) geoFences [] in
    (mkResponse 200 true "" (Some (sortBy closer nearbyFences)), db).

(** [GET /fences] of the geo router *)
Definition get_fences (query : FencesQuery) (db : Db)
    : Response (list GeoFence) * Db :=
  let geoFences :=
    newestFencesFirst (filter (matchesFilter (fencesFilter query))
                              (geoFences db)) in
  (mkResponse 200 true "" (Some geoFences), db).

(** [GET /alerts] of the tourist router *)
Definition get_tourist_alerts (user : ReqUser) (db : Db)
    : Response (list Alert) * Db :=
  match findTourist user db with
  | None => (fail 404 "Tourist profile not found", db)
  | Some tourist =>
      let own (a : Alert) :=
        match alert_touristId a with
        | Some touristId => Nat.eqb touristId (tourist_id tourist)
        | None => false
        end in
      let alerts := firstn 50 (newestAlertsFirst (filter own (alerts db))) in
      (mkResponse 200 true "" (Some alerts), db)
  end.

End Queries.

(** [createdAt] of [a] is not older than that of [b]. *)
Definition newerOrSame (a b : Alert) : bool :=
  Z.leb (alert_createdAt b) (alert_createdAt a).

(** ** A second small store, for the examples of the further routes *)

Module Tour.

Definition bela : User := mkUser 3 "Bela" "5550103" "bela@example.org" "tourist".
Definition belaProfile : Tourist := mkTourist 12 3 "active" None 85 true.

(** An alert raised by an authority, for no tourist, and an alert
    raised for Bela. *)
Definition advisory : Alert :=
  mkAlert 32 "manual" None (mkLocation 28 77 None) "Road closed" None
          (Some "low") "active" (Some 21%nat) 1700000100000 1700000100000.

Definition belaAlert : Alert :=
  mkAlert 33 "incident" (Some 12%nat) (mkLocation 19 72 None)
          "Incident reported: Lost passport" None (Some "medium") "active"
          None 1700000200000 1700000200000.

Definition market : GeoFence :=
  mkGeoFence 43 "Night market" None "safe" (mkLatLng 28 77) 300 "North" true
             21 1690000000000.

Definition db : Db :=
  mkDb [Demo.asha; Demo.rao; bela] [Demo.ashaProfile; belaProfile]
       [Demo.raoProfile] [Demo.sosAlert; advisory; belaAlert] []
       [Demo.quarry; Demo.oldMine; market] 50.

Definition belaUser : ReqUser := mkReqUser 3 "tourist".

(** The string parser of the examples reads the three strings it is
    given. *)
Definition parseNumber (s : string) : number :=
  if String.eqb s "28" then Some 28%R
  else if String.eqb s "77" then Some 77%R
  else if String.eqb s "400" then Some 400%R
  else None.

Definition here : NearbyQuery := mkNearbyQuery (Some "28") (Some "77") (Some "400").

Definition newFenceBody : FenceBody :=
  mkFenceBody (JsString "Ravine") JsUndefined (JsString "danger")
              (Some (mkPointBody (JsNumber 19) (JsNumber 72)))
              (JsNumber 500) (JsString "West") None.

Definition switchOff : FenceBody :=
  mkFenceBody JsUndefined JsUndefined JsUndefined None JsUndefined
              JsUndefined (Some false).

End Tour.

(** * Theorems *)



Lemma Math_sqrt_0 : Math_sqrt 0 = Some 0%R.
Proof.
  unfold Math_sqrt. destruct (Rlt_dec 0 0) as [H | _]; [lra |].
  now rewrite sqrt_0.
Qed.

Lemma Math_sqrt_1 : Math_sqrt 1 = Some 1%R.
Proof.
  unfold Math_sqrt. destruct (Rlt_dec 1 0) as [H | _]; [lra |].
  now rewrite sqrt_1.
Qed.

Lemma Math_atan2_0_1 : Math_atan2 0 1 = 0%R.
Proof.
  unfold Math_atan2. destruct (Rlt_dec 0 1) as [_ | H]; [| lra].
  replace (0 / 1)%R with 0%R by lra. apply atan_0.
Qed.

Lemma calculateDistance_self (lat lng : R) :
  calculateDistance lat lng lat lng = Some 0%R.
Proof.
  unfold calculateDistance. cbv zeta.
  replace ((lat - lat) * PI / 180 / 2)%R with 0%R by lra.
  replace ((lng - lng) * PI / 180 / 2)%R with 0%R by lra.
  rewrite sin_0.
  replace (0 * 0 + cos (lat * PI / 180) * cos (lat * PI / 180) * 0 * 0)%R
    with 0%R by ring.
  replace (1 - 0)%R with 1%R by lra.
  rewrite Math_sqrt_0, Math_sqrt_1, Math_atan2_0_1.
  f_equal. ring.
Qed.

(** Over the reals, for valid latitudes the haversine term lies in
    [0, 1]. *)
Lemma haversine_a_bounds (lat1 lng1 lat2 lng2 : R) :
  (-90 <= lat1 <= 90)%R -> (-90 <= lat2 <= 90)%R ->
  (0 <= sin ((lat2 - lat1) * PI / 180 / 2) * sin ((lat2 - lat1) * PI / 180 / 2) +
        cos (lat1 * PI / 180) * cos (lat2 * PI / 180) *
        sin ((lng2 - lng1) * PI / 180 / 2) * sin ((lng2 - lng1) * PI / 180 / 2)
   <= 1)%R.
Proof.
  intros H1 H2.
  pose proof PI_RGT_0 as Hpi.
  set (p1 := (lat1 * PI / 180)%R).
  set (p2 := (lat2 * PI / 180)%R).
  set (s := sin ((lat2 - lat1) * PI / 180 / 2)).
  set (t := sin ((lng2 - lng1) * PI / 180 / 2)).
  assert (Hc1 : (0 <= cos p1)%R).
  { apply cos_ge_0; unfold p1; nra. }
  assert (Hc2 : (0 <= cos p2)%R).
  { apply cos_ge_0; unfold p2; nra. }
  assert (Ht : (0 <= t * t <= 1)%R).
  { pose proof (SIN_bound ((lng2 - lng1) * PI / 180 / 2)) as Hb.
    fold t in Hb. nra. }
  assert (Hs : (0 <= s * s)%R) by nra.
  assert (Hprod : (cos p1 * cos p2 <= 1 - s * s)%R).
  { pose proof (cos_minus p2 p1) as Hm.
    pose proof (cos_plus p2 p1) as Hp.
    pose proof (COS_bound (p2 + p1)) as Hb.
    pose proof (cos_2a_sin ((lat2 - lat1) * PI / 180 / 2)) as Hd.
    replace (2 * ((lat2 - lat1) * PI / 180 / 2))%R with (p2 - p1)%R in Hd
      by (unfold p1, p2; lra).
    fold s in Hd. nra. }
  assert (Hcc : (0 <= cos p1 * cos p2)%R) by nra.
  split; nra.
Qed.

Lemma Math_sqrt_nonneg (x : R) :
  (0 <= x)%R -> Math_sqrt x = Some (sqrt x) /\ (0 <= sqrt x)%R.
Proof.
  intros Hx. unfold Math_sqrt.
  destruct (Rlt_dec x 0) as [H | _]; [lra |].
  split; [reflexivity | apply sqrt_pos].
Qed.

Lemma atan_nonneg (x : R) : (0 <= x)%R -> (0 <= atan x)%R.
Proof.
  intros [Hx | <-].
  - rewrite <- atan_0. left. now apply atan_increasing.
  - rewrite atan_0. lra.
Qed.

Lemma Math_atan2_nonneg (y x : R) :
  (0 <= y)%R -> (0 <= x)%R -> (0 <= Math_atan2 y x)%R.
Proof.
  intros Hy Hx. unfold Math_atan2.
  pose proof PI_RGT_0 as Hpi.
  destruct (Rlt_dec 0 x) as [Hpos | _].
  - apply atan_nonneg. apply Rmult_le_pos; [exact Hy |].
    left. now apply Rinv_0_lt_compat.
  - destruct (Rlt_dec x 0) as [Hneg | _]; [lra |].
    destruct (Rlt_dec 0 y) as [_ | _]; [lra |].
    destruct (Rlt_dec y 0) as [Hneg | _]; lra.
Qed.


(** ** ScoreEngine *)

Lemma Rleb_true (x y : R) : Rleb x y = true <-> (x <= y)%R.
Proof.
  unfold Rleb. destruct (Rle_dec x y); split; intros; try easy; lra.
Qed.

Lemma Rleb_false (x y : R) : Rleb x y = false <-> (y < x)%R.
Proof.
  unfold Rleb. destruct (Rle_dec x y); split; intros; try easy; lra.
Qed.

Lemma Rltb_true (x y : R) : Rltb x y = true <-> (x < y)%R.
Proof.
  unfold Rltb. destruct (Rlt_dec x y); split; intros; try easy; lra.
Qed.

Lemma Rltb_false (x y : R) : Rltb x y = false <-> (y <= x)%R.
Proof.
  unfold Rltb. destruct (Rlt_dec x y); split; intros; try easy; lra.
Qed.

(** One turn of the loop subtracts 30 inside the zone, 15 near it. *)
Lemma zonePenalty_spec (lat lng : R) (score : Z) (z : GeoFence) :
  zonePenalty lat lng score z =
  score - (if Spec.insideZone lat lng z then 30 else 0)
        - (if Spec.nearZone lat lng z then 15 else 0).
Proof.
  unfold zonePenalty, Spec.insideZone, Spec.nearZone, le. cbv zeta.
  destruct (calculateDistance _ _ _ _) as [d |]; [| lia].
  destruct (Rleb d (fence_radius z)) eqn:Hin.
  - apply Rleb_true in Hin.
    assert (Hlt : Rltb (fence_radius z) d = false) by (apply Rltb_false; lra).
    rewrite Hlt. simpl. lia.
  - apply Rleb_false in Hin.
    assert (Hlt : Rltb (fence_radius z) d = true) by (now apply Rltb_true).
    rewrite Hlt. simpl.
    replace (fence_radius z * 2)%R with (2 * fence_radius z)%R by ring.
    destruct (Rleb d (2 * fence_radius z)); lia.
Qed.

(** The loop over the danger zones, from any starting score. *)
Lemma zone_loop_counts (lat lng : R) (zones : list GeoFence) (score : Z) :
  fold_left (zonePenalty lat lng) zones score =
  score - 30 * Spec.count (Spec.insideZone lat lng) zones
        - 15 * Spec.count (Spec.nearZone lat lng) zones.
Proof.
  revert score. unfold Spec.count.
  induction zones as [| z zones IH]; intros score;
    cbn [fold_left filter List.length].
  - lia.
  - rewrite IH, zonePenalty_spec.
    destruct (Spec.insideZone lat lng z), (Spec.nearZone lat lng z);
      cbn [List.length]; lia.
Qed.

Lemma isDangerZone_activeRiskZone (z : GeoFence) :
  isDangerZone z = Spec.activeRiskZone z.
Proof. unfold isDangerZone, Spec.activeRiskZone. apply andb_comm. Qed.

Lemma nightTime_nightHour (hour : Z) :
  0 <= hour <= 23 -> nightTime hour = Spec.nightHour hour.
Proof.
  intros H. unfold nightTime, Spec.nightHour, existsb.
  destruct (Z.leb_spec 22 hour), (Z.leb_spec hour 5); simpl;
    repeat match goal with
           | |- context [Z.eqb ?a ?b] => destruct (Z.eqb_spec a b)
           end; simpl; try reflexivity; lia.
Qed.

Lemma clamp_max_min (x : Z) : Z.max 0 (Z.min 100 x) = Spec.clamp 0 100 x.
Proof.
  unfold Spec.clamp.
  destruct (Z.ltb_spec x 0), (Z.ltb_spec 100 x); lia.
Qed.

(** With no alert dated in the future, the filter of the query keeps
    the alerts the specification counts. *)
Lemma recentAlertFilter_qualifying (lat lng : R) (now : Z) (a : Alert) :
  alert_createdAt a <= now ->
  recentAlertFilter lat lng now a = Spec.qualifyingAlert lat lng now a.
Proof.
  intros Hpast.
  unfold recentAlertFilter, Spec.qualifyingAlert, nearQuery, le, existsb.
  replace (24 * 60 * 60 * 1000) with 86400000 by reflexivity.
  assert (Hle : Z.leb (alert_createdAt a) now = true) by (apply Z.leb_le; lia).
  rewrite Hle.
  destruct (calculateDistance _ _ _ _) as [d |];
    destruct (String.eqb (alert_type a) "sos"),
             (String.eqb (alert_type a) "incident"),
             (Z.leb (now - 86400000) (alert_createdAt a));
    simpl; try reflexivity; destruct (Rleb d 1000); reflexivity.
Qed.

Lemma filter_ext_Forall {A : Type} (p q : A -> bool) (l : list A) :
  Forall (fun x => p x = q x) l -> filter p l = filter q l.
Proof.
  induction 1 as [| x l Hx _ IH]; simpl; [reflexivity |].
  now rewrite Hx, IH.
Qed.

(** C3.  For every position, zone set and alert set, at an hour of the
    day and with no alert dated after the evaluation time, the computed
    score is 85, minus 30 per active risk zone containing the position,
    minus 15 per active risk zone at a distance in (radius, 2 x radius],
    minus 10 at hours 22, 23 and 0 to 5, minus 5 per sos or incident
    alert within 1000 m created in the preceding 24 hours, clamped to
    [0, 100].  In particular one containing risk zone, hour 23 and one
    qualifying recent alert give 40. *)
Theorem calculateSafetyScore_formula (stringToNumber : string -> number)
    (lat lng : R) (hour now : Z) (db : Db) :
  0 <= hour <= 23 ->
  Forall (fun a => alert_createdAt a <= now) (alerts db) ->
  calculateSafetyScore stringToNumber (JsNumber lat) (JsNumber lng) hour now
                       db =
    Spec.score lat lng hour now (geoFences db) (alerts db)
  /\ (forall z a,
        filter Spec.activeRiskZone (geoFences db) = [z] ->
        Spec.insideZone lat lng z = true ->
        hour = 23 ->
        filter (Spec.qualifyingAlert lat lng now) (alerts db) = [a] ->
        calculateSafetyScore stringToNumber (JsNumber lat) (JsNumber lng) hour
                             now db = 40).
Proof.
  intros Hhour Hpast.
  assert (Heq : calculateSafetyScore stringToNumber (JsNumber lat)
                                     (JsNumber lng) hour now db =
                Spec.score lat lng hour now (geoFences db) (alerts db)).
  { unfold calculateSafetyScore, Spec.score.
    cbn [queryCoordinate toNumber]. cbv zeta.
    rewrite zone_loop_counts, clamp_max_min.
    rewrite (filter_ext isDangerZone Spec.activeRiskZone
               isDangerZone_activeRiskZone).
    rewrite (nightTime_nightHour hour Hhour).
    rewrite (filter_ext_Forall (recentAlertFilter lat lng now)
               (Spec.qualifyingAlert lat lng now)).
    - unfold Spec.count. f_equal.
      destruct (Spec.nightHour hour); lia.
    - eapply Forall_impl; [| exact Hpast].
      intros a Ha. now apply recentAlertFilter_qualifying. }
  split; [exact Heq |].
  intros z a Hz Hin H23 Ha.
  rewrite Heq. unfold Spec.score, Spec.count. cbv zeta.
  rewrite Hz, Ha, H23. simpl filter. rewrite Hin.
  assert (Hnear : Spec.nearZone lat lng z = false).
  { unfold Spec.insideZone in Hin. unfold Spec.nearZone.
    destruct (calculateDistance _ _ _ _) as [d |]; [| reflexivity].
    apply Rleb_true in Hin.
    assert (Hlt : Rltb (fence_radius z) d = false) by (apply Rltb_false; lra).
    now rewrite Hlt. }
  rewrite Hnear. reflexivity.
Qed.

Lemma calculateSafetyScore_formula_witness :
  0 <= 23 <= 23 /\
  Forall (fun a => alert_createdAt a <= 1700003600000) (alerts Demo.db) /\
  calculateSafetyScore Demo.noNumber (JsNumber 28) (JsNumber 77) 23
                       1700003600000 Demo.db
  = 40.
Proof.
  assert (Hhour : 0 <= 23 <= 23) by lia.
  assert (Hpast : Forall (fun a => alert_createdAt a <= 1700003600000)
                         (alerts Demo.db)).
  { repeat constructor. simpl. lia. }
  split; [exact Hhour |]. split; [exact Hpast |].
  destruct (calculateSafetyScore_formula Demo.noNumber 28 77 23
              1700003600000 Demo.db
              Hhour Hpast) as [_ Hexample].
  apply (Hexample Demo.quarry Demo.sosAlert).
  - reflexivity.
  - unfold Spec.insideZone. simpl.
    rewrite calculateDistance_self. apply Rleb_true. lra.
  - reflexivity.
  - simpl. unfold Spec.qualifyingAlert. simpl.
    rewrite calculateDistance_self.
    assert (Hnear : Rleb 0 1000 = true) by (apply Rleb_true; lra).
    now rewrite Hnear.
Defined.

(** ** Collections *)

Section CollectionFacts.
Context {A : Type} (getId : A -> ObjectId).

Lemma findByIdAndUpdate_found (id : ObjectId) (update : A -> A) (l : list A)
    (d : A) :
  getId (update d) = id ->
  findById getId id l = Some d ->
  exists l', findByIdAndUpdate getId id update l = (Some (update d), l') /\
             findById getId id l' = Some (update d).
Proof.
  intros Hid. unfold findById.
  induction l as [| x l IH]; simpl; [discriminate |].
  destruct (Nat.eqb (getId x) id) eqn:Hx.
  - intros [= Hd]. subst x. eexists. split; [reflexivity |].
    simpl. now rewrite Hid, Nat.eqb_refl.
  - intros Hfind. destruct (IH Hfind) as [l' [-> Hl']].
    eexists. split; [reflexivity |]. simpl. now rewrite Hx.
Qed.

Lemma findByIdAndUpdate_missing (id : ObjectId) (update : A -> A)
    (l : list A) :
  findById getId id l = None ->
  findByIdAndUpdate getId id update l = (None, l).
Proof.
  unfold findById.
  induction l as [| x l IH]; simpl; [reflexivity |].
  destruct (Nat.eqb (getId x) id); [discriminate |].
  intros Hfind. now rewrite (IH Hfind).
Qed.

(** A document that was read under some [_id] is found again after it
    has been saved. *)
Lemma findById_save (d d0 : A) (l : list A) :
  findById getId (getId d) l = Some d0 ->
  findById getId (getId d) (save getId d l) = Some d.
Proof.
  intros Hfind. unfold save.
  destruct (findByIdAndUpdate_found (getId d) (fun _ => d) l d0) as
    [l' [Heq Hl']]; [reflexivity | exact Hfind | now rewrite Heq].
Qed.

End CollectionFacts.

(** ** AlertLifecycle *)

Lemma includes_string (l : list string) (v : JsValue) :
  includes l v = true -> exists s, v = JsString s /\ In s l.
Proof.
  destruct v as [| | b | x | s]; simpl; try discriminate.
  intros H. apply existsb_exists in H. destruct H as [t [Hin Heq]].
  apply String.eqb_eq in Heq. subst t. eauto.
Qed.

Lemma findSos_id (sosId : ObjectId) (db : Db) (a : Alert) :
  findSos sosId db = Some a ->
  In a (alerts db) /\ alert_id a = sosId /\ alert_type a = "sos".
Proof.
  unfold findSos. intros H. apply find_some in H. destruct H as [Hin H].
  apply andb_true_iff in H. destruct H as [Hid Hty].
  apply Nat.eqb_eq in Hid. apply String.eqb_eq in Hty. auto.
Qed.

(** An alert found as an sos alert is also found by its [_id] alone,
    possibly as another document. *)
Lemma findSos_findById (sosId : ObjectId) (db : Db) (a : Alert) :
  findSos sosId db = Some a ->
  exists a0, findById alert_id sosId (alerts db) = Some a0.
Proof.
  intros H. apply findSos_id in H. destruct H as [Hin [Hid _]].
  destruct (findById alert_id sosId (alerts db)) as [a0 |] eqn:Hf; [eauto |].
  unfold findById in Hf.
  pose proof (find_none _ _ Hf a Hin) as Hn. simpl in Hn.
  rewrite Hid, Nat.eqb_refl in Hn. discriminate.
Qed.

(** The code accepts the edge active -> resolved, which section 4.4
    forbids: an authority resolves an active alert in one step. *)
Lemma status_update_counterexample :
  Spec.permittedEdge "active" "resolved" = false /\
  findById alert_id 31 (alerts Demo.db) = Some Demo.sosAlert /\
  alert_status Demo.sosAlert = "active" /\
  exists a db',
    put_alert_status Demo.printNumber Demo.authorityUser 31
                     (Demo.statusBody "resolved") 1700000600000 Demo.db
    = (ok 200 "Alert status updated successfully" a, db') /\
    findById alert_id 31 (alerts db') = Some a /\
    alert_status a = "resolved".
Proof.
  split; [reflexivity |]. split; [reflexivity |]. split; [reflexivity |].
  eexists. eexists. split; [reflexivity |]. split; reflexivity.
Qed.

(** C1, as the code has it.  A status update by an authority does not
    look at the stored status.  On the alerts router it succeeds for
    every stored alert as soon as the requested status is one of
    acknowledged, responding, resolved, closed, and the stored status
    becomes the requested one; on the SOS endpoint likewise for
    acknowledged, responding, resolved, given the authority's profile
    and an update the schema accepts.  Any other requested status is
    answered 400 "Invalid status" and the store is unchanged. *)
Theorem status_update_ignores_stored_status
    (numberToString : R -> string) (alertSchema : Alert -> bool)
    (user : ReqUser) (id : ObjectId) (body : StatusBody) (now : Z) (db : Db) :
  isAuthority user = true ->
  (forall a,
     findById alert_id id (alerts db) = Some a ->
     includes ["acknowledged"; "responding"; "resolved"; "closed"]
              (body_status body) = true ->
     exists a' db',
       put_alert_status numberToString user id body now db
       = (ok 200 "Alert status updated successfully" a', db') /\
       JsString (alert_status a') = body_status body /\
       findById alert_id id (alerts db') = Some a')
  /\ (includes ["acknowledged"; "responding"; "resolved"; "closed"]
               (body_status body) = false ->
      put_alert_status numberToString user id body now db
      = (fail 400 "Invalid status", db))
  /\ (forall a authority,
        findSos id db = Some a ->
        findAuthority user db = Some authority ->
        includes ["acknowledged"; "responding"; "resolved"]
                 (body_status body) = true ->
        alertSchema (respond_sos numberToString (body_status body)
                                 (body_responseNotes body) authority a)
        = true ->
        exists a' db',
          put_sos_status numberToString alertSchema user id body db
          = (ok 200 ("SOS alert " ++ alert_status a' ++ " successfully") a',
             db') /\
          JsString (alert_status a') = body_status body /\
          findById alert_id id (alerts db') = Some a')
  /\ (includes ["acknowledged"; "responding"; "resolved"]
               (body_status body) = false ->
      put_sos_status numberToString alertSchema user id body db
      = (fail 400 "Invalid status", db)).
Proof.
  intros Hauth. repeat split.
  - intros a Hfind Hinc.
    unfold put_alert_status. cbv zeta. rewrite Hauth, Hinc. simpl negb. cbv iota.
    destruct (includes_string _ _ Hinc) as [s [Hs _]].
    destruct (findByIdAndUpdate_found alert_id id
                (set_alert_status (Js.toString numberToString (body_status body))
                                  None now)
                (alerts db) a) as [l' [Heq Hl']].
    + simpl. unfold findById in Hfind. apply find_some in Hfind.
      destruct Hfind as [_ Hfind]. now apply Nat.eqb_eq in Hfind.
    + exact Hfind.
    + rewrite Heq. eexists. eexists. split; [reflexivity |].
      split; [| exact Hl']. rewrite Hs. reflexivity.
  - intros Hinc. unfold put_alert_status. cbv zeta.
    now rewrite Hauth, Hinc.
  - intros a authority Hsos Hprofile Hinc Hschema.
    unfold put_sos_status. cbv zeta.
    rewrite Hauth, Hinc, Hsos, Hprofile, Hschema. simpl negb. cbv iota.
    destruct (includes_string _ _ Hinc) as [s [Hs _]].
    destruct (findSos_id _ _ _ Hsos) as [_ [Hid _]].
    destruct (findSos_findById _ _ _ Hsos) as [a0 Ha0].
    set (a' := respond_sos numberToString (body_status body)
                           (body_responseNotes body) authority a).
    assert (Hid' : alert_id a' = id) by exact Hid.
    assert (Hsaved : findById alert_id id
                       (save alert_id a' (alerts db)) = Some a').
    { rewrite <- Hid'. apply findById_save with (d0 := a0).
      now rewrite Hid'. }
    assert (Hstatus : alert_status a' = Js.toString numberToString
                                          (body_status body)) by reflexivity.
    eexists. eexists. split; [rewrite <- Hstatus; reflexivity |].
    split; [rewrite Hstatus, Hs; reflexivity |].
    destruct (String.eqb _ "resolved"); [| exact Hsaved].
    destruct (alert_touristId a'); exact Hsaved.
  - intros Hinc. unfold put_sos_status. cbv zeta.
    now rewrite Hauth, Hinc.
Qed.

Lemma status_update_ignores_stored_status_witness :
  isAuthority Demo.authorityUser = true /\
  (exists a' db',
     put_alert_status Demo.printNumber Demo.authorityUser 31
                      (Demo.statusBody "closed") 1700000600000 Demo.db
     = (ok 200 "Alert status updated successfully" a', db') /\
     JsString (alert_status a') = JsString "closed" /\
     findById alert_id 31 (alerts db') = Some a') /\
  put_alert_status Demo.printNumber Demo.authorityUser 31
                   (Demo.statusBody "active") 1700000600000 Demo.db
  = (fail 400 "Invalid status", Demo.db).
Proof.
  pose proof (status_update_ignores_stored_status Demo.printNumber Demo.accept
                Demo.authorityUser 31 (Demo.statusBody "closed")
                1700000600000 Demo.db eq_refl) as [Hok _].
  pose proof (status_update_ignores_stored_status Demo.printNumber Demo.accept
                Demo.authorityUser 31 (Demo.statusBody "active")
                1700000600000 Demo.db eq_refl) as [_ [Hbad _]].
  split; [reflexivity |]. split.
  - exact (Hok Demo.sosAlert eq_refl eq_refl).
  - exact (Hbad eq_refl).
Defined.

(** No response is read as a refused lifecycle edge. *)
Lemma errorKind_not_invalid_transition {D : Type} (r : Response D) :
  errorKind r <> Some InvalidTransitionError.
Proof.
  unfold errorKind.
  repeat match goal with
         | |- context [Z.eqb ?a ?b] => destruct (Z.eqb a b)
         end; discriminate.
Qed.

(** The role gate of the alerts router and of the SOS endpoint: a
    caller who is not an authority is answered 403 and the store is
    unchanged. *)
Lemma gated_status_update_permission
    (numberToString : R -> string) (alertSchema : Alert -> bool)
    (user : ReqUser) (id : ObjectId) (body : StatusBody) (now : Z) (db : Db) :
  isAuthority user = false ->
  put_alert_status numberToString user id body now db
  = (fail 403 "Access denied. Only authorities can update alert status.", db)
  /\ put_sos_status numberToString alertSchema user id body db
     = (fail 403 "Access denied. Only authorities can update SOS status.", db).
Proof.
  intros Hrole. unfold put_alert_status, put_sos_status. cbv zeta.
  now rewrite Hrole.
Qed.

(** The same update on the authority router never changes the store
    for a caller without an authority profile, whatever the role. *)
Lemma authority_put_alert_status_without_profile
    (numberToString : R -> string)
    (user : ReqUser) (id : ObjectId) (body : StatusBody) (now : Z) (db : Db) :
  findAuthority user db = None ->
  snd (authority_put_alert_status numberToString user id body now db) = db.
Proof.
  intros Hnone. unfold authority_put_alert_status. cbv zeta.
  rewrite Hnone. now destruct (negb _).
Qed.

(** C2, on the authority router.  [PUT /alerts/:id/status] has no role
    gate: it never answers 403.  A tourist asking to resolve an alert is
    answered 500 "Server error" (the missing authority profile is
    dereferenced), and 400 for a status outside the list, where the
    alerts router answers 403 to the same requests. *)
Theorem authority_router_status_update_has_no_role_gate :
  (forall numberToString user id body now db,
     errorKind (fst (authority_put_alert_status numberToString user id body
                                                now db))
     <> Some PermissionError)
  /\ isAuthority Demo.touristUser = false
  /\ authority_put_alert_status Demo.printNumber Demo.touristUser 31
       (Demo.statusBody "resolved") 1700000600000 Demo.db
     = (fail 500 "Server error", Demo.db)
  /\ authority_put_alert_status Demo.printNumber Demo.touristUser 31
       (Demo.statusBody "reopened") 1700000600000 Demo.db
     = (fail 400 "Invalid status", Demo.db)
  /\ put_alert_status Demo.printNumber Demo.touristUser 31
       (Demo.statusBody "resolved") 1700000600000 Demo.db
     = (fail 403 "Access denied. Only authorities can update alert status.",
        Demo.db).
Proof.
  split; [| repeat split; reflexivity].
  intros numberToString user id body now db.
  unfold authority_put_alert_status. cbv zeta.
  destruct (negb _); [discriminate |].
  destruct (findAuthority user db); [| discriminate].
  destruct (findByIdAndUpdate _ _ _ _) as [[alert |] l]; discriminate.
Qed.

(** ** ScoreEngine: what the score depends on *)

(** Same position, same (empty) set of danger zones and same (empty)
    set of recent alerts: the score at noon and the score at 23:00
    differ. *)
Lemma score_depends_on_hour_counterexample :
  filter isDangerZone (geoFences Demo.empty) = [] /\
  alerts Demo.empty = [] /\
  calculateSafetyScore Demo.noNumber (JsNumber 28) (JsNumber 77) 12
                       1700000000000 Demo.empty
  <> calculateSafetyScore Demo.noNumber (JsNumber 28) (JsNumber 77) 23
                          1700039600000 Demo.empty.
Proof.
  split; [reflexivity |]. split; [reflexivity |].
  unfold calculateSafetyScore. simpl. discriminate.
Qed.

Lemma count_Permutation {A : Type} (p : A -> bool) (l l' : list A) :
  Permutation l l' -> Spec.count p l = Spec.count p l'.
Proof.
  unfold Spec.count. intros H. f_equal.
  induction H as [| x l l' _ IH | x y l | l l' l'' _ IH1 _ IH2]; simpl.
  - reflexivity.
  - destruct (p x); simpl; now rewrite IH.
  - destruct (p x), (p y); reflexivity.
  - now rewrite IH1.
Qed.

Lemma calculateSafetyScore_range (stringToNumber : string -> number)
    (lat lng : JsValue) (hour now : Z) (db : Db) :
  0 <= calculateSafetyScore stringToNumber lat lng hour now db <= 100.
Proof.
  unfold calculateSafetyScore.
  destruct (queryCoordinate stringToNumber lat); [| lia].
  destruct (queryCoordinate stringToNumber lng); lia.
Qed.

(** C4, with the hour among the inputs.  Two runs at the same position
    and the same hour of the day return the same score as soon as they
    see the same danger zones and the same recent alerts, in whatever
    order the store returns them; and every score lies in [0, 100]. *)
Theorem calculateSafetyScore_deterministic
    (stringToNumber : string -> number) (lat lng : R) (hour now1 now2 : Z)
    (db1 db2 : Db) :
  Permutation (filter isDangerZone (geoFences db1))
              (filter isDangerZone (geoFences db2)) ->
  Permutation (filter (recentAlertFilter lat lng now1) (alerts db1))
              (filter (recentAlertFilter lat lng now2) (alerts db2)) ->
  calculateSafetyScore stringToNumber (JsNumber lat) (JsNumber lng) hour now1
                       db1
  = calculateSafetyScore stringToNumber (JsNumber lat) (JsNumber lng) hour now2
                         db2
  /\ (forall (p q : JsValue) (h n : Z) (db : Db),
        0 <= calculateSafetyScore stringToNumber p q h n db <= 100).
Proof.
  intros Hzones Halerts. split.
  - unfold calculateSafetyScore. cbn [queryCoordinate toNumber]. cbv zeta.
    rewrite !zone_loop_counts.
    rewrite (count_Permutation (Spec.insideZone lat lng) _ _ Hzones).
    rewrite (count_Permutation (Spec.nearZone lat lng) _ _ Hzones).
    now rewrite (Permutation_length Halerts).
  - intros p q h n db. apply calculateSafetyScore_range.
Qed.

Lemma calculateSafetyScore_deterministic_witness :
  calculateSafetyScore Demo.noNumber (JsNumber 28) (JsNumber 77) 23
                       1700003600000 Demo.db
  = calculateSafetyScore Demo.noNumber (JsNumber 28) (JsNumber 77) 23
                         1700003600000 Demo.dbWithOldMine
  /\ (forall (p q : JsValue) (h n : Z) (db : Db),
        0 <= calculateSafetyScore Demo.noNumber p q h n db <= 100).
Proof.
  apply (calculateSafetyScore_deterministic Demo.noNumber 28 77 23
           1700003600000
           1700003600000 Demo.db Demo.dbWithOldMine).
  - apply Permutation_refl.
  - apply Permutation_refl.
Defined.

(** ** ZoneIndex *)

(** The loop of [POST /check-location] keeps, in order, the fences that
    contain the point. *)
Lemma checkFence_loop (latitude longitude : number) (fences : list GeoFence)
    (results : list CheckResult) :
  fold_left (checkFence latitude longitude) fences results =
  (results ++
   map (fun fence => mkCheckResult fence (distanceTo latitude longitude fence)
                                   true)
       (filter (contains latitude longitude) fences))%list.
Proof.
  revert results.
  induction fences as [| fence fences IH]; intros results; simpl.
  - now rewrite app_nil_r.
  - rewrite IH. unfold checkFence, contains. cbv zeta.
    destruct (le _ _); simpl; [| reflexivity].
    now rewrite <- app_assoc.
Qed.

Lemma containingZones_In (latitude longitude : number) (db : Db)
    (fence : GeoFence) :
  In fence (map geoFence (containingZones latitude longitude db)) <->
  In fence (geoFences db) /\ fence_isActive fence = true /\
  contains latitude longitude fence = true.
Proof.
  unfold containingZones. cbv zeta. rewrite checkFence_loop. simpl.
  rewrite map_map. simpl. rewrite map_id.
  rewrite filter_In, filter_In. tauto.
Qed.

(** C5.  For every active zone and every position, the containment
    query reports the zone exactly when the distance from the position
    to the zone centre is a number that is at most the radius; at
    distance exactly the radius the zone is reported, further out it is
    not. *)
Theorem containingZones_boundary_inclusive (lat lng : R) (db : Db)
    (fence : GeoFence) :
  In fence (geoFences db) ->
  fence_isActive fence = true ->
  let reported :=
    In fence (map geoFence (containingZones (Some lat) (Some lng) db)) in
  let dist :=
    calculateDistance lat lng (center_lat (fence_center fence))
                      (center_lng (fence_center fence)) in
  (reported <-> exists d, dist = Some d /\ (d <= fence_radius fence)%R)
  /\ (dist = Some (fence_radius fence) -> reported)
  /\ (forall eps, (0 < eps)%R ->
        dist = Some (fence_radius fence + eps)%R -> ~ reported).
Proof.
  intros Hin Hactive reported dist.
  assert (Hiff : reported <->
                 exists d, dist = Some d /\ (d <= fence_radius fence)%R).
  { unfold reported. rewrite containingZones_In.
    unfold contains, distanceTo, le. fold dist.
    split.
    - intros [_ [_ H]]. destruct dist as [d |]; [| discriminate].
      exists d. split; [reflexivity | now apply Rleb_true].
    - intros [d [Hd Hle]]. rewrite Hd.
      repeat split; try assumption. now apply Rleb_true. }
  split; [exact Hiff |]. split.
  - intros Hd. apply Hiff. exists (fence_radius fence). split; [exact Hd | lra].
  - intros eps Heps Hd Hrep. apply Hiff in Hrep.
    destruct Hrep as [d [Hd' Hle]]. rewrite Hd in Hd'.
    injection Hd' as <-. lra.
Qed.

Lemma containingZones_boundary_inclusive_witness :
  In Demo.quarry (geoFences Demo.db) /\
  fence_isActive Demo.quarry = true /\
  In Demo.quarry (map geoFence (containingZones (Some 28%R) (Some 77%R)
                                                Demo.db)).
Proof.
  assert (Hin : In Demo.quarry (geoFences Demo.db)) by (left; reflexivity).
  split; [exact Hin |]. split; [reflexivity |].
  destruct (containingZones_boundary_inclusive 28 77 Demo.db Demo.quarry
              Hin eq_refl) as [Hiff _].
  apply Hiff. exists 0%R. split.
  - apply (calculateDistance_self 28 77).
  - simpl. lra.
Defined.

(** Once the coordinates have passed the required-field check, the
    answer of [POST /check-location] lists what the query reports. *)
Lemma post_check_location_query (parseFloatString : string -> number)
    (body : PointBody) (db : Db) :
  truthy (point_lat body) = true ->
  truthy (point_lng body) = true ->
  exists data,
    post_check_location parseFloatString body db
    = (mkResponse 200 true "" (Some data), db) /\
    check_geoFences data
    = containingZones (Js.parseFloat parseFloatString (point_lat body))
                      (Js.parseFloat parseFloatString (point_lng body)) db.
Proof.
  intros Hlat Hlng. unfold post_check_location. cbv zeta.
  rewrite Hlat, Hlng. simpl. eexists. split; reflexivity.
Qed.

(** ** The required-field check on coordinates *)

Lemma truthy_zero : truthy (JsNumber 0) = false.
Proof.
  unfold truthy, Reqb. now destruct (Req_dec_T 0 0) as [_ | H].
Qed.

Lemma truthy_number (x : R) : x <> 0%R -> truthy (JsNumber x) = true.
Proof.
  intros Hx. unfold truthy, Reqb. now destruct (Req_dec_T x 0) as [H | _].
Qed.

Lemma coordinates_required (lat lng : JsValue) :
  lat = JsNumber 0 \/ lng = JsNumber 0 ->
  negb (truthy lat) || negb (truthy lng) = true.
Proof.
  intros [-> | ->]; rewrite truthy_zero; simpl; [reflexivity |].
  apply orb_true_r.
Qed.

(** C10.  A location check or a location update whose latitude or
    longitude is the number 0 is answered 400 "Latitude and longitude
    are required"; the response carries no data and the store is
    unchanged. *)
Theorem zero_coordinate_rejected
    (parseFloatString stringToNumber : string -> number)
    (touristSchema : Tourist -> bool)
    (user : ReqUser) (body : PointBody) (hour now : Z) (db : Db) :
  point_lat body = JsNumber 0 \/ point_lng body = JsNumber 0 ->
  post_check_location parseFloatString body db
  = (fail 400 "Latitude and longitude are required", db)
  /\ post_location parseFloatString stringToNumber touristSchema user body
                   hour now db
     = (fail 400 "Latitude and longitude are required", db).
Proof.
  intros Hzero. apply coordinates_required in Hzero.
  unfold post_check_location, post_location. cbv zeta.
  now rewrite Hzero.
Qed.

Lemma zero_coordinate_rejected_witness :
  (point_lat (mkPointBody (JsNumber 0) (JsNumber 77)) = JsNumber 0 \/
   point_lng (mkPointBody (JsNumber 0) (JsNumber 77)) = JsNumber 0) /\
  post_check_location Demo.noNumber (mkPointBody (JsNumber 0) (JsNumber 77))
                      Demo.db
  = (fail 400 "Latitude and longitude are required", Demo.db)
  /\ post_location Demo.noNumber Demo.noNumber Demo.accept Demo.touristUser
                   (mkPointBody (JsNumber 0) (JsNumber 77)) 12 1700000000000
                   Demo.db
     = (fail 400 "Latitude and longitude are required", Demo.db).
Proof.
  split; [left; reflexivity |].
  apply (zero_coordinate_rejected Demo.noNumber Demo.noNumber Demo.accept
           Demo.touristUser
           (mkPointBody (JsNumber 0) (JsNumber 77)) 12 1700000000000 Demo.db).
  left. reflexivity.
Defined.

(** The same coordinate sent as the string "0" passes the check. *)
Lemma string_zero_is_truthy : truthy (JsString "0") = true.
Proof. reflexivity. Qed.

(** ** Zone mutations *)

Lemma Int_part_5 : Int_part 5 = 5.
Proof. symmetry. apply Int_part_spec. lra. Qed.

Lemma parseIntNumber_minus_5 : parseIntNumber (-5) = (-5)%R.
Proof.
  unfold parseIntNumber.
  destruct (Req_dec_T (-5) 0) as [H | _]; [lra |].
  rewrite (Rabs_left (-5)) by lra.
  destruct (Rle_dec (1 / 1000000) (- -5)) as [_ | H]; [| lra].
  destruct (Rlt_dec (- -5) (powerRZ 10 21)) as [_ | H].
  - unfold trunc. destruct (Rle_dec 0 (-5)) as [H | _]; [lra |].
    replace (- -5)%R with 5%R by lra. rewrite Int_part_5. simpl. lra.
  - exfalso. apply H. simpl. lra.
Qed.

Lemma Reqb_minus_5 : Reqb (-5) 0 = false.
Proof. unfold Reqb. destruct (Req_dec_T (-5) 0); [lra | reflexivity]. Qed.

(** An update with the radius -5 and the latitude 999 is answered 200
    and stored; a creation with the radius -5 is never answered 400,
    whatever the schema accepts. *)
Lemma zone_validation_counterexample :
  (exists geoFence db',
     put_fence Demo.noNumber Demo.noNumber Demo.printNumber
               Demo.authorityUser 41 Demo.badFenceBody 1700000600000 Demo.db
     = (ok 200 "Geo-fence updated successfully" geoFence, db')
     /\ geoFences db' = [geoFence]
     /\ fence_radius geoFence = (-5)%R
     /\ center_lat (fence_center geoFence) = 999%R)
  /\ (forall geoFenceSchema isActiveDefault,
        res_status (fst (post_fences Demo.noNumber Demo.noNumber
                                     Demo.printNumber geoFenceSchema
                                     isActiveDefault Demo.authorityUser
                                     Demo.negativeRadiusBody 1700000600000
                                     Demo.db))
        <> 400).
Proof.
  split.
  - assert (Hupdate :
      updateData Demo.noNumber Demo.noNumber Demo.printNumber
                 Demo.badFenceBody 1700000600000
      = Some (mkFenceUpdate None None None (Some (mkLatLng 999 77))
                            (Some (-5)%R) None 1700000600000)).
    { unfold updateData, Demo.badFenceBody. simpl.
      rewrite Reqb_minus_5, parseIntNumber_minus_5. reflexivity. }
    unfold put_fence. rewrite Hupdate. simpl.
    eexists. eexists. split; [reflexivity |]. repeat split.
  - intros geoFenceSchema isActiveDefault.
    unfold post_fences, Demo.negativeRadiusBody.
    simpl. rewrite Reqb_minus_5. simpl.
    destruct (geoFenceSchema _); simpl; discriminate.
Qed.

Lemma findByIdAndUpdate_map {A B : Type} (getId : A -> ObjectId) (f : A -> B)
    (id : ObjectId) (update : A -> A) (l : list A) :
  (forall x, f (update x) = f x) ->
  map f (snd (findByIdAndUpdate getId id update l)) = map f l.
Proof.
  intros Hf. induction l as [| x l IH]; simpl; [reflexivity |].
  destruct (Nat.eqb (getId x) id); simpl.
  - now rewrite Hf.
  - destruct (findByIdAndUpdate getId id update l) as [res l'].
    simpl in *. now rewrite IH.
Qed.

Lemma updateData_no_radius (parseFloatString parseIntString : string -> number)
    (numberToString : R -> string) (body : FenceBody) (now : Z)
    (u : FenceUpdate) :
  truthy (fb_radius body) = false ->
  updateData parseFloatString parseIntString numberToString body now = Some u ->
  up_radius u = None.
Proof.
  intros Hradius. unfold updateData. cbv zeta. rewrite Hradius.
  destruct (fb_center body) as [center |].
  - destruct (Js.parseFloat parseFloatString (point_lat center)),
             (Js.parseFloat parseFloatString (point_lng center));
      try discriminate.
    now intros [= <-].
  - now intros [= <-].
Qed.

(** C6, as the code has it.  A creation whose name, type, center,
    radius or region is missing, a radius of 0 counting as missing, is
    answered 400 before any mutation and the store is unchanged; an
    update whose radius is 0 or missing leaves every stored radius as
    it was. *)
Theorem zone_required_fields
    (parseFloatString parseIntString : string -> number)
    (numberToString : R -> string) (geoFenceSchema : GeoFence -> bool)
    (isActiveDefault : bool)
    (user : ReqUser) (id : ObjectId) (body : FenceBody) (now : Z) (db : Db) :
  isAuthority user = true ->
  (fb_center body = None \/ truthy (fb_name body) = false \/
   truthy (fb_type body) = false \/ truthy (fb_radius body) = false \/
   truthy (fb_region body) = false ->
   let res := post_fences parseFloatString parseIntString numberToString
                          geoFenceSchema isActiveDefault user body now db in
   res = (fail 400
            "Name, type, center coordinates, radius, and region are required",
          db)
   /\ errorKind (fst res) = Some ValidationError)
  /\ truthy (JsNumber 0) = false
  /\ (truthy (fb_radius body) = false ->
      map fence_radius
          (geoFences (snd (put_fence parseFloatString parseIntString
                                     numberToString user id body now db)))
      = map fence_radius (geoFences db)).
Proof.
  intros Hauth. split; [| split; [exact truthy_zero |]].
  - intros Hmissing res.
    assert (Hres : res = (fail 400
              "Name, type, center coordinates, radius, and region are required",
              db)).
    { unfold res, post_fences. rewrite Hauth. simpl negb. cbv iota.
      destruct (fb_center body) as [center |]; [| reflexivity].
      destruct Hmissing as [H | [H | [H | [H | H]]]];
        [discriminate | | | |]; rewrite H; simpl;
        rewrite ?orb_true_r; reflexivity. }
    split; [exact Hres | now rewrite Hres].
  - intros Hradius. unfold put_fence. rewrite Hauth. simpl negb. cbv iota.
    destruct (updateData _ _ _ body now) as [u |] eqn:Hu; [| reflexivity].
    pose proof (updateData_no_radius _ _ _ _ _ _ Hradius Hu) as Hnone.
    pose proof (findByIdAndUpdate_map fence_id fence_radius id
                  (applyFenceUpdate u) (geoFences db)) as Hmap.
    destruct (findByIdAndUpdate fence_id id (applyFenceUpdate u)
                                (geoFences db)) as [[geoFence |] l];
      [| reflexivity].
    simpl in *. apply Hmap. intros x. simpl. now rewrite Hnone.
Qed.

Lemma zone_required_fields_witness :
  isAuthority Demo.authorityUser = true /\
  post_fences Demo.noNumber Demo.noNumber Demo.printNumber Demo.accept true
              Demo.authorityUser Demo.zeroRadiusBody 1700000600000 Demo.db
  = (fail 400
       "Name, type, center coordinates, radius, and region are required",
     Demo.db) /\
  map fence_radius
      (geoFences (snd (put_fence Demo.noNumber Demo.noNumber Demo.printNumber
                                 Demo.authorityUser 41 Demo.zeroRadiusBody
                                 1700000600000 Demo.db)))
  = map fence_radius (geoFences Demo.db).
Proof.
  destruct (zone_required_fields Demo.noNumber Demo.noNumber Demo.printNumber
              Demo.accept true Demo.authorityUser 41 Demo.zeroRadiusBody
              1700000600000 Demo.db eq_refl) as [Hcreate [Hzero Hupdate]].
  split; [reflexivity |]. split.
  - apply Hcreate. right. right. right. left. exact Hzero.
  - apply Hupdate. exact Hzero.
Defined.

(** ** SOS and the agent's status *)

Ltac break_handler H :=
  repeat match type of H with
         | context [match ?x with _ => _ end] => destruct x eqn:?
         end.

Lemma In_findById {A : Type} (getId : A -> ObjectId) (x : A) (l : list A) :
  In x l -> exists x0, findById getId (getId x) l = Some x0.
Proof.
  intros Hin. unfold findById.
  destruct (find _ l) as [x0 |] eqn:Hf; [eauto |].
  pose proof (find_none _ _ Hf x Hin) as Hn. simpl in Hn.
  rewrite Nat.eqb_refl in Hn. discriminate.
Qed.

Lemma findTourist_In (user : ReqUser) (db : Db) (t : Tourist) :
  findTourist user db = Some t -> In t (tourists db).
Proof. unfold findTourist. intros H. now apply find_some in H. Qed.

Lemma findById_id {A : Type} (getId : A -> ObjectId) (id : ObjectId)
    (l : list A) (x : A) :
  findById getId id l = Some x -> getId x = id.
Proof.
  unfold findById. intros H. apply find_some in H.
  now apply Nat.eqb_eq.
Qed.

(** A successful [POST /sos] stores one new active sos alert for the
    caller's tourist profile and leaves that profile in emergency,
    changed in nothing else. *)
Lemma post_sos_emergency
    (parseFloatString : string -> number) (numberToString : R -> string)
    (alertSchema : Alert -> bool) (touristSchema : Tourist -> bool)
    (user : ReqUser) (body : SosBody) (now : Z) (db : Db)
    (res : Response Alert) (db' : Db) :
  post_sos parseFloatString numberToString alertSchema touristSchema
           user body now db = (res, db') ->
  res_status res = 201 ->
  exists tourist sosAlert stored,
    findTourist user db = Some tourist /\
    res_data res = Some sosAlert /\
    alert_type sosAlert = "sos" /\
    alert_status sosAlert = "active" /\
    alert_touristId sosAlert = Some (tourist_id tourist) /\
    alerts db' = (alerts db ++ [sosAlert])%list /\
    findById tourist_id (tourist_id tourist) (tourists db') = Some stored /\
    tourist_status stored = "emergency" /\
    stored = set_tourist_status "emergency" tourist.
Proof.
  unfold post_sos. cbv zeta. intros H Hstatus.
  break_handler H; injection H as <- <-; try discriminate Hstatus.
  all: match goal with
       | Ht : findTourist _ ?d = Some ?t |- _ =>
           destruct (In_findById tourist_id t (tourists d)
                       (findTourist_In _ _ _ Ht)) as [t0 Ht0];
           exists t; eexists; exists (set_tourist_status "emergency" t);
           repeat (split; [reflexivity |]);
           split; [| split; reflexivity];
           simpl tourists;
           apply (findById_save tourist_id
                    (set_tourist_status "emergency" t) t0);
           exact Ht0
       end.
Qed.

(** A successful [PUT /sos/:id/status] with the status resolved leaves
    the alert's tourist active, changed in nothing else. *)
Lemma put_sos_status_resolved
    (numberToString : R -> string) (alertSchema : Alert -> bool)
    (user : ReqUser) (sosId : ObjectId) (body : StatusBody) (db : Db)
    (res : Response Alert) (db' : Db) :
  put_sos_status numberToString alertSchema user sosId body db = (res, db') ->
  res_status res = 200 ->
  body_status body = JsString "resolved" ->
  exists sosAlert,
    res_data res = Some sosAlert /\
    alert_type sosAlert = "sos" /\
    alert_status sosAlert = "resolved" /\
    forall touristId tourist,
      alert_touristId sosAlert = Some touristId ->
      findById tourist_id touristId (tourists db) = Some tourist ->
      exists stored,
        findById tourist_id touristId (tourists db') = Some stored /\
        tourist_status stored = "active" /\
        stored = set_tourist_status "active" tourist.
Proof.
  unfold put_sos_status. cbv zeta. intros H Hstatus Hresolved.
  rewrite Hresolved in H. simpl Js.toString in H.
  change (String.eqb "resolved" "resolved") with true in H. cbv iota in H.
  destruct (negb (isAuthority user)); [injection H as <- <-; discriminate |].
  destruct (negb _); [injection H as <- <-; discriminate |].
  destruct (findSos sosId db) as [sosAlert |] eqn:Hsos;
    [| injection H as <- <-; discriminate].
  destruct (findAuthority user db) as [authority |];
    [| injection H as <- <-; discriminate].
  destruct (alertSchema _); [| injection H as <- <-; discriminate].
  destruct (findSos_id _ _ _ Hsos) as [_ [_ Htype]].
  eexists. split; [injection H as <- _; reflexivity |].
  split; [exact Htype |]. split; [reflexivity |].
  intros touristId tourist Htid Hfind.
  rewrite Htid in H. injection H as _ <-.
  simpl tourists.
  destruct (findByIdAndUpdate_found tourist_id touristId
              (set_tourist_status "active") (tourists db) tourist)
    as [l' [Heq Hl']].
  - simpl. exact (findById_id _ _ _ _ Hfind).
  - exact Hfind.
  - exists (set_tourist_status "active" tourist).
    split; [now rewrite Heq | split; reflexivity].
Qed.

(** The status update of the alerts router and that of the authority
    router write to the alert collection only. *)
Lemma generic_status_update_frame
    (numberToString : R -> string)
    (user : ReqUser) (id : ObjectId) (body : StatusBody) (now : Z) (db : Db) :
  tourists (snd (put_alert_status numberToString user id body now db))
  = tourists db /\
  tourists (snd (authority_put_alert_status numberToString user id body
                                            now db))
  = tourists db.
Proof.
  unfold put_alert_status, authority_put_alert_status. cbv zeta. split.
  - destruct (negb (isAuthority user)); [reflexivity |].
    destruct (negb _); [reflexivity |].
    now destruct (findByIdAndUpdate _ _ _ _) as [[alert |] l].
  - destruct (negb _); [reflexivity |].
    destruct (findAuthority user db); [| reflexivity].
    now destruct (findByIdAndUpdate _ _ _ _) as [[alert |] l].
Qed.

(** The SOS endpoint does nothing to an alert that is not an sos
    alert. *)
Lemma put_sos_status_other_kind
    (numberToString : R -> string) (alertSchema : Alert -> bool)
    (user : ReqUser) (sosId : ObjectId) (body : StatusBody) (db : Db) :
  (forall a, In a (alerts db) -> alert_id a = sosId -> alert_type a <> "sos") ->
  snd (put_sos_status numberToString alertSchema user sosId body db) = db.
Proof.
  intros Hkind. unfold put_sos_status. cbv zeta.
  destruct (negb (isAuthority user)); [reflexivity |].
  destruct (negb _); [reflexivity |].
  destruct (findSos sosId db) as [a |] eqn:Hsos; [| reflexivity].
  destruct (findSos_id _ _ _ Hsos) as [Hin [Hid Htype]].
  now destruct (Hkind a Hin Hid).
Qed.

Lemma Reqb_nonzero (x : R) : x <> 0%R -> Reqb x 0 = false.
Proof.
  intros Hx. unfold Reqb. now destruct (Req_dec_T x 0).
Qed.

Lemma post_sos_demo :
  post_sos Demo.noNumber Demo.printNumber Demo.accept Demo.accept
           Demo.touristUser Demo.sosBody 1700000600000 Demo.db
  = (ok 201 "SOS alert sent successfully. Help is on the way!"
        Demo.newSosAlert, Demo.afterSos).
Proof.
  unfold post_sos, Demo.sosBody. simpl.
  rewrite (Reqb_nonzero 28) by lra. rewrite (Reqb_nonzero 77) by lra.
  reflexivity.
Qed.

Lemma put_sos_status_demo :
  put_sos_status Demo.printNumber Demo.accept Demo.authorityUser 50
                 (Demo.statusBody "resolved") Demo.afterSos
  = (ok 200 "SOS alert resolved successfully"
        (respond_sos Demo.printNumber (JsString "resolved") JsUndefined
                     Demo.raoProfile Demo.newSosAlert),
     mkDb [Demo.asha; Demo.rao]
          [set_tourist_status "active"
             (set_tourist_status "emergency" Demo.ashaProfile)]
          [Demo.raoProfile]
          [Demo.sosAlert;
           respond_sos Demo.printNumber (JsString "resolved") JsUndefined
                       Demo.raoProfile Demo.newSosAlert]
          [] [Demo.quarry] 51).
Proof. reflexivity. Qed.

(** C7, against the status updates of the alerts router and of the
    authority router.  A tourist sends an SOS and is in emergency.  An
    authority then resolves that sos alert through [PUT /:id/status] of
    the alerts router, or through [PUT /alerts/:id/status] of the
    authority router: the answer is 200, the stored alert is an sos
    alert with the status resolved, and the tourist is still in
    emergency.  Neither handler ever writes to a tourist, whatever the
    alert and the status.  The same request on [PUT /sos/:id/status]
    leaves the tourist active. *)
Theorem resolving_sos_alert_can_leave_tourist_in_emergency :
  let statusOf (touristId : ObjectId) (db : Db) :=
    option_map tourist_status (findById tourist_id touristId (tourists db)) in
  let resolved (run : Response Alert * Db) :=
    res_status (fst run) = 200 /\
    option_map alert_type (res_data (fst run)) = Some "sos" /\
    option_map alert_status (res_data (fst run)) = Some "resolved" /\
    option_map alert_touristId (res_data (fst run)) = Some (Some 11%nat) /\
    option_map alert_status (findById alert_id 50 (alerts (snd run)))
    = Some "resolved" in
  (forall numberToString user id body now db,
     tourists (snd (put_alert_status numberToString user id body now db))
     = tourists db /\
     tourists (snd (authority_put_alert_status numberToString user id body
                                               now db))
     = tourists db)
  /\ statusOf 11%nat Demo.db = Some "active"
  /\ post_sos Demo.noNumber Demo.printNumber Demo.accept Demo.accept
              Demo.touristUser Demo.sosBody 1700000600000 Demo.db
     = (ok 201 "SOS alert sent successfully. Help is on the way!"
           Demo.newSosAlert, Demo.afterSos)
  /\ statusOf 11%nat Demo.afterSos = Some "emergency"
  /\ (let run := put_alert_status Demo.printNumber Demo.authorityUser 50
                   (Demo.statusBody "resolved") 1700000700000 Demo.afterSos in
      resolved run /\ statusOf 11%nat (snd run) = Some "emergency")
  /\ (let run := authority_put_alert_status Demo.printNumber
                   Demo.authorityUser 50 (Demo.statusBody "resolved")
                   1700000700000 Demo.afterSos in
      resolved run /\ statusOf 11%nat (snd run) = Some "emergency")
  /\ (let run := put_sos_status Demo.printNumber Demo.accept
                   Demo.authorityUser 50 (Demo.statusBody "resolved")
                   Demo.afterSos in
      resolved run /\ statusOf 11%nat (snd run) = Some "active").
Proof.
  cbv zeta. split; [| split; [reflexivity |]; split; [exact post_sos_demo |]].
  - intros numberToString user id body now db.
    apply generic_status_update_frame.
  - split; [reflexivity |].
    split; [repeat split |].
    split; [repeat split |].
    rewrite put_sos_status_demo. repeat split.
Qed.

(** X21.  On the SOS endpoints the tourist's status follows the sos
    alert.  A [POST /sos] that answers 201 has stored one new active sos
    alert for the caller's tourist profile, and that profile now has the
    status emergency and is otherwise what it was.  A
    [PUT /sos/:id/status] that answers 200 to the status resolved has
    stored that status in an sos alert, and the alert's tourist now has
    the status active and is otherwise what it was.  Asked about an
    alert that is not an sos alert, [PUT /sos/:id/status] changes
    nothing. *)
Theorem sos_endpoints_set_and_reset_tourist_status
    (parseFloatString : string -> number) (numberToString : R -> string)
    (alertSchema : Alert -> bool) (touristSchema : Tourist -> bool)
    (user : ReqUser) (sos : SosBody) (id : ObjectId) (body : StatusBody)
    (now : Z) (db : Db) :
  (forall res db',
     post_sos parseFloatString numberToString alertSchema touristSchema
              user sos now db = (res, db') ->
     res_status res = 201 ->
     exists tourist sosAlert stored,
       findTourist user db = Some tourist /\
       res_data res = Some sosAlert /\
       alert_type sosAlert = "sos" /\
       alert_status sosAlert = "active" /\
       alert_touristId sosAlert = Some (tourist_id tourist) /\
       alerts db' = (alerts db ++ [sosAlert])%list /\
       findById tourist_id (tourist_id tourist) (tourists db') = Some stored /\
       tourist_status stored = "emergency" /\
       stored = set_tourist_status "emergency" tourist)
  /\ (forall res db',
        put_sos_status numberToString alertSchema user id body db
        = (res, db') ->
        res_status res = 200 ->
        body_status body = JsString "resolved" ->
        exists sosAlert,
          res_data res = Some sosAlert /\
          alert_type sosAlert = "sos" /\
          alert_status sosAlert = "resolved" /\
          forall touristId tourist,
            alert_touristId sosAlert = Some touristId ->
            findById tourist_id touristId (tourists db) = Some tourist ->
            exists stored,
              findById tourist_id touristId (tourists db') = Some stored /\
              tourist_status stored = "active" /\
              stored = set_tourist_status "active" tourist)
  /\ ((forall a, In a (alerts db) -> alert_id a = id ->
                 alert_type a <> "sos") ->
      snd (put_sos_status numberToString alertSchema user id body db) = db).
Proof.
  split; [| split].
  - intros res db'. apply post_sos_emergency.
  - intros res db'. apply put_sos_status_resolved.
  - apply put_sos_status_other_kind.
Qed.

Lemma sos_endpoints_set_and_reset_tourist_status_witness :
  (exists db' stored,
     snd (post_sos Demo.noNumber Demo.printNumber Demo.accept Demo.accept
                   Demo.touristUser Demo.sosBody 1700000600000 Demo.db) = db'
     /\ findById tourist_id 11 (tourists db') = Some stored
     /\ tourist_status stored = "emergency")
  /\ (exists db' stored,
        snd (put_sos_status Demo.printNumber Demo.accept Demo.authorityUser 50
                            (Demo.statusBody "resolved") Demo.afterSos) = db'
        /\ findById tourist_id 11 (tourists db') = Some stored
        /\ tourist_status stored = "active").
Proof.
  split.
  - destruct (sos_endpoints_set_and_reset_tourist_status
                Demo.noNumber Demo.printNumber
                Demo.accept Demo.accept Demo.touristUser Demo.sosBody 50
                (Demo.statusBody "resolved") 1700000600000 Demo.db)
      as [Hcreate _].
    destruct (Hcreate _ _ post_sos_demo eq_refl)
      as [tourist [sosAlert [stored [Hfind [_ [_ [_ [_ [_ [Hstored
            [Hstatus _]]]]]]]]]]].
    injection Hfind as <-.
    eexists. exists stored. split; [reflexivity |].
    rewrite post_sos_demo. simpl snd.
    split; [exact Hstored | exact Hstatus].
  - destruct (sos_endpoints_set_and_reset_tourist_status
                Demo.noNumber Demo.printNumber
                Demo.accept Demo.accept Demo.authorityUser Demo.sosBody 50
                (Demo.statusBody "resolved") 1700000600000 Demo.afterSos)
      as [_ [Hresolve _]].
    destruct (Hresolve _ _ put_sos_status_demo eq_refl eq_refl)
      as [sosAlert [Hdata [_ [_ Htourist]]]].
    injection Hdata as <-.
    destruct (Htourist 11%nat (set_tourist_status "emergency" Demo.ashaProfile)
                eq_refl eq_refl) as [stored [Hstored [Hstatus _]]].
    eexists. exists stored. split; [reflexivity |].
    rewrite put_sos_status_demo. simpl snd.
    split; [exact Hstored | exact Hstatus].
Defined.

(** ** IncidentLedger *)





(** * Further routes *)

(** ** Sorting *)

Section SortingFacts.
Context {A : Type} (before : A -> A -> bool).

Lemma insertSorted_Permutation (x : A) (l : list A) :
  Permutation (insertSorted before x l) (x :: l).
Proof.
  induction l as [| y r IH]; simpl; [apply Permutation_refl |].
  destruct (before x y); [apply Permutation_refl |].
  eapply perm_trans; [apply perm_skip, IH | apply perm_swap].
Qed.

Lemma sortBy_Permutation (l : list A) : Permutation (sortBy before l) l.
Proof.
  induction l as [| x l IH]; simpl; [apply perm_nil |].
  eapply perm_trans; [apply insertSorted_Permutation |].
  now apply perm_skip.
Qed.

Hypothesis before_total : forall a b, before a b = true \/ before b a = true.

Lemma insertSorted_Sorted (x : A) (l : list A) :
  Sorted (fun a b => before a b = true) l ->
  Sorted (fun a b => before a b = true) (insertSorted before x l).
Proof.
  induction 1 as [| y r Hr IH Hhd]; simpl.
  - repeat constructor.
  - destruct (before x y) eqn:Hxy.
    + constructor; [now constructor | now constructor].
    + constructor; [exact IH |].
      assert (Hyx : before y x = true).
      { destruct (before_total x y) as [H | H]; [congruence | exact H]. }
      destruct r as [| z r]; simpl.
      * now constructor.
      * inversion Hhd; subst.
        destruct (before x z); now constructor.
Qed.

Lemma sortBy_Sorted (l : list A) :
  Sorted (fun a b => before a b = true) (sortBy before l).
Proof.
  induction l as [| x l IH]; simpl; [constructor |].
  now apply insertSorted_Sorted.
Qed.

End SortingFacts.

Lemma StronglySorted_app_inv {A : Type} (R : A -> A -> Prop) (l1 l2 : list A) :
  StronglySorted R (l1 ++ l2) ->
  forall a b, In a l1 -> In b l2 -> R a b.
Proof.
  induction l1 as [| x l1 IH]; simpl; intros Hs a b Ha Hb; [easy |].
  apply StronglySorted_inv in Hs. destruct Hs as [Hs Hall].
  destruct Ha as [<- | Ha].
  - rewrite Forall_forall in Hall. apply Hall, in_or_app. now right.
  - now apply (IH Hs).
Qed.

Lemma In_firstn {A : Type} (n : nat) (l : list A) (x : A) :
  In x (firstn n l) -> In x l.
Proof.
  intros H. rewrite <- (firstn_skipn n l). apply in_or_app. now left.
Qed.

Lemma StronglySorted_firstn {A : Type} (R : A -> A -> Prop) (n : nat)
    (l : list A) :
  StronglySorted R l -> StronglySorted R (firstn n l).
Proof.
  intros Hs. revert n.
  induction Hs as [| x l Hl IH Hall]; intros [| n]; simpl; try constructor.
  - apply IH.
  - rewrite Forall_forall in *. intros y Hy. apply Hall.
    now apply (In_firstn n l).
Qed.

(** ** [GET /nearby] *)

Lemma closer_total (a b : NearbyFence) :
  closer a b = true \/ closer b a = true.
Proof.
  unfold closer.
  destruct (Rle_dec (nearby_distance a) (nearby_distance b)) as [H | H].
  - left. now apply Rleb_true.
  - right. apply Rleb_true. lra.
Qed.

Lemma keep_In {A B : Type} (f : A -> option B) (l : list A) (y : B) :
  In y (keep f l) <-> exists x, In x l /\ f x = Some y.
Proof.
  induction l as [| x r IH]; simpl.
  - split; [easy | now intros [x [H _]]].
  - destruct (f x) as [y0 |] eqn:Hx; simpl; rewrite IH; split.
    + intros [<- | [x0 [Hin Hf]]]; eauto.
    + intros [x0 [[<- | Hin] Hf]]; [left; congruence | right; eauto].
    + intros [x0 [Hin Hf]]; eauto.
    + intros [x0 [[<- | Hin] Hf]]; [congruence | eauto].
Qed.

Lemma pushNearby_loop (latitude longitude searchRadius : number)
    (fences : list GeoFence) (acc : list NearbyFence) :
  fold_left (pushNearby latitude longitude searchRadius) fences acc
  = (acc ++ keep (withinSearch latitude longitude searchRadius) fences)%list.
Proof.
  revert acc. induction fences as [| fence fences IH]; intros acc; simpl.
  - now rewrite app_nil_r.
  - rewrite IH. unfold pushNearby, withinSearch.
    destruct (distanceTo latitude longitude fence) as [d |]; [| reflexivity].
    destruct searchRadius as [r |]; [| reflexivity].
    destruct (Rleb d r); [| reflexivity].
    now rewrite <- app_assoc.
Qed.

Lemma Sorted_weaken {A : Type} (R R' : A -> A -> Prop) (l : list A) :
  (forall a b, R a b -> R' a b) -> Sorted R l -> Sorted R' l.
Proof.
  intros Himp. induction 1 as [| x l Hl IH Hhd]; constructor; [exact IH |].
  destruct Hhd; constructor. now apply Himp.
Qed.

Lemma sortBy_closer_sorted (l : list NearbyFence) :
  StronglySorted (fun a b => (nearby_distance a <= nearby_distance b)%R)
                 (sortBy closer l).
Proof.
  apply Sorted_StronglySorted.
  - intros a b c Hab Hbc. lra.
  - apply (Sorted_weaken (fun a b => closer a b = true)).
    + intros a b H. now apply Rleb_true.
    + apply sortBy_Sorted. exact closer_total.
Qed.

Lemma withinSearch_Some (latitude longitude searchRadius : number)
    (fence : GeoFence) (n : NearbyFence) :
  withinSearch latitude longitude searchRadius fence = Some n <->
  nearby_fence n = fence /\
  distanceTo latitude longitude fence = Some (nearby_distance n) /\
  exists r, searchRadius = Some r /\ (nearby_distance n <= r)%R.
Proof.
  unfold withinSearch.
  destruct (distanceTo latitude longitude fence) as [d |];
    [| split; [discriminate | now intros [_ [H _]]]].
  destruct searchRadius as [r |];
    [| split; [discriminate | now intros [_ [_ [r [H _]]]]]].
  destruct (Rleb d r) eqn:Hle; split.
  - intros [= <-]. simpl. repeat split. exists r. split; [reflexivity |].
    now apply Rleb_true.
  - intros [Hf [[= Hd] _]]. destruct n as [f d']. simpl in *. now subst.
  - discriminate.
  - intros [_ [[= Hd] [r' [[= <-] Hr]]]]. subst d.
    apply Rleb_false in Hle. lra.
Qed.

(** X1.  [GET /nearby] with a latitude and a longitude answers 200 with
    the active fences whose centre is within the search radius of the
    point, each exactly once and with its distance, nearest first. *)
Theorem get_nearby_sorted_and_complete
    (parseFloatString parseIntString : string -> number)
    (query : NearbyQuery) (db : Db) :
  truthy (queryValue (nq_lat query)) = true ->
  truthy (queryValue (nq_lng query)) = true ->
  let latitude := Js.parseFloat parseFloatString (queryValue (nq_lat query)) in
  let longitude := Js.parseFloat parseFloatString (queryValue (nq_lng query)) in
  let searchRadius :=
    Js.parseInt parseIntString
                (match nq_radius query with
                 | Some s => JsString s
                 | None => JsNumber 5000
                 end) in
  exists nearby,
    get_nearby parseFloatString parseIntString query db
    = (mkResponse 200 true "" (Some nearby), db) /\
    StronglySorted (fun a b => (nearby_distance a <= nearby_distance b)%R)
                   nearby /\
    Permutation nearby
                (keep (withinSearch latitude longitude searchRadius)
                      (filter fence_isActive (geoFences db))) /\
    forall fence d,
      In (mkNearbyFence fence d) nearby <->
      In fence (geoFences db) /\ fence_isActive fence = true /\
      distanceTo latitude longitude fence = Some d /\
      exists r, searchRadius = Some r /\ (d <= r)%R.
Proof.
  intros Hlat Hlng latitude longitude searchRadius.
  unfold get_nearby. cbv zeta. rewrite Hlat, Hlng. simpl negb. cbv iota.
  fold latitude longitude searchRadius.
  rewrite pushNearby_loop. simpl app.
  eexists. split; [reflexivity |]. split; [apply sortBy_closer_sorted |].
  split; [apply sortBy_Permutation |].
  intros fence d. split.
  - intros Hin.
    apply (Permutation_in _ (sortBy_Permutation closer _)) in Hin.
    apply keep_In in Hin. destruct Hin as [f [Hf Hkeep]].
    apply filter_In in Hf. destruct Hf as [Hf Hactive].
    apply withinSearch_Some in Hkeep. simpl in Hkeep.
    destruct Hkeep as [<- [Hd Hr]]. auto.
  - intros [Hf [Hactive [Hd Hr]]].
    apply (Permutation_in _ (Permutation_sym (sortBy_Permutation closer _))).
    apply keep_In. exists fence. split; [now apply filter_In |].
    apply withinSearch_Some. simpl. auto.
Qed.

Lemma get_nearby_sorted_and_complete_witness :
  truthy (queryValue (nq_lat Tour.here)) = true /\
  truthy (queryValue (nq_lng Tour.here)) = true /\
  exists nearby,
    get_nearby Tour.parseNumber Tour.parseNumber Tour.here Tour.db
    = (mkResponse 200 true "" (Some nearby), Tour.db) /\
    In (mkNearbyFence Demo.quarry 0) nearby /\
    In (mkNearbyFence Tour.market 0) nearby /\
    ~ In (mkNearbyFence Demo.oldMine 0) nearby.
Proof.
  split; [reflexivity |]. split; [reflexivity |].
  destruct (get_nearby_sorted_and_complete Tour.parseNumber Tour.parseNumber
              Tour.here Tour.db eq_refl eq_refl)
    as [nearby [Hrun [_ [_ Hin]]]].
  exists nearby. split; [exact Hrun |].
  assert (Hzero : distanceTo (Some 28%R) (Some 77%R) Demo.quarry = Some 0%R)
    by apply (calculateDistance_self 28 77).
  assert (Hradius : exists r, Some 400%R = Some r /\ (0 <= r)%R)
    by (exists 400%R; split; [reflexivity | lra]).
  repeat split.
  - apply Hin. simpl. repeat split; auto.
  - apply Hin. simpl. repeat split; auto.
  - intros H. apply Hin in H. destruct H as [_ [H _]]. discriminate.
Defined.

(** ** [GET /fences] *)

(** X2.  [GET /fences] lists active fences only when the query says
    [active=true] in so many letters; with any other value, and when the
    parameter is absent, it lists inactive fences only.  A non-empty
    [type] or [region] narrows the list to the fences that carry it. *)
Theorem get_fences_active_parameter
    (newestFencesFirst : list GeoFence -> list GeoFence)
    (query : FencesQuery) (db : Db) :
  (forall l, Permutation (newestFencesFirst l) l) ->
  exists listed,
    get_fences newestFencesFirst query db
    = (mkResponse 200 true "" (Some listed), db) /\
    forall fence,
      In fence listed <->
      In fence (geoFences db) /\
      fence_isActive fence
      = match fq_active query with
        | Some s => String.eqb s "true"
        | None => false
        end /\
      (forall type, fq_type query = Some type -> type <> "" ->
                    fence_type fence = type) /\
      (forall region, fq_region query = Some region -> region <> "" ->
                      fence_region fence = region).
Proof.
  intros Hperm. unfold get_fences. cbv zeta.
  eexists. split; [reflexivity |].
  intros fence.
  assert (Hlisted : In fence (newestFencesFirst
                                (filter (matchesFilter (fencesFilter query))
                                        (geoFences db)))
                    <-> In fence (geoFences db) /\
                        matchesFilter (fencesFilter query) fence = true).
  { rewrite <- filter_In. split; apply Permutation_in;
      [apply Hperm | apply Permutation_sym, Hperm]. }
  rewrite Hlisted. clear Hlisted.
  unfold matchesFilter, fencesFilter. cbv zeta. simpl.
  rewrite !andb_true_iff.
  assert (Htype : (match (if truthy (queryValue (fq_type query))
                         then fq_type query else None) with
                   | Some type => String.eqb (fence_type fence) type
                   | None => true
                   end = true)
                  <-> (forall type, fq_type query = Some type -> type <> "" ->
                                    fence_type fence = type)).
  { destruct (fq_type query) as [t |]; simpl; [| now split].
    destruct (String.eqb_spec t ""); simpl.
    - split; [| reflexivity]. intros _ type [= <-] Hne. contradiction.
    - rewrite String.eqb_eq. split.
      + now intros H type [= <-] _.
      + intros H. now apply H. }
  assert (Hregion : (match (if truthy (queryValue (fq_region query))
                           then fq_region query else None) with
                     | Some region => String.eqb (fence_region fence) region
                     | None => true
                     end = true)
                    <-> (forall region, fq_region query = Some region ->
                                        region <> "" ->
                                        fence_region fence = region)).
  { destruct (fq_region query) as [t |]; simpl; [| now split].
    destruct (String.eqb_spec t ""); simpl.
    - split; [| reflexivity]. intros _ region [= <-] Hne. contradiction.
    - rewrite String.eqb_eq. split.
      + now intros H region [= <-] _.
      + intros H. now apply H. }
  rewrite Htype, Hregion.
  assert (Hactive : (match (match fq_active query with
                            | Some s => JsString s
                            | None => JsBool true
                            end) with
                     | JsUndefined => true
                     | JsString s =>
                         Bool.eqb (fence_isActive fence) (String.eqb s "true")
                     | _ => Bool.eqb (fence_isActive fence) false
                     end = true)
                    <-> fence_isActive fence
                        = match fq_active query with
                          | Some s => String.eqb s "true"
                          | None => false
                          end).
  { destruct (fq_active query) as [s |]; apply Bool.eqb_true_iff. }
  split.
  - intros [Hin [[Ht Hr] Ha]]. repeat split; try assumption.
    apply Hactive. destruct (fq_active query); exact Ha.
  - intros [Hin [Ha [Ht Hr]]]. repeat split; try assumption.
    apply Hactive in Ha. destruct (fq_active query); exact Ha.
Qed.

Lemma get_fences_active_parameter_witness :
  (forall l : list GeoFence, Permutation ((fun l => l) l) l) /\
  exists listed,
    get_fences (fun l => l) (mkFencesQuery None None None) Tour.db
    = (mkResponse 200 true "" (Some listed), Tour.db) /\
    In Demo.oldMine listed /\ ~ In Demo.quarry listed.
Proof.
  assert (Hperm : forall l : list GeoFence, Permutation ((fun l => l) l) l)
    by (intros l; apply Permutation_refl).
  split; [exact Hperm |].
  destruct (get_fences_active_parameter (fun l => l)
              (mkFencesQuery None None None) Tour.db Hperm)
    as [listed [Hrun Hin]].
  exists listed. split; [exact Hrun |]. split.
  - apply Hin. simpl. repeat split; try discriminate. auto.
  - intros H. apply Hin in H. destruct H as [_ [H _]]. discriminate.
Defined.

(** ** [GET /alerts] of the tourist router *)

Lemma sortBy_newerOrSame_sorted (l : list Alert) :
  StronglySorted (fun a b => alert_createdAt b <= alert_createdAt a)
                 (sortBy newerOrSame l).
Proof.
  apply Sorted_StronglySorted.
  - intros a b c Hab Hbc. lia.
  - apply (Sorted_weaken (fun a b => newerOrSame a b = true)).
    + intros a b H. now apply Z.leb_le.
    + apply sortBy_Sorted. intros a b. unfold newerOrSame.
      rewrite !Z.leb_le. lia.
Qed.

(** X3.  [GET /alerts] of the tourist router answers a caller who has a
    tourist profile with at most 50 alerts, all of them raised for that
    profile, newest first; an alert of the caller that is left out is
    left out because the list is full, and it is not newer than any
    alert listed. *)
Theorem get_tourist_alerts_own_latest
    (newestAlertsFirst : list Alert -> list Alert)
    (user : ReqUser) (db : Db) (tourist : Tourist) :
  (forall l, Permutation (newestAlertsFirst l) l) ->
  (forall l, StronglySorted
               (fun a b => alert_createdAt b <= alert_createdAt a)
               (newestAlertsFirst l)) ->
  findTourist user db = Some tourist ->
  exists listed,
    get_tourist_alerts newestAlertsFirst user db
    = (mkResponse 200 true "" (Some listed), db) /\
    (List.length listed <= 50)%nat /\
    StronglySorted (fun a b => alert_createdAt b <= alert_createdAt a)
                   listed /\
    (forall a, In a listed ->
               In a (alerts db) /\
               alert_touristId a = Some (tourist_id tourist)) /\
    (forall a, In a (alerts db) ->
               alert_touristId a = Some (tourist_id tourist) ->
               ~ In a listed ->
               List.length listed = 50%nat /\
               forall b, In b listed ->
                         alert_createdAt a <= alert_createdAt b).
Proof.
  intros Hperm Hsorted Hprofile.
  unfold get_tourist_alerts. rewrite Hprofile. cbv zeta.
  set (own := fun a : Alert =>
                match alert_touristId a with
                | Some touristId => Nat.eqb touristId (tourist_id tourist)
                | None => false
                end).
  set (l := newestAlertsFirst (filter own (alerts db))).
  assert (Hown : forall a, own a = true <->
                           alert_touristId a = Some (tourist_id tourist)).
  { intros a. unfold own. destruct (alert_touristId a) as [t |].
    - rewrite Nat.eqb_eq. split; [now intros -> | now intros [= ->]].
    - split; discriminate. }
  assert (Hl : forall a, In a l <-> In a (alerts db) /\ own a = true).
  { intros a. rewrite <- filter_In. unfold l.
    split; apply Permutation_in;
      [apply Hperm | apply Permutation_sym, Hperm]. }
  eexists. split; [reflexivity |].
  split; [apply firstn_le_length |].
  split; [apply StronglySorted_firstn, Hsorted |].
  split.
  - intros a Ha. apply In_firstn, Hl in Ha. destruct Ha as [Hin Ha].
    split; [exact Hin | now apply Hown].
  - intros a Hin Ha Hout.
    assert (Hal : In a l) by (apply Hl; split; [exact Hin | now apply Hown]).
    rewrite <- (firstn_skipn 50 l) in Hal. apply in_app_or in Hal.
    destruct Hal as [Hal | Hal]; [contradiction |].
    split.
    + apply firstn_length_le.
      destruct (Nat.le_gt_cases 50 (List.length l)) as [H | H]; [exact H |].
      rewrite skipn_all2 in Hal by lia. destruct Hal.
    + intros b Hb.
      pose proof (Hsorted (filter own (alerts db))) as Hs. fold l in Hs.
      rewrite <- (firstn_skipn 50 l) in Hs.
      exact (StronglySorted_app_inv _ _ _ Hs b a Hb Hal).
Qed.

Lemma get_tourist_alerts_own_latest_witness :
  findTourist Demo.touristUser Tour.db = Some Demo.ashaProfile /\
  exists listed,
    get_tourist_alerts (sortBy newerOrSame) Demo.touristUser Tour.db
    = (mkResponse 200 true "" (Some listed), Tour.db) /\
    (List.length listed <= 50)%nat /\
    forall a, In a listed ->
              In a (alerts Tour.db) /\ alert_touristId a = Some 11%nat.
Proof.
  split; [reflexivity |].
  destruct (get_tourist_alerts_own_latest (sortBy newerOrSame)
              Demo.touristUser Tour.db Demo.ashaProfile
              (sortBy_Permutation newerOrSame) sortBy_newerOrSame_sorted
              eq_refl)
    as [listed [Hrun [Hlen [_ [Hown _]]]]].
  exists listed. split; [exact Hrun |]. split; [exact Hlen | exact Hown].
Defined.

(** ** [GET /:id] of the alerts router *)

(** X4.  A caller whose role is tourist is handed an alert only when
    the alert was raised for the caller's own tourist profile; asking
    for an alert raised for nobody (an authority's alert) ends in 500,
    not in 403; a caller with any other role is handed every alert
    that exists. *)
Theorem get_alert_access (user : ReqUser) (id : ObjectId) (db : Db) :
  (forall res db' a,
     get_alert user id db = (res, db') ->
     res_data res = Some a ->
     db' = db /\ findById alert_id id (alerts db) = Some a /\
     (userType user = "tourist" ->
      exists tourist, findTourist user db = Some tourist /\
                      alert_touristId a = Some (tourist_id tourist)))
  /\ (forall alert,
        findById alert_id id (alerts db) = Some alert ->
        userType user = "tourist" ->
        alert_touristId alert = None ->
        get_alert user id db = (fail 500 "Server error", db))
  /\ (forall alert,
        findById alert_id id (alerts db) = Some alert ->
        userType user <> "tourist" ->
        get_alert user id db = (mkResponse 200 true "" (Some alert), db)).
Proof.
  unfold get_alert. split; [| split].
  - intros res db' a Hrun Hdata.
    destruct (findById alert_id id (alerts db)) as [alert |] eqn:Hfind;
      [| injection Hrun as <- <-; discriminate].
    destruct (String.eqb_spec (userType user) "tourist") as [Hrole | Hrole].
    + unfold populateTourist in Hrun.
      destruct (alert_touristId alert) as [touristId |] eqn:Htid;
        [| injection Hrun as <- <-; discriminate].
      destruct (findById tourist_id touristId (tourists db)) as [owner |]
        eqn:Howner; [| injection Hrun as <- <-; discriminate].
      destruct (findTourist user db) as [tourist |];
        [| injection Hrun as <- <-; discriminate].
      destruct (Nat.eqb_spec (tourist_id owner) (tourist_id tourist))
        as [Hsame | Hother]; simpl in Hrun;
        injection Hrun as <- <-; [| discriminate].
      injection Hdata as <-. repeat split. intros _.
      exists tourist. split; [reflexivity |].
      rewrite Htid, <- Hsame. f_equal. symmetry.
      exact (findById_id _ _ _ _ Howner).
    + injection Hrun as <- <-. injection Hdata as <-.
      repeat split. intros Htourist. contradiction.
  - intros alert Hfind Hrole Hnone. rewrite Hfind, Hrole. simpl.
    unfold populateTourist. now rewrite Hnone.
  - intros alert Hfind Hrole. rewrite Hfind.
    apply String.eqb_neq in Hrole. now rewrite Hrole.
Qed.

Lemma get_alert_access_witness :
  get_alert Tour.belaUser 33 Tour.db
  = (mkResponse 200 true "" (Some Tour.belaAlert), Tour.db) /\
  get_alert Tour.belaUser 31 Tour.db = (fail 403 "Access denied", Tour.db) /\
  get_alert Tour.belaUser 32 Tour.db = (fail 500 "Server error", Tour.db) /\
  get_alert Demo.authorityUser 31 Tour.db
  = (mkResponse 200 true "" (Some Demo.sosAlert), Tour.db) /\
  exists tourist, findTourist Tour.belaUser Tour.db = Some tourist /\
                  alert_touristId Tour.belaAlert = Some (tourist_id tourist).
Proof.
  destruct (get_alert_access Tour.belaUser 33 Tour.db) as [Hown _].
  destruct (get_alert_access Tour.belaUser 32 Tour.db) as [_ [Hnobody _]].
  destruct (get_alert_access Demo.authorityUser 31 Tour.db) as [_ [_ Hany]].
  split; [reflexivity |]. split; [reflexivity |].
  split; [exact (Hnobody Tour.advisory eq_refl eq_refl eq_refl) |].
  split.
  - apply (Hany Demo.sosAlert eq_refl). discriminate.
  - destruct (Hown _ _ Tour.belaAlert eq_refl eq_refl) as [_ [_ H]].
    now apply H.
Defined.

(** ** Deletion *)

Section DeletionFacts.
Context {A : Type} (getId : A -> ObjectId).

Lemma findByIdAndDelete_missing (id : ObjectId) (l : list A) :
  findById getId id l = None -> findByIdAndDelete getId id l = (None, l).
Proof.
  unfold findById. induction l as [| x l IH]; simpl; [reflexivity |].
  destruct (Nat.eqb (getId x) id); [discriminate |].
  intros H. now rewrite (IH H).
Qed.

Lemma findByIdAndDelete_found (id : ObjectId) (l : list A) (d : A) :
  findById getId id l = Some d ->
  exists l1 l2, l = (l1 ++ d :: l2)%list /\
                findByIdAndDelete getId id l = (Some d, (l1 ++ l2)%list) /\
                getId d = id /\
                forall x, In x l1 -> getId x <> id.
Proof.
  unfold findById. induction l as [| x l IH]; simpl; [discriminate |].
  destruct (Nat.eqb_spec (getId x) id) as [Hx | Hx].
  - intros [= <-]. exists [], l. repeat split; try assumption. intros y [].
  - intros H. destruct (IH H) as [l1 [l2 [-> [Hdel [Hid Hl1]]]]].
    exists (x :: l1), l2. rewrite Hdel. repeat split; try assumption.
    intros y [<- | Hy]; [exact Hx | now apply Hl1].
Qed.

(** With one document per [_id], the deleted [_id] is gone. *)
Lemma findById_after_delete (id : ObjectId) (l l1 l2 : list A) (d : A) :
  NoDup (map getId l) ->
  l = (l1 ++ d :: l2)%list -> getId d = id ->
  forall x, In x (l1 ++ l2) -> getId x <> id.
Proof.
  intros Hnodup -> Hid x Hx Heq.
  rewrite map_app in Hnodup. simpl in Hnodup.
  apply NoDup_remove_2 in Hnodup. apply Hnodup.
  rewrite <- map_app, Hid, <- Heq. now apply in_map.
Qed.

Lemma findById_none_iff (id : ObjectId) (l : list A) :
  findById getId id l = None <-> forall x, In x l -> getId x <> id.
Proof.
  unfold findById. split.
  - intros H x Hx Heq. pose proof (find_none _ _ H x Hx) as Hn.
    simpl in Hn. rewrite Heq, Nat.eqb_refl in Hn. discriminate.
  - intros H. destruct (find _ l) as [x |] eqn:Hf; [| reflexivity].
    apply find_some in Hf. destruct Hf as [Hx Heq].
    apply Nat.eqb_eq in Heq. now destruct (H x Hx).
Qed.

End DeletionFacts.

(** X5.  [DELETE /:id] of the alerts router, asked by an authority,
    removes the first alert stored under the id and nothing else, and
    answers 404 with the store unchanged when there is none; anyone else
    is answered 403 with the store unchanged.  When no two alerts share
    an id, the deleted alert can no longer be read. *)
Theorem delete_alert_removes_one (user : ReqUser) (id : ObjectId) (db : Db) :
  (isAuthority user = false ->
   delete_alert user id db
   = (fail 403 "Access denied. Only authorities can delete alerts.", db))
  /\ (isAuthority user = true ->
      findById alert_id id (alerts db) = None ->
      delete_alert user id db = (fail 404 "Alert not found", db))
  /\ (forall alert,
        isAuthority user = true ->
        findById alert_id id (alerts db) = Some alert ->
        exists l1 l2,
          alerts db = (l1 ++ alert :: l2)%list /\
          delete_alert user id db
          = (mkResponse 200 true "Alert deleted successfully" None,
             set_alerts (l1 ++ l2)%list db) /\
          (NoDup (map alert_id (alerts db)) ->
           forall reader,
             get_alert reader id (set_alerts (l1 ++ l2)%list db)
             = (fail 404 "Alert not found",
                set_alerts (l1 ++ l2)%list db))).
Proof.
  unfold delete_alert. split; [| split].
  - now intros ->.
  - intros -> Hnone. simpl.
    now rewrite (findByIdAndDelete_missing alert_id id _ Hnone).
  - intros alert -> Hfind. simpl.
    destruct (findByIdAndDelete_found alert_id id _ _ Hfind)
      as [l1 [l2 [Hsplit [Hdel [Hid Hl1]]]]].
    exists l1, l2. rewrite Hdel. repeat split; [exact Hsplit |].
    intros Hnodup reader. unfold get_alert. simpl alerts.
    assert (Hgone : findById alert_id id (l1 ++ l2) = None).
    { apply findById_none_iff.
      exact (findById_after_delete alert_id id _ l1 l2 alert Hnodup
               Hsplit Hid). }
    now rewrite Hgone.
Qed.

Lemma delete_alert_removes_one_witness :
  isAuthority Demo.authorityUser = true /\
  findById alert_id 32 (alerts Tour.db) = Some Tour.advisory /\
  NoDup (map alert_id (alerts Tour.db)) /\
  exists db',
    delete_alert Demo.authorityUser 32 Tour.db
    = (mkResponse 200 true "Alert deleted successfully" None, db') /\
    alerts db' = [Demo.sosAlert; Tour.belaAlert] /\
    get_alert Demo.authorityUser 32 db' = (fail 404 "Alert not found", db').
Proof.
  assert (Hnodup : NoDup (map alert_id (alerts Tour.db))).
  { simpl. repeat constructor; simpl; intuition discriminate. }
  split; [reflexivity |]. split; [reflexivity |]. split; [exact Hnodup |].
  destruct (delete_alert_removes_one Demo.authorityUser 32 Tour.db)
    as [_ [_ Hdelete]].
  destruct (Hdelete Tour.advisory eq_refl eq_refl)
    as [l1 [l2 [Hsplit [Hrun Hgone]]]].
  assert (Hcomputed : delete_alert Demo.authorityUser 32 Tour.db
                      = (mkResponse 200 true "Alert deleted successfully" None,
                         set_alerts [Demo.sosAlert; Tour.belaAlert] Tour.db))
    by reflexivity.
  rewrite Hrun in Hcomputed. unfold set_alerts in Hcomputed.
  injection Hcomputed as Hrest.
  eexists. split; [exact Hrun |]. split.
  - exact Hrest.
  - apply (Hgone Hnodup).
Defined.

Lemma containingZones_without (latitude longitude : number) (db : Db)
    (fences' : list GeoFence) (id : ObjectId) :
  (forall f, fence_id f <> id -> (In f fences' <-> In f (geoFences db))) ->
  forall f, fence_id f <> id ->
    (In f (map geoFence (containingZones latitude longitude
                                         (set_geoFences fences' db)))
     <-> In f (map geoFence (containingZones latitude longitude db))).
Proof.
  intros Hsame f Hf. rewrite !containingZones_In. simpl geoFences.
  now rewrite (Hsame f Hf).
Qed.

(** X6.  [DELETE /fences/:id], asked by an authority, removes the first
    fence stored under the id and nothing else (403 for anyone else, 404
    when there is none, the store unchanged in both cases).  When no two
    fences share an id, the fence can no longer be read, the containment
    query reports no fence of that id at any point, and what it reports
    of the other fences is what it reported before. *)
Theorem delete_fence_removes_one (user : ReqUser) (id : ObjectId) (db : Db) :
  (isAuthority user = false ->
   delete_fence user id db
   = (fail 403 "Access denied. Only authorities can delete geo-fences.", db))
  /\ (isAuthority user = true ->
      findById fence_id id (geoFences db) = None ->
      delete_fence user id db = (fail 404 "Geo-fence not found", db))
  /\ (forall fence,
        isAuthority user = true ->
        findById fence_id id (geoFences db) = Some fence ->
        exists l1 l2,
          geoFences db = (l1 ++ fence :: l2)%list /\
          delete_fence user id db
          = (mkResponse 200 true "Geo-fence deleted successfully" None,
             set_geoFences (l1 ++ l2)%list db) /\
          (NoDup (map fence_id (geoFences db)) ->
           let db' := set_geoFences (l1 ++ l2)%list db in
           get_fence id db' = (fail 404 "Geo-fence not found", db') /\
           forall latitude longitude f,
             (fence_id f = id ->
              ~ In f (map geoFence (containingZones latitude longitude db')))
             /\ (fence_id f <> id ->
                 (In f (map geoFence
                            (containingZones latitude longitude db'))
                  <-> In f (map geoFence
                                (containingZones latitude longitude db)))))).
Proof.
  unfold delete_fence. split; [| split].
  - now intros ->.
  - intros -> Hnone. simpl.
    now rewrite (findByIdAndDelete_missing fence_id id _ Hnone).
  - intros fence -> Hfind. simpl.
    destruct (findByIdAndDelete_found fence_id id _ _ Hfind)
      as [l1 [l2 [Hsplit [Hdel [Hid Hl1]]]]].
    exists l1, l2. rewrite Hdel.
    split; [exact Hsplit |]. split; [reflexivity |].
    intros Hnodup.
    pose proof (findById_after_delete fence_id id _ l1 l2 fence Hnodup
                  Hsplit Hid) as Hgone.
    split.
    + unfold get_fence. simpl geoFences.
      apply findById_none_iff in Hgone. now rewrite Hgone.
    + intros latitude longitude f. split.
      * intros Heq Hin. apply containingZones_In in Hin.
        destruct Hin as [Hin _]. simpl in Hin. exact (Hgone f Hin Heq).
      * apply containingZones_without. intros g Hg. rewrite Hsplit.
        rewrite !in_app_iff. simpl. split; [tauto |].
        intros [Hl | [<- | Hr]]; [tauto | | tauto]. contradiction.
Qed.

Lemma tour_fence_ids : NoDup (map fence_id (geoFences Tour.db)).
Proof. simpl. repeat constructor; simpl; intuition discriminate. Qed.

Lemma delete_fence_removes_one_witness :
  isAuthority Demo.authorityUser = true /\
  findById fence_id 41 (geoFences Tour.db) = Some Demo.quarry /\
  NoDup (map fence_id (geoFences Tour.db)) /\
  exists db',
    delete_fence Demo.authorityUser 41 Tour.db
    = (mkResponse 200 true "Geo-fence deleted successfully" None, db') /\
    get_fence 41 db' = (fail 404 "Geo-fence not found", db') /\
    ~ In Demo.quarry (map geoFence (containingZones (Some 28%R) (Some 77%R)
                                                    db')).
Proof.
  split; [reflexivity |]. split; [reflexivity |].
  split; [exact tour_fence_ids |].
  destruct (delete_fence_removes_one Demo.authorityUser 41 Tour.db)
    as [_ [_ Hdelete]].
  destruct (Hdelete Demo.quarry eq_refl eq_refl)
    as [l1 [l2 [_ [Hrun Hgone]]]].
  destruct (Hgone tour_fence_ids) as [Hread Hquery].
  eexists. split; [exact Hrun |]. split; [exact Hread |].
  apply (Hquery (Some 28%R) (Some 77%R) Demo.quarry). reflexivity.
Defined.

(** ** Zone updates *)

Section UpdateFacts.
Context {A : Type} (getId : A -> ObjectId).

Lemma findByIdAndUpdate_split (id : ObjectId) (update : A -> A) (l : list A)
    (d : A) :
  findById getId id l = Some d ->
  exists l1 l2, l = (l1 ++ d :: l2)%list /\
                findByIdAndUpdate getId id update l
                = (Some (update d), (l1 ++ update d :: l2)%list) /\
                getId d = id /\
                forall x, In x l1 -> getId x <> id.
Proof.
  unfold findById. induction l as [| x l IH]; simpl; [discriminate |].
  destruct (Nat.eqb_spec (getId x) id) as [Hx | Hx].
  - intros [= <-]. exists [], l. repeat split; try assumption. intros y [].
  - intros H. destruct (IH H) as [l1 [l2 [-> [Hupd [Hid Hl1]]]]].
    exists (x :: l1), l2. rewrite Hupd. repeat split; try assumption.
    intros y [<- | Hy]; [exact Hx | now apply Hl1].
Qed.

Lemma findByIdAndUpdate_others (id : ObjectId) (update : A -> A) (l : list A)
    (x : A) :
  In x l -> getId x <> id ->
  In x (snd (findByIdAndUpdate getId id update l)).
Proof.
  induction l as [| y l IH]; simpl; [easy |].
  intros Hin Hx. destruct (Nat.eqb_spec (getId y) id) as [Hy | Hy]; simpl.
  - destruct Hin as [<- | Hin]; [contradiction | now right].
  - destruct (findByIdAndUpdate getId id update l) as [res l'] eqn:Hrec.
    simpl in *. destruct Hin as [<- | Hin]; [now left | right; now apply IH].
Qed.

End UpdateFacts.

Lemma updateData_fields (parseFloatString parseIntString : string -> number)
    (numberToString : R -> string) (body : FenceBody) (now : Z)
    (u : FenceUpdate) :
  updateData parseFloatString parseIntString numberToString body now = Some u ->
  up_name u = (if truthy (fb_name body)
               then Some (Js.toString numberToString (fb_name body))
               else None) /\
  up_description u = (if truthy (fb_description body)
                      then Some (Js.toString numberToString
                                             (fb_description body))
                      else None) /\
  up_type u = (if truthy (fb_type body)
               then Some (Js.toString numberToString (fb_type body))
               else None) /\
  (fb_center body = None -> up_center u = None) /\
  up_isActive u = fb_isActive body /\
  up_updatedAt u = now.
Proof.
  unfold updateData. cbv zeta.
  destruct (fb_center body) as [center |].
  - destruct (Js.parseFloat parseFloatString (point_lat center)),
             (Js.parseFloat parseFloatString (point_lng center));
      try discriminate;
      destruct (truthy (fb_radius body));
      try destruct (Js.parseInt parseIntString (fb_radius body));
      try discriminate; intros [= <-]; simpl; repeat split; discriminate.
  - destruct (truthy (fb_radius body));
      try destruct (Js.parseInt parseIntString (fb_radius body));
      try discriminate; intros [= <-]; simpl; repeat split.
Qed.

(** X7.  Whatever it answers, [PUT /fences/:id] writes to the fence
    collection only; it never changes the id, the region or the creator
    of a fence, it leaves every fence stored under another id as it
    was, and a field that the body leaves out or leaves empty keeps its
    value in every fence. *)
Theorem put_fence_keeps
    (parseFloatString parseIntString : string -> number)
    (numberToString : R -> string)
    (user : ReqUser) (id : ObjectId) (body : FenceBody) (now : Z) (db : Db) :
  let db' := snd (put_fence parseFloatString parseIntString numberToString
                            user id body now db) in
  db' = set_geoFences (geoFences db') db /\
  map (fun f => (fence_id f, fence_region f, fence_createdBy f))
      (geoFences db')
  = map (fun f => (fence_id f, fence_region f, fence_createdBy f))
        (geoFences db) /\
  (forall f, In f (geoFences db) -> fence_id f <> id ->
             In f (geoFences db')) /\
  (truthy (fb_name body) = false ->
   map fence_name (geoFences db') = map fence_name (geoFences db)) /\
  (truthy (fb_description body) = false ->
   map fence_description (geoFences db')
   = map fence_description (geoFences db)) /\
  (truthy (fb_type body) = false ->
   map fence_type (geoFences db') = map fence_type (geoFences db)) /\
  (fb_center body = None ->
   map fence_center (geoFences db') = map fence_center (geoFences db)) /\
  (fb_isActive body = None ->
   map fence_isActive (geoFences db') = map fence_isActive (geoFences db)).
Proof.
  unfold put_fence.
  destruct (negb (isAuthority user));
    [destruct db; simpl; repeat split; auto |].
  destruct (updateData parseFloatString parseIntString numberToString
                       body now) as [u |] eqn:Hu;
    [| destruct db; simpl; repeat split; auto].
  destruct (updateData_fields _ _ _ _ _ _ Hu)
    as [Hname [Hdesc [Htype [Hcenter [Hactive _]]]]].
  pose proof (fun B (f : GeoFence -> B) =>
                findByIdAndUpdate_map fence_id f id (applyFenceUpdate u)
                                      (geoFences db)) as Hmap.
  pose proof (fun f => findByIdAndUpdate_others fence_id id
                         (applyFenceUpdate u) (geoFences db) f) as Hothers.
  destruct (findByIdAndUpdate fence_id id (applyFenceUpdate u) (geoFences db))
    as [[geoFence |] l]; [| destruct db; simpl; repeat split; auto].
  simpl in *. split; [reflexivity |].
  split; [now apply Hmap |]. split; [exact Hothers |].
  repeat split.
  - intros H. apply Hmap. intros x. simpl. now rewrite Hname, H.
  - intros H. apply Hmap. intros x. simpl. now rewrite Hdesc, H.
  - intros H. apply Hmap. intros x. simpl. now rewrite Htype, H.
  - intros H. apply Hmap. intros x. simpl. now rewrite (Hcenter H).
  - intros H. apply Hmap. intros x. simpl. now rewrite Hactive, H.
Qed.

(** X8.  An authority who sends [PUT /fences/:id] with [isActive: false],
    and neither a center nor a radius, is answered 200 when the fence
    exists; when no two fences share an id, the containment query then
    reports no fence of that id at any point. *)
Theorem put_fence_switch_off
    (parseFloatString parseIntString : string -> number)
    (numberToString : R -> string)
    (user : ReqUser) (id : ObjectId) (body : FenceBody) (now : Z) (db : Db)
    (fence : GeoFence) :
  isAuthority user = true ->
  fb_isActive body = Some false ->
  fb_center body = None ->
  truthy (fb_radius body) = false ->
  findById fence_id id (geoFences db) = Some fence ->
  NoDup (map fence_id (geoFences db)) ->
  exists updated db',
    put_fence parseFloatString parseIntString numberToString
              user id body now db
    = (ok 200 "Geo-fence updated successfully" updated, db') /\
    fence_id updated = id /\
    fence_isActive updated = false /\
    fence_center updated = fence_center fence /\
    fence_radius updated = fence_radius fence /\
    forall latitude longitude f,
      fence_id f = id ->
      ~ In f (map geoFence (containingZones latitude longitude db')).
Proof.
  intros Hauth Hoff Hcenter Hradius Hfind Hnodup.
  unfold put_fence. rewrite Hauth. simpl negb. cbv iota.
  assert (Hu : exists u,
             updateData parseFloatString parseIntString numberToString
                        body now = Some u /\
             up_isActive u = Some false /\ up_center u = None /\
             up_radius u = None).
  { unfold updateData. cbv zeta. rewrite Hcenter, Hradius, Hoff.
    eexists. split; [reflexivity |]. repeat split. }
  destruct Hu as [u [-> [Hactive [Hc Hr]]]].
  destruct (findByIdAndUpdate_split fence_id id (applyFenceUpdate u) _ _ Hfind)
    as [l1 [l2 [Hsplit [-> [Hid Hl1]]]]].
  eexists. eexists. split; [reflexivity |].
  split; [exact Hid |].
  split; [simpl; now rewrite Hactive |].
  split; [simpl; now rewrite Hc |].
  split; [simpl; now rewrite Hr |].
  intros latitude longitude f Hf Hin.
  apply containingZones_In in Hin. destruct Hin as [Hin [Hon _]].
  simpl in Hin. rewrite Hsplit in Hnodup.
  rewrite map_app in Hnodup. simpl in Hnodup.
  apply NoDup_remove_2 in Hnodup. rewrite <- map_app in Hnodup.
  apply in_app_or in Hin. destruct Hin as [Hin | [<- | Hin]].
  - apply Hnodup. rewrite Hid, <- Hf. apply in_map, in_or_app. now left.
  - simpl in Hon. rewrite Hactive in Hon. discriminate.
  - apply Hnodup. rewrite Hid, <- Hf. apply in_map, in_or_app. now right.
Qed.

Lemma put_fence_switch_off_witness :
  isAuthority Demo.authorityUser = true /\
  findById fence_id 41 (geoFences Tour.db) = Some Demo.quarry /\
  In Demo.quarry (map geoFence (containingZones (Some 28%R) (Some 77%R)
                                                Tour.db)) /\
  exists updated db',
    put_fence Demo.noNumber Demo.noNumber Demo.printNumber
              Demo.authorityUser 41 Tour.switchOff 1700000600000 Tour.db
    = (ok 200 "Geo-fence updated successfully" updated, db') /\
    forall f, fence_id f = 41%nat ->
              ~ In f (map geoFence (containingZones (Some 28%R) (Some 77%R)
                                                    db')).
Proof.
  split; [reflexivity |]. split; [reflexivity |]. split.
  - apply containingZones_In. split; [left; reflexivity |].
    split; [reflexivity |]. unfold contains, distanceTo. simpl.
    rewrite calculateDistance_self. simpl. apply Rleb_true. lra.
  - destruct (put_fence_switch_off Demo.noNumber Demo.noNumber
                Demo.printNumber Demo.authorityUser 41 Tour.switchOff
                1700000600000 Tour.db Demo.quarry eq_refl eq_refl eq_refl
                eq_refl eq_refl tour_fence_ids)
      as [updated [db' [Hrun [_ [_ [_ [_ Hquery]]]]]]].
    exists updated, db'. split; [exact Hrun |].
    intros f Hf. now apply Hquery.
Defined.

(** ** Zone creation *)

Lemma findById_app_new {A : Type} (getId : A -> ObjectId) (l : list A)
    (d : A) :
  findById getId (getId d) l = None ->
  findById getId (getId d) (l ++ [d]) = Some d.
Proof.
  unfold findById. induction l as [| x l IH]; simpl.
  - now rewrite Nat.eqb_refl.
  - destruct (Nat.eqb (getId x) (getId d)); [discriminate | exact IH].
Qed.

(** X9.  A [POST /fences] that answers 201 has appended one fence to the
    store, under a fresh id, created by the caller's authority profile,
    with the centre and the radius read from the body.  The handler does
    not set [isActive]: the new fence carries the schema's default, and
    (its radius not being negative) the containment query at its centre
    reports it exactly when that default is true.  If the id was not in
    use, the fence can be read back under that id. *)
Theorem post_fences_created
    (parseFloatString parseIntString : string -> number)
    (numberToString : R -> string) (geoFenceSchema : GeoFence -> bool)
    (isActiveDefault : bool)
    (user : ReqUser) (body : FenceBody) (now : Z) (db : Db)
    (res : Response GeoFence) (db' : Db) :
  post_fences parseFloatString parseIntString numberToString geoFenceSchema
              isActiveDefault user body now db = (res, db') ->
  res_status res = 201 ->
  exists created center,
    res_data res = Some created /\
    fb_center body = Some center /\
    geoFences db' = (geoFences db ++ [created])%list /\
    fence_id created = nextId db /\
    nextId db' = S (nextId db) /\
    fence_isActive created = isActiveDefault /\
    Js.parseFloat parseFloatString (point_lat center)
    = Some (center_lat (fence_center created)) /\
    Js.parseFloat parseFloatString (point_lng center)
    = Some (center_lng (fence_center created)) /\
    Js.parseInt parseIntString (fb_radius body)
    = Some (fence_radius created) /\
    (exists authority, findAuthority user db = Some authority /\
                       fence_createdBy created = authority_id authority) /\
    ((0 <= fence_radius created)%R ->
     (In created
         (map geoFence
              (containingZones (Some (center_lat (fence_center created)))
                               (Some (center_lng (fence_center created)))
                               db'))
      <-> isActiveDefault = true)) /\
    (findById fence_id (nextId db) (geoFences db) = None ->
     get_fence (nextId db) db'
     = (mkResponse 200 true "" (Some created), db')).
Proof.
  unfold post_fences. intros H Hstatus.
  destruct (negb (isAuthority user)); [injection H as <- <-; discriminate |].
  destruct (fb_center body) as [center |];
    [| injection H as <- <-; discriminate].
  destruct (negb _ || _ || _ || _); [injection H as <- <-; discriminate |].
  destruct (findAuthority user db) as [authority |];
    [| injection H as <- <-; discriminate].
  destruct (Js.parseFloat parseFloatString (point_lat center)) as [lat |]
    eqn:Hlat;
    [| injection H as <- <-; discriminate].
  destruct (Js.parseFloat parseFloatString (point_lng center)) as [lng |]
    eqn:Hlng;
    [| injection H as <- <-; discriminate].
  destruct (Js.parseInt parseIntString (fb_radius body)) as [radius |]
    eqn:Hrad;
    [| injection H as <- <-; discriminate].
  cbv zeta in H.
  destruct (geoFenceSchema _); [| injection H as <- <-; discriminate].
  injection H as <- <-.
  eexists. exists center. simpl.
  repeat (split; [reflexivity |]).
  split; [exact Hlat |]. split; [exact Hlng |]. split; [reflexivity |].
  split; [exists authority; split; reflexivity |].
  split.
  - intros Hradius. rewrite containingZones_In. simpl. split.
    + intros [_ [Hactive _]]. exact Hactive.
    + intros Hactive. split.
      * unfold create. apply in_or_app. right. now left.
      * split; [exact Hactive |]. unfold contains, distanceTo. simpl.
        rewrite calculateDistance_self. simpl. now apply Rleb_true.
  - intros Hfresh. unfold get_fence. simpl. unfold create.
    match goal with
    | |- context [findById fence_id _ (_ ++ [?d])] =>
        pose proof (findById_app_new fence_id (geoFences db) d Hfresh)
          as Hread
    end.
    simpl in Hread. now rewrite Hread.
Qed.

Lemma Reqb_500 : Reqb 500 0 = false.
Proof. apply Reqb_nonzero. lra. Qed.

Lemma parseIntNumber_500 : parseIntNumber 500 = 500%R.
Proof.
  unfold parseIntNumber.
  destruct (Req_dec_T 500 0) as [H | _]; [lra |].
  rewrite Rabs_right by lra.
  destruct (Rle_dec (1 / 1000000) 500) as [_ | H]; [| lra].
  destruct (Rlt_dec 500 (powerRZ 10 21)) as [_ | H].
  - unfold trunc. destruct (Rle_dec 0 500) as [_ | H]; [| lra].
    f_equal. symmetry. apply Int_part_spec. lra.
  - exfalso. apply H. simpl. lra.
Qed.

(** The creation of the examples: a zone of radius 500 at (19, 72). *)
Lemma post_fences_demo (isActiveDefault : bool) :
  post_fences Demo.noNumber Demo.noNumber Demo.printNumber Demo.accept
              isActiveDefault Demo.authorityUser Tour.newFenceBody
              1700000600000 Tour.db
  = (ok 201 "Geo-fence created successfully"
        (mkGeoFence 50 "Ravine" None "danger" (mkLatLng 19 72) 500 "West"
                    isActiveDefault 21 1700000600000),
     set_geoFences
       (geoFences Tour.db
        ++ [mkGeoFence 50 "Ravine" None "danger" (mkLatLng 19 72) 500 "West"
                       isActiveDefault 21 1700000600000])%list
       (bump Tour.db)).
Proof.
  unfold post_fences, Tour.newFenceBody. simpl.
  rewrite Reqb_500, parseIntNumber_500. reflexivity.
Qed.

Lemma post_fences_created_witness :
  (exists res db' created,
     post_fences Demo.noNumber Demo.noNumber Demo.printNumber Demo.accept
                 true Demo.authorityUser Tour.newFenceBody
                 1700000600000 Tour.db
     = (res, db') /\
     res_status res = 201 /\
     res_data res = Some created /\
     fence_radius created = 500%R /\
     geoFences db' = (geoFences Tour.db ++ [created])%list /\
     In created (map geoFence (containingZones (Some 19%R) (Some 72%R) db')) /\
     get_fence 50 db' = (mkResponse 200 true "" (Some created), db'))
  /\ (exists res db' created,
        post_fences Demo.noNumber Demo.noNumber Demo.printNumber Demo.accept
                    false Demo.authorityUser Tour.newFenceBody
                    1700000600000 Tour.db
        = (res, db') /\
        res_status res = 201 /\
        res_data res = Some created /\
        geoFences db' = (geoFences Tour.db ++ [created])%list /\
        ~ In created
            (map geoFence (containingZones (Some 19%R) (Some 72%R) db'))).
Proof.
  split.
  - destruct (post_fences_created _ _ _ _ _ _ _ _ _ _ _
                (post_fences_demo true) eq_refl)
      as [c [center [Hdata [_ [Hstore [_ [_ [_ [_ [_ [_ [_
            [Hin Hread]]]]]]]]]]]]].
    injection Hdata as <-.
    eexists. eexists. eexists. split; [exact (post_fences_demo true) |].
    split; [reflexivity |]. split; [reflexivity |]. split; [reflexivity |].
    split; [exact Hstore |]. split.
    + apply Hin; [simpl; lra | reflexivity].
    + apply Hread. reflexivity.
  - destruct (post_fences_created _ _ _ _ _ _ _ _ _ _ _
                (post_fences_demo false) eq_refl)
      as [c [center [Hdata [_ [Hstore [_ [_ [_ [_ [_ [_ [_ [Hin _]]]]]]]]]]]]].
    injection Hdata as <-.
    eexists. eexists. eexists. split; [exact (post_fences_demo false) |].
    split; [reflexivity |]. split; [reflexivity |].
    split; [exact Hstore |].
    intros Hreported. apply Hin in Hreported; [discriminate | simpl; lra].
Defined.

(** ** GeoMath: size of the distance *)

Lemma Math_atan2_at_most_quarter_turn (y x : R) :
  (0 <= y)%R -> (0 <= x)%R -> (Math_atan2 y x <= PI / 2)%R.
Proof.
  intros Hy Hx. unfold Math_atan2.
  pose proof PI_RGT_0 as Hpi.
  destruct (Rlt_dec 0 x) as [Hpos | _].
  - pose proof (atan_bound (y / x)). lra.
  - destruct (Rlt_dec x 0) as [Hneg | _]; [lra |].
    destruct (Rlt_dec 0 y) as [_ | _]; [lra |].
    destruct (Rlt_dec y 0) as [Hneg | _]; lra.
Qed.

Lemma Math_sqrt_Some (x s : R) : Math_sqrt x = Some s -> (0 <= s)%R.
Proof.
  unfold Math_sqrt. destruct (Rlt_dec x 0); [discriminate |].
  intros [= <-]. apply sqrt_pos.
Qed.

Lemma Math_atan2_sin_cos (y : R) :
  (0 <= y <= PI / 2)%R -> Math_atan2 (sin y) (cos y) = y.
Proof.
  intros [Hy0 Hy1]. unfold Math_atan2.
  pose proof PI_RGT_0 as Hpi.
  destruct Hy1 as [Hlt | ->].
  - assert (Hcos : (0 < cos y)%R) by (apply cos_gt_0; lra).
    destruct (Rlt_dec 0 (cos y)) as [_ | H]; [| contradiction].
    change (sin y / cos y)%R with (tan y). apply atan_tan. lra.
  - rewrite cos_PI2, sin_PI2.
    destruct (Rlt_dec 0 0) as [H | _]; [lra |].
    destruct (Rlt_dec 0 1) as [_ | H]; lra.
Qed.

Lemma Math_atan2_half_angle (x : R) :
  (- (PI / 2) <= x <= PI / 2)%R ->
  Math_atan2 (Rabs (sin x)) (cos x) = Rabs x.
Proof.
  intros [Hlo Hhi]. pose proof PI_RGT_0 as Hpi.
  destruct (Rle_dec 0 x) as [Hpos | Hneg].
  - rewrite (Rabs_right x) by lra.
    rewrite Rabs_right by (apply Rle_ge, sin_ge_0; lra).
    apply Math_atan2_sin_cos. lra.
  - rewrite (Rabs_left x) by lra.
    assert (Hsin : (0 <= sin (- x))%R) by (apply sin_ge_0; lra).
    rewrite sin_neg in Hsin.
    replace (Rabs (sin x)) with (sin (- x)).
    + rewrite <- (cos_neg x). apply Math_atan2_sin_cos. lra.
    + rewrite sin_neg. unfold Rabs.
      destruct (Rcase_abs (sin x)); lra.
Qed.

(** Along a meridian the haversine formula gives the arc. *)
Lemma calculateDistance_meridian_arc (lat1 lat2 lng : R) :
  (-90 <= lat1 <= 90)%R -> (-90 <= lat2 <= 90)%R ->
  calculateDistance lat1 lng lat2 lng
  = Some (6371000 * (Rabs (lat2 - lat1) * PI / 180))%R.
Proof.
  intros H1 H2. pose proof PI_RGT_0 as Hpi.
  unfold calculateDistance. cbv zeta.
  replace ((lng - lng) * PI / 180 / 2)%R with 0%R by lra.
  rewrite sin_0.
  set (x := ((lat2 - lat1) * PI / 180 / 2)%R).
  assert (Hx : (- (PI / 2) <= x <= PI / 2)%R) by (unfold x; split; nra).
  replace (sin x * sin x +
           cos (lat1 * PI / 180) * cos (lat2 * PI / 180) * 0 * 0)%R
    with (Rsqr (sin x)) by (unfold Rsqr; ring).
  replace (1 - Rsqr (sin x))%R with (Rsqr (cos x))
    by (rewrite sin2; ring).
  destruct (Math_sqrt_nonneg (Rsqr (sin x)) (Rle_0_sqr _)) as [-> _].
  destruct (Math_sqrt_nonneg (Rsqr (cos x)) (Rle_0_sqr _)) as [-> _].
  rewrite !sqrt_Rsqr_abs.
  rewrite (Rabs_right (cos x)) by (apply Rle_ge, cos_ge_0; lra).
  rewrite (Math_atan2_half_angle x Hx).
  f_equal. unfold x, Rabs.
  destruct (Rcase_abs ((lat2 - lat1) * PI / 180 / 2)),
           (Rcase_abs (lat2 - lat1)); nra.
Qed.

(** X10.  Whenever [calculateDistance] returns a number, for any two
    positions, the number lies between 0 and half the circumference of
    the sphere, 6371000 x pi metres: the two square roots are not
    negative, so the angle [atan2] returns is at most a quarter turn.
    From pole to pole the bound is reached. *)
Theorem calculateDistance_at_most_half_circumference
    (lat1 lng1 lat2 lng2 d : R) :
  calculateDistance lat1 lng1 lat2 lng2 = Some d ->
  (0 <= d <= 6371000 * PI)%R.
Proof.
  unfold calculateDistance. cbv zeta.
  set (a := (sin ((lat2 - lat1) * PI / 180 / 2) * _ + _)%R).
  destruct (Math_sqrt a) as [sa |] eqn:Hsa; [| discriminate].
  destruct (Math_sqrt (1 - a)) as [sa' |] eqn:Hsa'; [| discriminate].
  intros [= <-].
  apply Math_sqrt_Some in Hsa, Hsa'.
  pose proof (Math_atan2_nonneg _ _ Hsa Hsa').
  pose proof (Math_atan2_at_most_quarter_turn _ _ Hsa Hsa').
  split; nra.
Qed.

Lemma calculateDistance_at_most_half_circumference_witness :
  calculateDistance 90 0 (-90) 0 = Some (6371000 * PI)%R /\
  (0 <= 6371000 * PI <= 6371000 * PI)%R.
Proof.
  assert (Hpoles : calculateDistance 90 0 (-90) 0 = Some (6371000 * PI)%R).
  { rewrite (calculateDistance_meridian_arc 90 (-90) 0) by lra.
    f_equal. rewrite Rabs_left by lra. field. }
  split; [exact Hpoles |].
  exact (calculateDistance_at_most_half_circumference 90 0 (-90) 0 _ Hpoles).
Defined.

(** X11.  Along a meridian the distance is the arc: between two valid
    latitudes at the same longitude, [calculateDistance] is 6371000
    times the difference of latitude in radians. *)
Theorem calculateDistance_along_meridian (lat1 lat2 lng : R) :
  (-90 <= lat1 <= 90)%R -> (-90 <= lat2 <= 90)%R ->
  calculateDistance lat1 lng lat2 lng
  = Some (6371000 * (Rabs (lat2 - lat1) * PI / 180))%R.
Proof.
  intros H1 H2. now apply calculateDistance_meridian_arc.
Qed.

Lemma calculateDistance_along_meridian_witness :
  (-90 <= 28 <= 90)%R /\ (-90 <= 29 <= 90)%R /\
  calculateDistance 28 77 29 77 = Some (6371000 * (PI / 180))%R.
Proof.
  assert (H1 : (-90 <= 28 <= 90)%R) by lra.
  assert (H2 : (-90 <= 29 <= 90)%R) by lra.
  split; [exact H1 |]. split; [exact H2 |].
  rewrite (calculateDistance_along_meridian 28 29 77 H1 H2).
  f_equal. replace (29 - 28)%R with 1%R by lra. rewrite Rabs_R1. lra.
Defined.

(** ** ScoreEngine: size of the score *)

Lemma count_nonneg {A : Type} (p : A -> bool) (l : list A) :
  0 <= Spec.count p l.
Proof. unfold Spec.count. lia. Qed.

Lemma count_zero {A : Type} (p : A -> bool) (l : list A) :
  Spec.count p l = 0 <-> forall x, In x l -> p x = false.
Proof.
  unfold Spec.count. induction l as [| x l IH]; simpl.
  - split; [intros _ y [] | reflexivity].
  - destruct (p x) eqn:Hx; simpl.
    + split; [lia |]. intros H. specialize (H x (or_introl eq_refl)).
      congruence.
    + rewrite IH. split.
      * intros H y [<- | Hy]; [exact Hx | now apply H].
      * intros H y Hy. apply H. now right.
Qed.

Lemma count_app {A : Type} (p : A -> bool) (l l' : list A) :
  Spec.count p (l ++ l') = Spec.count p l + Spec.count p l'.
Proof. unfold Spec.count. rewrite filter_app, length_app. lia. Qed.

(** The score before it is clamped. *)
Lemma calculateSafetyScore_unfold (stringToNumber : string -> number)
    (lat lng : R) (hour now : Z) (db : Db) :
  calculateSafetyScore stringToNumber (JsNumber lat) (JsNumber lng) hour now db
  = Z.max 0 (Z.min 100
       (85
        - 30 * Spec.count (Spec.insideZone lat lng)
                          (filter isDangerZone (geoFences db))
        - 15 * Spec.count (Spec.nearZone lat lng)
                          (filter isDangerZone (geoFences db))
        - (if nightTime hour then 10 else 0)
        - 5 * Spec.count (recentAlertFilter lat lng now) (alerts db))).
Proof.
  unfold calculateSafetyScore. cbn [queryCoordinate toNumber]. cbv zeta.
  rewrite zone_loop_counts.
  unfold Spec.count. destruct (nightTime hour); lia.
Qed.

(** The score of raw body fields is the score at the position the query
    casts them to, and 85 when it refuses them. *)
Lemma calculateSafetyScore_cast (stringToNumber : string -> number)
    (lat lng : JsValue) (hour now : Z) (db : Db) :
  calculateSafetyScore stringToNumber lat lng hour now db
  = match queryCoordinate stringToNumber lat,
          queryCoordinate stringToNumber lng with
    | Some x, Some y =>
        calculateSafetyScore stringToNumber (JsNumber x) (JsNumber y) hour now
                             db
    | _, _ => 85
    end.
Proof.
  unfold calculateSafetyScore.
  destruct (queryCoordinate stringToNumber lat) as [x |]; [| reflexivity].
  destruct (queryCoordinate stringToNumber lng) as [y |]; reflexivity.
Qed.

(** For a value that passes a required-field check, the cast of the
    query is ToNumber. *)
Lemma queryCoordinate_truthy (stringToNumber : string -> number)
    (v : JsValue) :
  truthy v = true ->
  queryCoordinate stringToNumber v = Js.toNumber stringToNumber v.
Proof.
  destruct v as [| | b | x | s]; try discriminate; try reflexivity.
  simpl. now destruct (String.eqb s "").
Qed.

Lemma calculateSafetyScore_le_85 (stringToNumber : string -> number)
    (lat lng : JsValue) (hour now : Z) (db : Db) :
  0 <= calculateSafetyScore stringToNumber lat lng hour now db <= 85.
Proof.
  rewrite calculateSafetyScore_cast.
  destruct (queryCoordinate stringToNumber lat) as [x |]; [| lia].
  destruct (queryCoordinate stringToNumber lng) as [y |]; [| lia].
  clear lat lng. rename x into lat, y into lng.
  rewrite calculateSafetyScore_unfold.
  pose proof (count_nonneg (Spec.insideZone lat lng)
                           (filter isDangerZone (geoFences db))).
  pose proof (count_nonneg (Spec.nearZone lat lng)
                           (filter isDangerZone (geoFences db))).
  pose proof (count_nonneg (recentAlertFilter lat lng now) (alerts db)).
  destruct (nightTime hour); lia.
Qed.

(** X12.  The score never exceeds 85, whatever the inputs: the upper
    clamp at 100 is never reached.  At a numeric position it is exactly
    85 when, and only when, the hour is outside the night hours, no
    active danger zone is within twice its radius of the position, and
    the recent-alert query returns nothing. *)
Theorem calculateSafetyScore_at_most_85 (stringToNumber : string -> number)
    (hour now : Z) (db : Db) :
  (forall lat lng : JsValue,
     0 <= calculateSafetyScore stringToNumber lat lng hour now db <= 85)
  /\ (forall lat lng : R,
        calculateSafetyScore stringToNumber (JsNumber lat) (JsNumber lng) hour
                             now db = 85
        <-> nightTime hour = false /\
            (forall z, In z (geoFences db) -> isDangerZone z = true ->
                       Spec.insideZone lat lng z = false /\
                       Spec.nearZone lat lng z = false) /\
            (forall a, In a (alerts db) ->
                       recentAlertFilter lat lng now a = false)).
Proof.
  split.
  - intros lat lng. apply calculateSafetyScore_le_85.
  - intros lat lng. rewrite calculateSafetyScore_unfold.
    pose proof (count_nonneg (Spec.insideZone lat lng)
                             (filter isDangerZone (geoFences db))) as H1.
    pose proof (count_nonneg (Spec.nearZone lat lng)
                             (filter isDangerZone (geoFences db))) as H2.
    pose proof (count_nonneg (recentAlertFilter lat lng now) (alerts db))
      as H3.
    pose proof (count_zero (Spec.insideZone lat lng)
                           (filter isDangerZone (geoFences db))) as Z1.
    pose proof (count_zero (Spec.nearZone lat lng)
                           (filter isDangerZone (geoFences db))) as Z2.
    pose proof (count_zero (recentAlertFilter lat lng now) (alerts db)) as Z3.
    split.
    + intros Hscore.
      assert (Hnight : nightTime hour = false)
        by (destruct (nightTime hour); [lia | reflexivity]).
      rewrite Hnight in Hscore.
      split; [exact Hnight |]. split.
      * intros z Hz Hdanger.
        assert (Hin : In z (filter isDangerZone (geoFences db)))
          by (now apply filter_In).
        split; [apply Z1; [lia | exact Hin] | apply Z2; [lia | exact Hin]].
      * apply Z3. lia.
    + intros [Hnight [Hzones Halerts]]. rewrite Hnight.
      assert (E1 : Spec.count (Spec.insideZone lat lng)
                              (filter isDangerZone (geoFences db)) = 0).
      { apply Z1. intros z Hz. apply filter_In in Hz.
        now apply Hzones. }
      assert (E2 : Spec.count (Spec.nearZone lat lng)
                              (filter isDangerZone (geoFences db)) = 0).
      { apply Z2. intros z Hz. apply filter_In in Hz.
        now apply Hzones. }
      assert (E3 : Spec.count (recentAlertFilter lat lng now) (alerts db) = 0)
        by (now apply Z3).
      rewrite E1, E2, E3. reflexivity.
Qed.

(** X13.  Adding fences and alerts to the store never raises a score:
    for every position, hour and time, the score in the larger store is
    at most the score in the smaller one. *)
Theorem calculateSafetyScore_antitone (stringToNumber : string -> number)
    (lat lng : JsValue) (hour now : Z)
    (db : Db) (fences : list GeoFence) (raised : list Alert) :
  calculateSafetyScore stringToNumber lat lng hour now
    (set_alerts (alerts db ++ raised)
                (set_geoFences (geoFences db ++ fences) db))
  <= calculateSafetyScore stringToNumber lat lng hour now db.
Proof.
  rewrite !(calculateSafetyScore_cast stringToNumber lat lng).
  destruct (queryCoordinate stringToNumber lat) as [x |]; [| lia].
  destruct (queryCoordinate stringToNumber lng) as [y |]; [| lia].
  clear lat lng. rename x into lat, y into lng.
  rewrite !calculateSafetyScore_unfold. simpl alerts. simpl geoFences.
  rewrite filter_app, !count_app.
  pose proof (count_nonneg (Spec.insideZone lat lng)
                           (filter isDangerZone fences)).
  pose proof (count_nonneg (Spec.nearZone lat lng)
                           (filter isDangerZone fences)).
  pose proof (count_nonneg (recentAlertFilter lat lng now) raised).
  destruct (nightTime hour); lia.
Qed.

(** ** Location updates *)

(** The caller's profile, once saved, is the profile the caller finds. *)
Lemma findTourist_after_save (user : ReqUser) (db : Db) (t t' : Tourist) :
  findTourist user db = Some t ->
  tourist_id t' = tourist_id t ->
  tourist_userId t' = userId user ->
  findTourist user (set_tourists (save tourist_id t' (tourists db)) db)
  = Some t'.
Proof.
  unfold findTourist, save. simpl tourists. intros Hfind Hid Huser.
  induction (tourists db) as [| x l IH]; simpl in *; [discriminate |].
  destruct (Nat.eqb_spec (tourist_id x) (tourist_id t')) as [Hx | Hx]; simpl.
  - now rewrite Huser, Nat.eqb_refl.
  - destruct (findByIdAndUpdate tourist_id (tourist_id t') (fun _ => t') l)
      as [res l'] eqn:Hrec. simpl in *.
    destruct (Nat.eqb (tourist_userId x) (userId user)).
    + injection Hfind as ->. congruence.
    + now apply IH.
Qed.

(** X14.  A [POST /location] that answers 200 has stored, in the
    caller's tourist profile and nowhere else, the coordinates read from
    the body, the time of the request and the score computed for the
    body's coordinates, a score between 0 and 85; coordinates sent as
    numeric strings score as the numbers they denote.  A
    [GET /safety-score] by the same caller then answers that score, with
    that time and the profile's status. *)
Theorem post_location_stores
    (parseFloatString stringToNumber : string -> number)
    (touristSchema : Tourist -> bool)
    (user : ReqUser) (body : PointBody) (hour now : Z) (db : Db)
    (res : Response LocationData) (db' : Db) :
  post_location parseFloatString stringToNumber touristSchema user body hour
                now db
  = (res, db') ->
  res_status res = 200 ->
  exists tourist latitude longitude,
    findTourist user db = Some tourist /\
    Js.parseFloat parseFloatString (point_lat body) = Some latitude /\
    Js.parseFloat parseFloatString (point_lng body) = Some longitude /\
    let score :=
      calculateSafetyScore stringToNumber (point_lat body) (point_lng body)
                           hour now db in
    let location := mkCurrentLocation latitude longitude now in
    res_data res = Some (mkLocationData location score) /\
    0 <= score <= 85 /\
    (forall x y,
       Js.toNumber stringToNumber (point_lat body) = Some x ->
       Js.toNumber stringToNumber (point_lng body) = Some y ->
       score = calculateSafetyScore stringToNumber (JsNumber x) (JsNumber y)
                                    hour now db) /\
    db' = set_tourists (tourists db') db /\
    findTourist user db' = Some (set_tourist_location location score tourist) /\
    get_safety_score user db'
    = (mkResponse 200 true ""
         (Some (mkSafetyScoreData score (tourist_status tourist) (Some now))),
       db').
Proof.
  unfold post_location. cbv zeta. intros H Hstatus.
  destruct (negb (truthy (point_lat body)) || negb (truthy (point_lng body)))
    eqn:Hguard;
    [injection H as <- <-; discriminate |].
  apply orb_false_elim in Hguard. destruct Hguard as [Hlat Hlng].
  apply negb_false_iff in Hlat, Hlng.
  destruct (findTourist user db) as [tourist |] eqn:Hfind;
    [| injection H as <- <-; discriminate].
  destruct (Js.parseFloat parseFloatString (point_lat body)) as [latitude |];
    [| injection H as <- <-; discriminate].
  destruct (Js.parseFloat parseFloatString (point_lng body)) as [longitude |];
    [| injection H as <- <-; discriminate].
  destruct (touristSchema _); [| injection H as <- <-; discriminate].
  injection H as <- <-.
  exists tourist, latitude, longitude.
  repeat (split; [reflexivity |]). cbv zeta.
  split; [apply calculateSafetyScore_le_85 |].
  split.
  { intros x y Hx Hy. rewrite calculateSafetyScore_cast.
    rewrite (queryCoordinate_truthy _ _ Hlat), Hx.
    rewrite (queryCoordinate_truthy _ _ Hlng), Hy. reflexivity. }
  split; [reflexivity |].
  assert (Hsaved :
    findTourist user
      (set_tourists
         (save tourist_id
               (set_tourist_location
                  (mkCurrentLocation latitude longitude now)
                  (calculateSafetyScore stringToNumber (point_lat body)
                                        (point_lng body) hour now db) tourist)
               (tourists db)) db)
    = Some (set_tourist_location
              (mkCurrentLocation latitude longitude now)
              (calculateSafetyScore stringToNumber (point_lat body)
                                    (point_lng body) hour now db) tourist)).
  { apply (findTourist_after_save user db tourist);
      [exact Hfind | reflexivity |].
    simpl. unfold findTourist in Hfind. apply find_some in Hfind.
    now apply Nat.eqb_eq. }
  split; [exact Hsaved |].
  unfold get_safety_score. now rewrite Hsaved.
Qed.

(** At noon at the old quarry: inside one danger zone, one recent sos
    alert at the same place. *)
Lemma score_at_quarry_noon (stringToNumber : string -> number) :
  calculateSafetyScore stringToNumber (JsNumber 28) (JsNumber 77) 12
                       1700003600000 Demo.db = 50.
Proof.
  assert (H500 : Rleb 0 500 = true) by (apply Rleb_true; lra).
  assert (H1000 : Rleb 0 1000 = true) by (apply Rleb_true; lra).
  unfold calculateSafetyScore. cbn [queryCoordinate toNumber].
  unfold zonePenalty, recentAlertFilter, nearQuery. simpl.
  rewrite !calculateDistance_self. simpl. rewrite H500. simpl.
  rewrite H1000. reflexivity.
Qed.

Lemma post_location_stores_witness :
  exists res db',
    post_location Tour.parseNumber Tour.parseNumber Demo.accept
                  Demo.touristUser
                  (mkPointBody (JsString "28") (JsString "77")) 12
                  1700003600000 Demo.db = (res, db') /\
    res_status res = 200 /\
    findTourist Demo.touristUser db'
    = Some (set_tourist_location (mkCurrentLocation 28 77 1700003600000) 50
                                 Demo.ashaProfile) /\
    get_safety_score Demo.touristUser db'
    = (mkResponse 200 true ""
         (Some (mkSafetyScoreData 50 "active" (Some 1700003600000))), db').
Proof.
  set (score := calculateSafetyScore Tour.parseNumber (JsString "28")
                                     (JsString "77") 12 1700003600000 Demo.db).
  set (location := mkCurrentLocation 28 77 1700003600000).
  assert (Hrun :
    post_location Tour.parseNumber Tour.parseNumber Demo.accept
                  Demo.touristUser
                  (mkPointBody (JsString "28") (JsString "77")) 12
                  1700003600000 Demo.db
    = (ok 200 "Location updated successfully" (mkLocationData location score),
       set_tourists [set_tourist_location location score Demo.ashaProfile]
                    Demo.db)) by reflexivity.
  destruct (post_location_stores _ _ _ _ _ _ _ _ _ _ Hrun eq_refl)
    as [tourist [latitude [longitude [Hprofile [Hplat [Hplng Hrest]]]]]].
  cbv zeta in Hrest. destruct Hrest as [_ [_ [Hcast [_ [Hfound Hread]]]]].
  injection Hprofile as <-.
  simpl in Hplat, Hplng. injection Hplat as <-. injection Hplng as <-.
  assert (Hscore : score = 50).
  { etransitivity; [exact (Hcast 28%R 77%R eq_refl eq_refl) |].
    apply score_at_quarry_noon. }
  cbn [point_lat point_lng] in Hfound, Hread. fold score in Hfound, Hread.
  rewrite Hscore in Hrun, Hfound, Hread.
  eexists. eexists. split; [exact Hrun |].
  split; [reflexivity |].
  split; [exact Hfound | exact Hread].
Defined.

(** ** Failures and the store *)

(** X15.  The handlers that write at most once are all-or-nothing: a
    status update on either router or on the SOS endpoint, a location
    update, a fence creation, update or deletion and an alert deletion
    that answers with [success: false] leaves the store exactly as it
    was. *)
Theorem refused_request_writes_nothing
    (parseFloatString parseIntString stringToNumber : string -> number)
    (numberToString : R -> string) (alertSchema : Alert -> bool)
    (geoFenceSchema : GeoFence -> bool) (touristSchema : Tourist -> bool)
    (isActiveDefault : bool)
    (user : ReqUser) (id : ObjectId) (status : StatusBody) (point : PointBody)
    (fence : FenceBody) (hour now : Z) (db : Db) :
  let unchanged {D : Type} (run : Response D * Db) :=
    res_success (fst run) = false -> snd run = db in
  unchanged (put_alert_status numberToString user id status now db)
  /\ unchanged (authority_put_alert_status numberToString user id status
                                           now db)
  /\ unchanged (put_sos_status numberToString alertSchema user id status db)
  /\ unchanged (post_location parseFloatString stringToNumber touristSchema
                              user point hour now db)
  /\ unchanged (post_fences parseFloatString parseIntString numberToString
                            geoFenceSchema isActiveDefault user fence now db)
  /\ unchanged (put_fence parseFloatString parseIntString numberToString
                          user id fence now db)
  /\ unchanged (delete_alert user id db)
  /\ unchanged (delete_fence user id db).
Proof.
  cbv zeta. repeat split.
  - unfold put_alert_status. cbv zeta.
    destruct (negb (isAuthority user)); [reflexivity |].
    destruct (negb _); [reflexivity |].
    now destruct (findByIdAndUpdate _ _ _ _) as [[alert |] l].
  - unfold authority_put_alert_status. cbv zeta.
    destruct (negb _); [reflexivity |].
    destruct (findAuthority user db); [| reflexivity].
    now destruct (findByIdAndUpdate _ _ _ _) as [[alert |] l].
  - unfold put_sos_status. cbv zeta.
    destruct (negb (isAuthority user)); [reflexivity |].
    destruct (negb _); [reflexivity |].
    destruct (findSos id db); [| reflexivity].
    destruct (findAuthority user db); [| reflexivity].
    now destruct (alertSchema _).
  - unfold post_location. cbv zeta.
    destruct (negb _ || _); [reflexivity |].
    destruct (findTourist user db); [| reflexivity].
    destruct (Js.parseFloat parseFloatString (point_lat point));
      [| reflexivity].
    destruct (Js.parseFloat parseFloatString (point_lng point));
      [| reflexivity].
    now destruct (touristSchema _).
  - unfold post_fences.
    destruct (negb (isAuthority user)); [reflexivity |].
    destruct (fb_center fence) as [center |]; [| reflexivity].
    destruct (negb _ || _ || _ || _); [reflexivity |].
    destruct (findAuthority user db); [| reflexivity].
    destruct (Js.parseFloat parseFloatString (point_lat center));
      [| reflexivity].
    destruct (Js.parseFloat parseFloatString (point_lng center));
      [| reflexivity].
    destruct (Js.parseInt parseIntString (fb_radius fence)); [| reflexivity].
    cbv zeta. now destruct (geoFenceSchema _).
  - unfold put_fence.
    destruct (negb (isAuthority user)); [reflexivity |].
    destruct (updateData _ _ _ fence now); [| reflexivity].
    now destruct (findByIdAndUpdate _ _ _ _) as [[geoFence |] l].
  - unfold delete_alert.
    destruct (negb (isAuthority user)); [reflexivity |].
    now destruct (findByIdAndDelete _ _ _) as [[alert |] l].
  - unfold delete_fence.
    destruct (negb (isAuthority user)); [reflexivity |].
    now destruct (findByIdAndDelete _ _ _) as [[geoFence |] l].
Qed.

(** X16.  The two handlers that write twice are not all-or-nothing.  A
    [POST /incident] that fails leaves the store as it was or, answering
    500, leaves one new incident with no alert; a [POST /sos] that fails
    leaves the store as it was or, answering 500, leaves one new sos
    alert while the tourist's status is what it was. *)
Theorem failed_filing_may_leave_a_record
    (parseFloatString : string -> number) (numberToString : R -> string)
    (alertSchema : Alert -> bool) (incidentSchema : Incident -> bool)
    (touristSchema : Tourist -> bool)
    (user : ReqUser) (incident : IncidentBody) (sos : SosBody) (now : Z)
    (db : Db) :
  (forall res db',
     post_incident parseFloatString numberToString alertSchema incidentSchema
                   user incident now db = (res, db') ->
     res_success res = false ->
     db' = db \/
     (res_status res = 500 /\ alerts db' = alerts db /\
      tourists db' = tourists db /\
      exists filed, incidents db' = (incidents db ++ [filed])%list /\
                    incidentSchema filed = true))
  /\ (forall res db',
        post_sos parseFloatString numberToString alertSchema touristSchema
                 user sos now db = (res, db') ->
        res_success res = false ->
        db' = db \/
        (res_status res = 500 /\ tourists db' = tourists db /\
         incidents db' = incidents db /\
         exists sosAlert, alerts db' = (alerts db ++ [sosAlert])%list /\
                          alert_type sosAlert = "sos" /\
                          alertSchema sosAlert = true)).
Proof.
  split.
  - unfold post_incident. cbv zeta. intros res db' H Hfail.
    destruct (inc_location incident) as [location |];
      [| injection H as <- <-; now left].
    destruct (negb _ || _ || _); [injection H as <- <-; now left |].
    destruct (findTourist user db) as [tourist |];
      [| injection H as <- <-; now left].
    destruct (Js.parseFloat parseFloatString (body_lat location)) as [lat |];
      [| injection H as <- <-; now left].
    destruct (Js.parseFloat parseFloatString (body_lng location)) as [lng |];
      [| injection H as <- <-; now left].
    destruct (incidentSchema _) eqn:Hfiled;
      [| injection H as <- <-; now left].
    destruct (alertSchema _).
    + destruct (assignToAuthority _ _ _) as [incident' db3].
      injection H as <- <-. discriminate.
    + injection H as <- <-. right. simpl.
      repeat (split; [reflexivity |]).
      eexists. split; [reflexivity | exact Hfiled].
  - unfold post_sos. cbv zeta. intros res db' H Hfail.
    break_handler H; injection H as <- <-; try discriminate Hfail;
      try (now left).
    all: right; simpl; repeat (split; [reflexivity |]);
      eexists; split; [reflexivity |]; split; [reflexivity | assumption].
Qed.

Lemma failed_filing_may_leave_a_record_witness :
  exists res db' filed,
    post_incident Demo.noNumber Demo.printNumber (fun _ => false) Demo.accept
                  Demo.touristUser Demo.incidentBody 1700000600000 Demo.db
    = (res, db') /\
    res_status res = 500 /\
    alerts db' = alerts Demo.db /\
    incidents db' = (incidents Demo.db ++ [filed])%list.
Proof.
  set (run := post_incident Demo.noNumber Demo.printNumber (fun _ => false)
                Demo.accept Demo.touristUser Demo.incidentBody 1700000600000
                Demo.db).
  assert (Hrun : run = (fst run, snd run)) by apply surjective_pairing.
  destruct (failed_filing_may_leave_a_record Demo.noNumber Demo.printNumber
              (fun _ => false) Demo.accept Demo.accept Demo.touristUser
              Demo.incidentBody Demo.sosBody 1700000600000 Demo.db)
    as [Hincident _].
  destruct (Hincident _ _ Hrun eq_refl)
    as [Hsame | [Hstatus [Halerts [_ [filed [Hfiled _]]]]]].
  - exfalso. assert (Hnext : nextId (snd run) = nextId Demo.db)
      by (now rewrite Hsame).
    discriminate Hnext.
  - exists (fst run), (snd run), filed. auto.
Defined.

(** ** SOS and coordinates *)

(** X17.  An SOS with no location, or whose latitude or longitude is
    the number 0, is answered 400 "Location coordinates are required for
    SOS": no alert is stored and the tourist's status is not touched. *)
Theorem post_sos_zero_coordinate_rejected
    (parseFloatString : string -> number) (numberToString : R -> string)
    (alertSchema : Alert -> bool) (touristSchema : Tourist -> bool)
    (user : ReqUser) (body : SosBody) (now : Z) (db : Db) :
  (sos_location body = None \/
   exists location, sos_location body = Some location /\
                    (body_lat location = JsNumber 0 \/
                     body_lng location = JsNumber 0)) ->
  post_sos parseFloatString numberToString alertSchema touristSchema
           user body now db
  = (fail 400 "Location coordinates are required for SOS", db).
Proof.
  unfold post_sos. cbv zeta.
  intros [-> | [location [-> Hzero]]]; [reflexivity |].
  now rewrite (coordinates_required _ _ Hzero).
Qed.

Lemma post_sos_zero_coordinate_rejected_witness :
  post_sos Demo.noNumber Demo.printNumber Demo.accept Demo.accept
           Demo.touristUser
           (mkSosBody (Some (mkLocationBody (JsNumber 0) (JsNumber 77)
                                            JsUndefined))
                      (JsString "Help") JsUndefined)
           1700000600000 Demo.db
  = (fail 400 "Location coordinates are required for SOS", Demo.db).
Proof.
  apply post_sos_zero_coordinate_rejected. right.
  eexists. split; [reflexivity |]. left. reflexivity.
Defined.

(** ** What a status update leaves alone *)

(** X18.  Whatever it answers, a status update on the alerts router or
    on the authority router writes to the alert collection only; in
    every alert it keeps the id, the kind, the tourist, the location, the
    message, the description, the severity and the creation time; it
    leaves every alert stored under another id as it was; and on the
    alerts router the responding authority is kept as well. *)
Theorem status_update_keeps (numberToString : R -> string)
    (user : ReqUser) (id : ObjectId) (body : StatusBody) (now : Z) (db : Db) :
  let content (a : Alert) :=
    (alert_id a, alert_type a, alert_touristId a, alert_location a,
     alert_message a, alert_description a, alert_severity a,
     alert_createdAt a) in
  let db1 := snd (put_alert_status numberToString user id body now db) in
  let db2 := snd (authority_put_alert_status numberToString user id body
                                             now db) in
  db1 = set_alerts (alerts db1) db /\
  db2 = set_alerts (alerts db2) db /\
  map content (alerts db1) = map content (alerts db) /\
  map content (alerts db2) = map content (alerts db) /\
  map alert_authorityId (alerts db1) = map alert_authorityId (alerts db) /\
  (forall a, In a (alerts db) -> alert_id a <> id ->
             In a (alerts db1) /\ In a (alerts db2)).
Proof.
  cbv zeta.
  assert (Hsame : db = set_alerts (alerts db) db) by (now destruct db).
  unfold put_alert_status, authority_put_alert_status. cbv zeta.
  set (status := Js.toString numberToString (body_status body)).
  assert (H1 : forall authorityId,
             let l := snd (findByIdAndUpdate alert_id id
                             (set_alert_status status authorityId now)
                             (alerts db)) in
             map (fun a => (alert_id a, alert_type a, alert_touristId a,
                            alert_location a, alert_message a,
                            alert_description a, alert_severity a,
                            alert_createdAt a)) l
             = map (fun a => (alert_id a, alert_type a, alert_touristId a,
                              alert_location a, alert_message a,
                              alert_description a, alert_severity a,
                              alert_createdAt a)) (alerts db)
             /\ (forall a, In a (alerts db) -> alert_id a <> id -> In a l)).
  { intros authorityId l. split.
    - apply findByIdAndUpdate_map. reflexivity.
    - intros a. apply findByIdAndUpdate_others. }
  assert (H2 : map alert_authorityId
                   (snd (findByIdAndUpdate alert_id id
                           (set_alert_status status None now) (alerts db)))
               = map alert_authorityId (alerts db)).
  { apply findByIdAndUpdate_map. reflexivity. }
  assert (Hfirst :
    let db1 :=
      snd (if negb (isAuthority user)
           then (fail 403
                   "Access denied. Only authorities can update alert status.",
                 db)
           else if negb (includes ["acknowledged"; "responding"; "resolved";
                                   "closed"] (body_status body))
           then (fail 400 "Invalid status", db)
           else match findByIdAndUpdate alert_id id
                        (set_alert_status status None now) (alerts db) with
                | (None, _) => (fail 404 "Alert not found", db)
                | (Some alert, alerts') =>
                    (ok 200 "Alert status updated successfully" alert,
                     set_alerts alerts' db)
                end) in
    db1 = db \/
    db1 = set_alerts (snd (findByIdAndUpdate alert_id id
                             (set_alert_status status None now) (alerts db)))
                     db).
  { cbv zeta. destruct (negb (isAuthority user)); [now left |].
    destruct (negb (includes _ (body_status body))); [now left |].
    destruct (findByIdAndUpdate alert_id id
                (set_alert_status status None now) (alerts db))
      as [[alert |] l]; [now right |].
    now left. }
  assert (Hsecond :
    let db2 :=
      snd (if negb (includes ["acknowledged"; "responding"; "resolved";
                              "closed"] (body_status body))
           then (fail 400 "Invalid status", db)
           else match findAuthority user db with
                | None => (fail 500 "Server error", db)
                | Some authority =>
                    match findByIdAndUpdate alert_id id
                            (set_alert_status status
                               (Some (authority_id authority)) now)
                            (alerts db) with
                    | (None, _) => (fail 404 "Alert not found", db)
                    | (Some alert, alerts') =>
                        (ok 200 "Alert status updated successfully" alert,
                         set_alerts alerts' db)
                    end
                end) in
    db2 = db \/
    exists authorityId,
      db2 = set_alerts (snd (findByIdAndUpdate alert_id id
                               (set_alert_status status authorityId now)
                               (alerts db)))
                       db).
  { cbv zeta.
    destruct (negb (includes _ (body_status body))); [now left |].
    destruct (findAuthority user db) as [authority |]; [| now left].
    destruct (findByIdAndUpdate alert_id id
                (set_alert_status status (Some (authority_id authority)) now)
                (alerts db)) as [[alert |] l] eqn:Hrun;
      [| now left].
    right. exists (Some (authority_id authority)). now rewrite Hrun. }
  cbv zeta in Hfirst, Hsecond.
  destruct Hfirst as [-> | ->]; destruct Hsecond as [-> | [authorityId ->]];
    simpl alerts;
    repeat split; try exact Hsame; try reflexivity;
    try (destruct db; reflexivity);
    try apply (H1 None); try apply (H1 authorityId); try exact H2; auto.
Qed.

(** ** Assignment of an incident *)

(** X19.  [assignToAuthority] gives the incident to the first authority
    of the store that is on duty in the Police Department or the Tourism
    Department; when the save of the assignment is refused the store
    stays as it was; when no authority qualifies the incident and the
    store stay as they were. *)
Theorem assignToAuthority_first_on_duty
    (incidentSchema : Incident -> bool) (incident : Incident) (db : Db) :
  let qualifies (a : Authority) :=
    authority_isOnDuty a = true /\
    (authority_department a = "Police Department" \/
     authority_department a = "Tourism Department") in
  ((forall a, In a (authorities db) -> ~ qualifies a) ->
   assignToAuthority incidentSchema incident db = (incident, db))
  /\ (forall before first after,
        authorities db = (before ++ first :: after)%list ->
        qualifies first ->
        (forall a, In a before -> ~ qualifies a) ->
        let assigned :=
          set_incident_assignedOfficer (authority_id first) incident in
        assignToAuthority incidentSchema incident db
        = (assigned,
           if incidentSchema assigned
           then set_incidents (save incident_id assigned (incidents db)) db
           else db)).
Proof.
  cbv zeta.
  set (eligible := fun a : Authority =>
                     authority_isOnDuty a
                     && existsb (String.eqb (authority_department a))
                                ["Police Department"; "Tourism Department"]).
  assert (Heligible : forall a,
             eligible a = true <->
             authority_isOnDuty a = true /\
             (authority_department a = "Police Department" \/
              authority_department a = "Tourism Department")).
  { intros a. unfold eligible. rewrite andb_true_iff. simpl.
    rewrite !orb_true_iff, !String.eqb_eq. intuition discriminate. }
  unfold assignToAuthority. cbv zeta. fold eligible. split.
  - intros Hnone.
    assert (Hempty : filter eligible (authorities db) = []).
    { destruct (filter eligible (authorities db)) as [| a l] eqn:Hf;
        [reflexivity |].
      assert (Hin : In a (filter eligible (authorities db)))
        by (rewrite Hf; now left).
      apply filter_In in Hin. destruct Hin as [Hin Ha].
      apply Heligible in Ha. now destruct (Hnone a Hin). }
    now rewrite Hempty.
  - intros before first after Hsplit Hfirst Hbefore.
    assert (Hfilter : filter eligible (authorities db)
                      = first :: filter eligible after).
    { rewrite Hsplit, filter_app. simpl.
      apply Heligible in Hfirst. rewrite Hfirst.
      assert (Hnil : filter eligible before = []).
      { destruct (filter eligible before) as [| a l] eqn:Hf; [reflexivity |].
        assert (Hin : In a (filter eligible before)) by (rewrite Hf; now left).
        apply filter_In in Hin. destruct Hin as [Hin Ha].
        apply Heligible in Ha. now destruct (Hbefore a Hin). }
      now rewrite Hnil. }
    rewrite Hfilter. now destruct (incidentSchema _).
Qed.

Lemma assignToAuthority_first_on_duty_witness :
  authorities Demo.db = ([] ++ Demo.raoProfile :: [])%list /\
  authority_isOnDuty Demo.raoProfile = true /\
  authority_department Demo.raoProfile = "Police Department" /\
  forall incident,
    incident_assignedOfficer
      (fst (assignToAuthority Demo.accept incident Demo.db))
    = Some 21%nat.
Proof.
  split; [reflexivity |]. split; [reflexivity |]. split; [reflexivity |].
  intros incident.
  destruct (assignToAuthority_first_on_duty Demo.accept incident Demo.db)
    as [_ Hfirst].
  rewrite (Hfirst [] Demo.raoProfile [] eq_refl).
  - reflexivity.
  - split; [reflexivity | left; reflexivity].
  - intros a [].
Defined.

(** ** The danger flag of a location check and the score *)

Lemma count_positive {A : Type} (p : A -> bool) (l : list A) (x : A) :
  In x l -> p x = true -> 1 <= Spec.count p l.
Proof.
  intros Hin Hp. unfold Spec.count.
  assert (Hf : In x (filter p l)) by (now apply filter_In).
  destruct (filter p l); [destruct Hf | simpl; lia].
Qed.

(** X20.  A location check at a position with numeric, non-zero
    coordinates answers 200; its flag [isInDangerZone] is set exactly
    when an active fence of type danger contains the position, and then
    the safety score of that position is at most 55 at any hour. *)
Theorem check_location_danger_flag
    (parseFloatString stringToNumber : string -> number) (lat lng : R)
    (db : Db) :
  lat <> 0%R -> lng <> 0%R ->
  exists data,
    post_check_location parseFloatString
                        (mkPointBody (JsNumber lat) (JsNumber lng)) db
    = (mkResponse 200 true "" (Some data), db) /\
    (isInDangerZone data = true <->
     exists fence d,
       In fence (geoFences db) /\ fence_isActive fence = true /\
       fence_type fence = "danger" /\
       calculateDistance lat lng (center_lat (fence_center fence))
                         (center_lng (fence_center fence)) = Some d /\
       (d <= fence_radius fence)%R) /\
    (isInDangerZone data = true ->
     forall hour now,
       calculateSafetyScore stringToNumber (JsNumber lat) (JsNumber lng) hour
                            now db <= 55).
Proof.
  intros Hlat Hlng.
  unfold post_check_location. cbn [point_lat point_lng].
  rewrite (truthy_number lat Hlat), (truthy_number lng Hlng).
  simpl negb. simpl orb. cbv iota. cbn [Js.parseFloat].
  eexists. split; [reflexivity |]. cbn [isInDangerZone].
  assert (Hflag :
    existsb (fun r => String.eqb (fence_type (geoFence r)) "danger")
            (containingZones (Some lat) (Some lng) db) = true
    <-> exists fence,
          In fence (geoFences db) /\ fence_isActive fence = true /\
          fence_type fence = "danger" /\
          Spec.insideZone lat lng fence = true).
  { rewrite existsb_exists. split.
    - intros [r [Hr Hdanger]]. exists (geoFence r).
      apply String.eqb_eq in Hdanger.
      assert (Hin : In (geoFence r)
                       (map geoFence (containingZones (Some lat) (Some lng)
                                                      db)))
        by (now apply in_map).
      apply containingZones_In in Hin. destruct Hin as [Hin [Hon Hcontains]].
      repeat split; assumption.
    - intros [fence [Hin [Hon [Hdanger Hinside]]]].
      assert (Hrep : In fence
                        (map geoFence (containingZones (Some lat) (Some lng)
                                                       db)))
        by (apply containingZones_In; repeat split; assumption).
      apply in_map_iff in Hrep. destruct Hrep as [r [Hr Hrin]].
      exists r. split; [exact Hrin |]. rewrite Hr.
      now apply String.eqb_eq. }
  split.
  - rewrite Hflag. split.
    + intros [fence [Hin [Hon [Hdanger Hinside]]]].
      unfold Spec.insideZone in Hinside.
      destruct (calculateDistance lat lng _ _) as [d |] eqn:Hd;
        [| discriminate].
      exists fence, d. repeat split; try assumption. now apply Rleb_true.
    + intros [fence [d [Hin [Hon [Hdanger [Hd Hle]]]]]].
      exists fence. repeat split; try assumption.
      unfold Spec.insideZone. rewrite Hd. now apply Rleb_true.
  - intros Hset hour now. apply Hflag in Hset.
    destruct Hset as [fence [Hin [Hon [Hdanger Hinside]]]].
    rewrite calculateSafetyScore_unfold.
    assert (Hzone : In fence (filter isDangerZone (geoFences db))).
    { apply filter_In. split; [exact Hin |].
      unfold isDangerZone. rewrite Hon. apply String.eqb_eq in Hdanger.
      now rewrite Hdanger. }
    pose proof (count_positive (Spec.insideZone lat lng) _ fence Hzone
                               Hinside).
    pose proof (count_nonneg (Spec.nearZone lat lng)
                             (filter isDangerZone (geoFences db))).
    pose proof (count_nonneg (recentAlertFilter lat lng now) (alerts db)).
    destruct (nightTime hour); lia.
Qed.

Lemma check_location_danger_flag_witness :
  28%R <> 0%R /\ 77%R <> 0%R /\
  exists data,
    post_check_location Demo.noNumber
                        (mkPointBody (JsNumber 28) (JsNumber 77)) Demo.db
    = (mkResponse 200 true "" (Some data), Demo.db) /\
    isInDangerZone data = true /\
    calculateSafetyScore Demo.noNumber (JsNumber 28) (JsNumber 77) 12
                         1700003600000 Demo.db
    <= 55.
Proof.
  assert (Hlat : 28%R <> 0%R) by lra.
  assert (Hlng : 77%R <> 0%R) by lra.
  split; [exact Hlat |]. split; [exact Hlng |].
  destruct (check_location_danger_flag Demo.noNumber Demo.noNumber 28 77
              Demo.db Hlat Hlng)
    as [data [Hrun [Hflag Hscore]]].
  assert (Hset : isInDangerZone data = true).
  { apply Hflag. exists Demo.quarry, 0%R. simpl.
    split; [now left |]. split; [reflexivity |]. split; [reflexivity |].
    split; [apply calculateDistance_self | lra]. }
  exists data. split; [exact Hrun |]. split; [exact Hset |].
  now apply Hscore.
Defined.
